(** * Certificate-verification ledger: a shallow embedding of
      [core.py], [smart_contract.py] and [manager.py], and the properties
      the specification states about them.

    Layout: the library layer the code calls into (SHA-256, [json.dumps],
    Python string and number helpers), then the classes of the repository
    ([Block], [Blockchain], [CertificateSmartContract], [BlockchainManager]),
    then the theorems. *)

From Stdlib Require Import ZArith List String Ascii Bool Lia Permutation Sorted.
From Stdlib Require Import DecimalString Decimal.
From Stdlib Require DecimalZ DecimalPos DecimalFacts DecimalN.
Import ListNotations.
#[local] Set Warnings "-register-all".
Local Open Scope string_scope.
Local Open Scope Z_scope.

(* ================================================================== *)
(** ** [hashlib.sha256]: FIPS 180-4 over 32-bit words held in [Z] *)

Module SHA256.

Definition mask32 : Z := 0xffffffff.

Definition add32 (x y : Z) : Z := Z.land (x + y) mask32.

Definition shr (n x : Z) : Z := Z.shiftr x n.

Definition rotr (n x : Z) : Z :=
  Z.lor (Z.shiftr x n) (Z.land (Z.shiftl x (32 - n)) mask32).

Definition not32 (x : Z) : Z := Z.lxor x mask32.

Definition ch (x y z : Z) : Z := Z.lxor (Z.land x y) (Z.land (not32 x) z).

Definition maj (x y z : Z) : Z :=
  Z.lxor (Z.lxor (Z.land x y) (Z.land x z)) (Z.land y z).

Definition big_sigma0 (x : Z) : Z :=
  Z.lxor (Z.lxor (rotr 2 x) (rotr 13 x)) (rotr 22 x).

Definition big_sigma1 (x : Z) : Z :=
  Z.lxor (Z.lxor (rotr 6 x) (rotr 11 x)) (rotr 25 x).

Definition small_sigma0 (x : Z) : Z :=
  Z.lxor (Z.lxor (rotr 7 x) (rotr 18 x)) (shr 3 x).

Definition small_sigma1 (x : Z) : Z :=
  Z.lxor (Z.lxor (rotr 17 x) (rotr 19 x)) (shr 10 x).

(** The constants are the first 32 bits of the fractional parts of the
    cube roots (round constants) and square roots (initial state) of the
    first primes. *)
Definition is_prime (n : Z) : bool :=
  forallb (fun d => negb (n mod d =? 0))
          (map (fun k => Z.of_nat k + 2) (seq 0 (Z.to_nat (Z.sqrt n) - 1))).

Fixpoint primes_from (fuel count : nat) (n : Z) : list Z :=
  match fuel, count with
  | S fuel', S count' =>
      if is_prime n then n :: primes_from fuel' count' (n + 1)
      else primes_from fuel' count (n + 1)
  | _, _ => []
  end.

Definition first_primes (count : nat) : list Z := primes_from 400 count 2.

(** Largest [r] below [2 ^ bits] above [acc] with [r ^ 3 <= x]. *)
Fixpoint cube_root_bits (bits : nat) (acc x : Z) : Z :=
  match bits with
  | O => acc
  | S k =>
      let candidate := acc + 2 ^ Z.of_nat k in
      if candidate ^ 3 <=? x then cube_root_bits k candidate x
      else cube_root_bits k acc x
  end.

Definition frac_cube_root (p : Z) : Z :=
  Z.land (cube_root_bits 36 0 (p * 2 ^ 96)) mask32.

Definition frac_square_root (p : Z) : Z :=
  Z.land (Z.sqrt (p * 2 ^ 64)) mask32.

Definition round_constants : list Z :=
  Eval vm_compute in map frac_cube_root (first_primes 64).

Definition initial_state : list Z :=
  Eval vm_compute in map frac_square_root (first_primes 8).

(** Big-endian encoding of [x] on [n] bytes. *)
Fixpoint be_bytes (n : nat) (x : Z) : list Z :=
  match n with
  | O => []
  | S k => Z.land (Z.shiftr x (8 * Z.of_nat k)) 255 :: be_bytes k x
  end.

(** Message padding: a [0x80] byte, zeros up to 56 mod 64, then the bit
    length on eight bytes. *)
Definition pad (msg : list Z) : list Z :=
  let len := Z.of_nat (List.length msg) in
  let zeros := Z.to_nat ((55 - len) mod 64) in
  msg ++ 128 :: repeat 0 zeros ++ be_bytes 8 (8 * len).

Fixpoint words_of_bytes (fuel : nat) (bs : list Z) : list Z :=
  match fuel, bs with
  | S k, a :: b :: c :: d :: rest =>
      (((a * 256 + b) * 256 + c) * 256 + d) :: words_of_bytes k rest
  | _, _ => []
  end.

(** The 48 scheduled words that follow the 16 message words; [win] is the
    window of the last 16 words, oldest first. *)
Fixpoint expand (n : nat) (win : list Z) : list Z :=
  match n with
  | O => []
  | S k =>
      let w := add32 (add32 (small_sigma1 (nth 14 win 0)) (nth 9 win 0))
                     (add32 (small_sigma0 (nth 1 win 0)) (nth 0 win 0)) in
      w :: expand k (tl win ++ [w])
  end.

Definition schedule (block : list Z) : list Z := block ++ expand 48 block.

Record regs : Type := mkRegs
  { ra : Z; rb : Z; rc : Z; rd : Z; re : Z; rf : Z; rg : Z; rh : Z }.

Definition round (s : regs) (kw : Z * Z) : regs :=
  let t1 := add32 (add32 (add32 (rh s) (big_sigma1 (re s)))
                         (add32 (ch (re s) (rf s) (rg s)) (fst kw)))
                  (snd kw) in
  let t2 := add32 (big_sigma0 (ra s)) (maj (ra s) (rb s) (rc s)) in
  mkRegs (add32 t1 t2) (ra s) (rb s) (rc s) (add32 (rd s) t1) (re s) (rf s) (rg s).

Definition regs_of_list (h : list Z) : regs :=
  mkRegs (nth 0 h 0) (nth 1 h 0) (nth 2 h 0) (nth 3 h 0)
         (nth 4 h 0) (nth 5 h 0) (nth 6 h 0) (nth 7 h 0).

Definition list_of_regs (s : regs) : list Z :=
  [ra s; rb s; rc s; rd s; re s; rf s; rg s; rh s].

Definition compress (h : list Z) (block : list Z) : list Z :=
  let s := fold_left round (combine round_constants (schedule block))
                     (regs_of_list h) in
  map (fun p => add32 (fst p) (snd p)) (combine h (list_of_regs s)).

Fixpoint blocks (fuel : nat) (ws : list Z) : list (list Z) :=
  match fuel, ws with
  | S k, _ :: _ => firstn 16 ws :: blocks k (skipn 16 ws)
  | _, _ => []
  end.

Definition digest_words (msg : list Z) : list Z :=
  let padded := pad msg in
  let ws := words_of_bytes (List.length padded) padded in
  fold_left compress (blocks (List.length ws) ws) initial_state.

Definition hex_digit (d : Z) : ascii :=
  if d <? 10 then ascii_of_N (Z.to_N (48 + d))
  else ascii_of_N (Z.to_N (87 + d)).

Definition hex_of_byte (b : Z) : string :=
  String (hex_digit (b / 16)) (String (hex_digit (b mod 16)) EmptyString).

Definition hex_of_word (w : Z) : string :=
  String.concat EmptyString (map hex_of_byte (be_bytes 4 w)).

Definition bytes_of_string (s : string) : list Z :=
  map (fun c => Z.of_N (N_of_ascii c)) (list_ascii_of_string s).

(** [hashlib.sha256(s.encode()).hexdigest()] for a string of ASCII
    characters. *)
Definition hexdigest (s : string) : string :=
  String.concat EmptyString (map hex_of_word (digest_words (bytes_of_string s))).

End SHA256.

(* ================================================================== *)
(** ** Python values

    Strings are sequences of code points below 256.  A finite [float] is
    held as the decimal [fl_mant * 10 ^ fl_exp] that its [repr] prints:
    [repr] round-trips, so this identifies the float, and comparing the
    decimal with an integer gives the float's own comparison; [mkFloat 0 _]
    is [0.0].  Negative zero, the two infinities and [nan] are values of
    their own.  A tuple is another value than the list of its items.  A
    [dict] is an association list in insertion order; its keys are strings
    and pairwise distinct. *)

Inductive pyfloat : Type :=
| mkFloat (fl_mant fl_exp : Z)
| NegZero
| PosInf
| NegInf
| NaN.

Inductive value : Type :=
| VNone
| VBool (b : bool)
| VInt (n : Z)
| VFloat (f : pyfloat)
| VStr (s : string)
| VList (items : list value)
| VDict (entries : list (string * value))
| VTuple (items : list value).

Definition dict : Type := list (string * value).

Fixpoint lookup (d : dict) (k : string) : option value :=
  match d with
  | [] => None
  | (k', v) :: rest => if String.eqb k' k then Some v else lookup rest k
  end.

(** [d.get(k, default)] *)
Definition get_default (d : dict) (k : string) (default : value) : value :=
  match lookup d k with Some v => v | None => default end.

(** [d.get(k)] *)
Definition get (d : dict) (k : string) : value := get_default d k VNone.

(** [k in d] *)
Definition contains (d : dict) (k : string) : bool :=
  match lookup d k with Some _ => true | None => false end.

Definition keys (d : dict) : list string := map fst d.

(** [v == s] for a string [s]: only an equal string compares equal. *)
Definition eq_str (v : value) (s : string) : bool :=
  match v with VStr t => String.eqb t s | _ => false end.

(** Truth value of [v] in a condition. *)
Definition truthy (v : value) : bool :=
  match v with
  | VNone => false
  | VBool b => b
  | VInt n => negb (n =? 0)
  | VFloat f =>
      match f with
      | mkFloat m _ => negb (m =? 0)
      | NegZero => false
      | PosInf | NegInf | NaN => true
      end
  | VStr s => negb (String.eqb s EmptyString)
  | VList l => match l with [] => false | _ => true end
  | VDict d => match d with [] => false | _ => true end
  | VTuple l => match l with [] => false | _ => true end
  end.

(** An exception: its class and what [str(e)] gives. *)
Record exn : Type := mkExn { exn_class : string; exn_message : string }.

(** Outcome of running a piece of Python: a value, a raised exception, or
    no answer within the given number of loop iterations. *)
Inductive outcome (A : Type) : Type :=
| Return (a : A)
| Raise (exc : exn)
| OutOfFuel.
Arguments Return {A} a.
Arguments Raise {A} exc.
Arguments OutOfFuel {A}.

Definition type_name (v : value) : string :=
  match v with
  | VNone => "NoneType"
  | VBool _ => "bool"
  | VInt _ => "int"
  | VFloat _ => "float"
  | VStr _ => "str"
  | VList _ => "list"
  | VDict _ => "dict"
  | VTuple _ => "tuple"
  end.

(** [m * 10^e >= n] on exact decimals. *)
Definition decimal_ge (m e n : Z) : bool :=
  if 0 <=? e then n <=? m * 10 ^ e else n * 10 ^ (- e) <=? m.

(** [v >= n] for an integer [n]; [bool] is a subclass of [int]; any other
    operand type raises [TypeError]. *)
Definition ge_int (v : value) (n : Z) : outcome bool :=
  match v with
  | VInt m => Return (n <=? m)
  | VBool b => Return (n <=? (if b then 1 else 0))
  | VFloat f =>
      Return (match f with
              | mkFloat m e => decimal_ge m e n
              | NegZero => n <=? 0
              | PosInf => true
              | NegInf | NaN => false
              end)
  | _ => Raise (mkExn "TypeError"
                 ("'>=' not supported between instances of '"
                    ++ type_name v ++ "' and 'int'"))
  end.

(** [v.get(k, default)] on a value of any type: only a [dict] has the
    method. *)
Definition attr_get_default (v : value) (k : string) (default : value)
  : outcome value :=
  match v with
  | VDict d => Return (get_default d k default)
  | _ => Raise (mkExn "AttributeError"
                 ("'" ++ type_name v ++ "' object has no attribute 'get'"))
  end.

(** [v.get(k)] *)
Definition attr_get (v : value) (k : string) : outcome value :=
  attr_get_default v k VNone.

(** [s[:n]] *)
Definition slice_to (s : string) (n : Z) : string :=
  if n <? 0
  then substring 0 (String.length s - Z.to_nat (- n)) s
  else substring 0 (Z.to_nat n) s.

(** [c * n] for a one-character string [c] *)
Definition str_repeat (c : ascii) (n : Z) : string :=
  string_of_list_ascii (repeat c (Z.to_nat n)).

(* ================================================================== *)
(** ** [json.dumps(obj, sort_keys=True)] with the default separators and
       [ensure_ascii] *)

Module Json.

Definition str_of_int (n : Z) : string := NilZero.string_of_int (Z.to_int n).

Definition dquote : string := String "034"%char EmptyString.

Definition hex4 (n : Z) : string :=
  SHA256.hex_of_byte (n / 256) ++ SHA256.hex_of_byte (n mod 256).

Definition escape_char (c : ascii) : string :=
  let n := Z.of_N (N_of_ascii c) in
  if n =? 34 then "\" ++ dquote else
  if n =? 92 then "\\" else
  if n =? 10 then "\n" else
  if n =? 13 then "\r" else
  if n =? 9 then "\t" else
  if n =? 8 then "\b" else
  if n =? 12 then "\f" else
  if (n <? 32) || (126 <? n) then "\u" ++ hex4 n
  else String c EmptyString.

Fixpoint escape (s : string) : string :=
  match s with
  | EmptyString => EmptyString
  | String c rest => escape_char c ++ escape rest
  end.

Definition quote (s : string) : string := dquote ++ escape s ++ dquote.

(** Trailing zeros of the digits, read from the last one, go into the
    exponent. *)
Fixpoint strip_zeros (rev_digits : list ascii) (e : Z) : list ascii * Z :=
  match rev_digits with
  | "0"%char :: rest => strip_zeros rest (e + 1)
  | _ => (rev_digits, e)
  end.

Definition pad2 (s : string) : string :=
  if (String.length s <? 2)%nat then "0" ++ s else s.

(** [repr] of a finite float other than zero, sign apart: the shortest
    digits [ds] with the decimal point after the first [decpt] of them;
    exponent form when [decpt <= -4] or [decpt > 16], else positional
    with at least one fractional digit. *)
Definition repr_digits (ds : list ascii) (decpt : Z) : list ascii :=
  let n := Z.of_nat (List.length ds) in
  if (decpt <=? -4) || (16 <? decpt) then
    let x := decpt - 1 in
    (firstn 1 ds
       ++ match skipn 1 ds with [] => [] | frac => "."%char :: frac end
       ++ "e"%char :: (if x <? 0 then "-"%char else "+"%char)
            :: list_ascii_of_string (pad2 (str_of_int (Z.abs x))))%list
  else if decpt <=? 0 then
    ("0"%char :: "."%char :: repeat "0"%char (Z.to_nat (- decpt)) ++ ds)%list
  else if n <=? decpt then
    (ds ++ repeat "0"%char (Z.to_nat (decpt - n)) ++ ["."%char; "0"%char])%list
  else
    (firstn (Z.to_nat decpt) ds ++ "."%char :: skipn (Z.to_nat decpt) ds)%list.

Definition finite_repr (m ex : Z) : string :=
  if m =? 0 then "0.0" else
  let all := list_ascii_of_string (str_of_int (Z.abs m)) in
  let '(rds, e) := strip_zeros (List.rev all) ex in
  let ds := List.rev rds in
  let body := repr_digits ds (Z.of_nat (List.length ds) + e) in
  string_of_list_ascii (if m <? 0 then "-"%char :: body else body).

(** The text the encoder writes for a float: [repr] of a finite one,
    [NaN], [Infinity] and [-Infinity] otherwise. *)
Definition float_repr (f : pyfloat) : string :=
  match f with
  | mkFloat m ex => finite_repr m ex
  | NegZero => "-0.0"
  | PosInf => "Infinity"
  | NegInf => "-Infinity"
  | NaN => "NaN"
  end.

Fixpoint join (sep : string) (parts : list string) : string :=
  match parts with
  | [] => EmptyString
  | [p] => p
  | p :: rest => p ++ sep ++ join sep rest
  end.

(** Items ordered by key, as [sorted(dct.items())] orders them. *)
Fixpoint insert_item (kv : string * string) (l : list (string * string))
  : list (string * string) :=
  match l with
  | [] => [kv]
  | kv' :: rest =>
      if String.leb (fst kv) (fst kv') then kv :: l
      else kv' :: insert_item kv rest
  end.

Definition sort_items (l : list (string * string)) : list (string * string) :=
  fold_right insert_item [] l.

Definition render_item (kv : string * string) : string :=
  quote (fst kv) ++ ": " ++ snd kv.

Fixpoint dumps (v : value) : string :=
  match v with
  | VNone => "null"
  | VBool true => "true"
  | VBool false => "false"
  | VInt n => str_of_int n
  | VFloat f => float_repr f
  | VStr s => quote s
  | VList items | VTuple items => "[" ++ join ", " (map dumps items) ++ "]"
  | VDict entries =>
      "{" ++ join ", "
               (map render_item
                    (sort_items
                       (map (fun kv => (fst kv, dumps (snd kv))) entries)))
          ++ "}"
  end.

End Json.

(* ================================================================== *)
(** ** The clock and the monad of effects

    [time.time()] and [datetime.now()] read the system clock.  The world
    holds the readings the clock will give, one per call, and how many
    were taken so far.  A computation takes the world and gives an outcome
    and the world after it; the world survives an exception. *)

Record instant : Type := mkInstant
  { unix_time : pyfloat;     (* what [time.time()] returns *)
    isoformat : string }.    (* what [datetime.now().isoformat()] returns *)

Record world : Type := mkWorld { clock : nat -> instant; reads : nat }.

Definition M (A : Type) : Type := world -> outcome A * world.

Definition ret {A} (a : A) : M A := fun w => (Return a, w).

Definition bind {A B} (m : M A) (k : A -> M B) : M B :=
  fun w =>
    match m w with
    | (Return a, w') => k a w'
    | (Raise e, w') => (Raise e, w')
    | (OutOfFuel, w') => (OutOfFuel, w')
    end.

Definition lift {A} (o : outcome A) : M A := fun w => (o, w).

Notation "x <- m ;; k" := (bind m (fun x => k))
  (at level 61, m at next level, right associativity).
Notation "' pat <- m ;; k" := (bind m (fun x => match x with pat => k end))
  (at level 61, pat pattern, m at next level, right associativity).

Definition tick (w : world) : world := mkWorld (clock w) (S (reads w)).

(** [time.time()] *)
Definition time_time : M pyfloat :=
  fun w => (Return (unix_time (clock w (reads w))), tick w).

(** [datetime.now().isoformat()] *)
Definition now_isoformat : M string :=
  fun w => (Return (isoformat (clock w (reads w))), tick w).

(** Sequencing of outcomes outside the monad. *)
Definition obind {A B} (o : outcome A) (k : A -> outcome B) : outcome B :=
  match o with
  | Return a => k a
  | Raise e => Raise e
  | OutOfFuel => OutOfFuel
  end.

(* ================================================================== *)
(** ** [class Block] *)

Record Block : Type := mkBlock
  { index : Z;
    timestamp : pyfloat;
    data : dict;
    previous_hash : string;
    nonce : Z;
    hash : string }.

Definition set_nonce (b : Block) (n : Z) : Block :=
  mkBlock (index b) (timestamp b) (data b) (previous_hash b) n (hash b).

Definition set_hash (b : Block) (h : string) : Block :=
  mkBlock (index b) (timestamp b) (data b) (previous_hash b) (nonce b) h.

(** The string that [calculate_hash] digests. *)
Definition block_string (self : Block) : string :=
  Json.dumps (VDict [ ("index", VInt (index self));
                      ("timestamp", VFloat (timestamp self));
                      ("data", VDict (data self));
                      ("previous_hash", VStr (previous_hash self));
                      ("nonce", VInt (nonce self)) ]).

Definition calculate_hash (self : Block) : string :=
  SHA256.hexdigest (block_string self).

(** [Block.__init__] *)
Definition new_Block (index : Z) (timestamp : pyfloat) (data : dict)
    (previous_hash : string) : Block :=
  let self := mkBlock index timestamp data previous_hash 0 EmptyString in
  set_hash self (calculate_hash self).

(** [mine_block]: [fuel] bounds the number of turns of the [while] loop. *)
Fixpoint mine_block (fuel : nat) (self : Block) (difficulty : Z)
  : outcome Block :=
  let target := str_repeat "0"%char difficulty in
  if negb (String.eqb (slice_to (hash self) difficulty) target) then
    match fuel with
    | O => OutOfFuel
    | S fuel' =>
        let self1 := set_nonce self (nonce self + 1) in
        let self2 := set_hash self1 (calculate_hash self1) in
        mine_block fuel' self2 difficulty
    end
  else Return self.

Definition validate (self : Block) : bool :=
  let calculated_hash := calculate_hash self in
  String.eqb calculated_hash (hash self).

(* ================================================================== *)
(** ** [class Blockchain]

    [save_to_file] only writes a snapshot and swallows its own errors; it
    does not touch the chain in memory and is left out.  Lines printed to
    the console are left out too, except those of [is_chain_valid]. *)

Record Blockchain : Type := mkBlockchain
  { chain : list Block;
    difficulty : Z;
    pending_transactions : list value }.

Definition append_block (self : Blockchain) (b : Block) : Blockchain :=
  mkBlockchain (chain self ++ [b]) (difficulty self) (pending_transactions self).

Definition genesis_previous_hash : string := str_repeat "0"%char 64.

Definition create_genesis_block (fuel : nat) (self : Blockchain)
  : M Blockchain :=
  ts <- time_time ;;
  now <- now_isoformat ;;
  let genesis_block :=
    new_Block 0 ts
      [ ("type", VStr "genesis");
        ("message", VStr "Certificate Verification Blockchain");
        ("creator", VStr "System");
        ("timestamp", VStr now) ]
      genesis_previous_hash in
  mined <- lift (mine_block fuel genesis_block (difficulty self)) ;;
  ret (append_block self mined).

(** [Blockchain.__init__] *)
Definition new_Blockchain (fuel : nat) (difficulty : Z) : M Blockchain :=
  create_genesis_block fuel (mkBlockchain [] difficulty []).

(** [self.chain[-1]] *)
Definition get_latest_block (self : Blockchain) : outcome Block :=
  match List.rev (chain self) with
  | [] => Raise (mkExn "IndexError" "list index out of range")
  | b :: _ => Return b
  end.

Definition add_block (fuel : nat) (self : Blockchain) (data : dict)
  : M (Block * Blockchain) :=
  latest_block <- lift (get_latest_block self) ;;
  ts <- time_time ;;
  let new_block :=
    new_Block (Z.of_nat (List.length (chain self))) ts data
              (hash latest_block) in
  mined <- lift (mine_block fuel new_block (difficulty self)) ;;
  ret (mined, append_block self mined).

Definition calculate_certificate_hash (certificate_data : dict) : M string :=
  now <- now_isoformat ;;
  let cert_string :=
    Json.dumps
      (VDict [ ("certificate_number", get certificate_data "certificate_number");
               ("owner_id", get certificate_data "owner_id");
               ("file_hash",
                 get_default certificate_data "file_hash" (VStr EmptyString));
               ("timestamp", VStr now) ]) in
  ret (SHA256.hexdigest cert_string).

Definition add_certificate_transaction (fuel : nat) (self : Blockchain)
    (certificate_data : dict) : M (string * Blockchain) :=
  verified_at <- now_isoformat ;;
  cert_hash <- calculate_certificate_hash certificate_data ;;
  recorded_at <- now_isoformat ;;
  let transaction : dict :=
    [ ("type", VStr "certificate_verification");
      ("certificate_id", get certificate_data "certificate_id");
      ("certificate_number", get certificate_data "certificate_number");
      ("certificate_type", get certificate_data "certificate_type");
      ("owner_id", get certificate_data "owner_id");
      ("owner_name",
        get_default certificate_data "owner_name" (VStr "Unknown"));
      ("verification_status",
        get_default certificate_data "verification_status" (VStr "pending"));
      ("verified_by", get certificate_data "verified_by");
      ("verified_at", VStr verified_at);
      ("hash", VStr cert_hash);
      ("metadata",
        VDict [ ("confidence_score",
                  get_default certificate_data "confidence_score" (VInt 0));
                ("file_hash",
                  get_default certificate_data "file_hash" (VStr EmptyString));
                ("timestamp", VStr recorded_at) ]) ] in
  ' (block, self') <-
    add_block fuel self
      [ ("transaction_type", VStr "certificate_registration");
        ("transaction", VDict transaction) ] ;;
  ret (hash block, self').

Definition registration : string := "certificate_registration".

(** What [is_chain_valid] prints before it returns [False]. *)
Inductive printed : Type :=
| InvalidHashAt (i : Z)            (* Invalid hash at block i *)
| InvalidPreviousHashAt (i : Z).   (* Invalid previous hash at block i *)

(** The loop of [is_chain_valid] from position [i] on: [previous_block] is
    [chain[i-1]] and [rest] is [chain[i:]]. *)
Fixpoint is_chain_valid_from (i : Z) (previous_block : Block)
    (rest : list Block) : bool * list printed :=
  match rest with
  | [] => (true, [])
  | current_block :: rest' =>
      if negb (validate current_block) then (false, [InvalidHashAt i])
      else if negb (String.eqb (previous_hash current_block)
                               (hash previous_block))
      then (false, [InvalidPreviousHashAt i])
      else is_chain_valid_from (i + 1) current_block rest'
  end.

(** [is_chain_valid] with what it printed. *)
Definition is_chain_valid_log (self : Blockchain) : bool * list printed :=
  match chain self with
  | [] => (true, [])
  | first :: rest => is_chain_valid_from 1 first rest
  end.

Definition is_chain_valid (self : Blockchain) : bool :=
  fst (is_chain_valid_log self).

Section Queries.

(** [datetime.fromtimestamp(t).isoformat()]: local time, which depends on
    the time zone of the host. *)
Variable fromtimestamp_isoformat : pyfloat -> string.

Definition not_found : dict :=
  [ ("exists", VBool false);
    ("verified", VBool false);
    ("verification_status", VStr "NOT_FOUND") ].

Definition found (block : Block) (transaction : value) : dict :=
  [ ("exists", VBool true);
    ("verified", VBool true);
    ("block_index", VInt (index block));
    ("block_hash", VStr (hash block));
    ("timestamp", VFloat (timestamp block));
    ("human_time", VStr (fromtimestamp_isoformat (timestamp block)));
    ("transaction", transaction);
    ("verification_status", VStr "VALID") ].

(** The [for] loop of [verify_certificate] over the blocks left. *)
Fixpoint verify_certificate_loop (blocks : list Block)
    (certificate_hash : string) : outcome dict :=
  match blocks with
  | [] => Return not_found
  | block :: rest =>
      if eq_str (get (data block) "transaction_type") registration
         && contains (data block) "transaction"
      then
        let transaction := get_default (data block) "transaction" (VDict []) in
        obind (attr_get transaction "hash") (fun h =>
        if eq_str h certificate_hash then Return (found block transaction)
        else verify_certificate_loop rest certificate_hash)
      else verify_certificate_loop rest certificate_hash
  end.

Definition verify_certificate (self : Blockchain) (certificate_hash : string)
  : outcome dict :=
  verify_certificate_loop (chain self) certificate_hash.

Definition history_entry (block : Block) (transaction : value) : dict :=
  [ ("block_index", VInt (index block));
    ("timestamp", VStr (fromtimestamp_isoformat (timestamp block)));
    ("transaction", transaction);
    ("block_hash", VStr (hash block)) ].

(** The [for] loop of [get_certificate_history]; [history] is the list
    built so far. *)
Fixpoint get_certificate_history_loop (blocks : list Block)
    (certificate_id : string) (history : list dict) : outcome (list dict) :=
  match blocks with
  | [] => Return history
  | block :: rest =>
      if eq_str (get (data block) "transaction_type") registration
         && contains (data block) "transaction"
      then
        let transaction := get_default (data block) "transaction" (VDict []) in
        obind (attr_get transaction "certificate_id") (fun cid =>
        if eq_str cid certificate_id then
          get_certificate_history_loop rest certificate_id
            (history ++ [history_entry block transaction])%list
        else get_certificate_history_loop rest certificate_id history)
      else get_certificate_history_loop rest certificate_id history
  end.

Definition get_certificate_history (self : Blockchain)
    (certificate_id : string) : outcome (list dict) :=
  get_certificate_history_loop (chain self) certificate_id [].

(** The counting loop of [get_chain_stats]. *)
Fixpoint get_chain_stats_loop (blocks : list Block)
    (total_certificates verified_certificates : Z) : outcome (Z * Z) :=
  match blocks with
  | [] => Return (total_certificates, verified_certificates)
  | block :: rest =>
      if eq_str (get (data block) "transaction_type") registration then
        let total_certificates := total_certificates + 1 in
        let transaction := get_default (data block) "transaction" (VDict []) in
        obind (attr_get transaction "verification_status") (fun status =>
        if eq_str status "verified"
        then get_chain_stats_loop rest total_certificates
               (verified_certificates + 1)
        else get_chain_stats_loop rest total_certificates
               verified_certificates)
      else get_chain_stats_loop rest total_certificates verified_certificates
  end.

Definition get_chain_stats (self : Blockchain) : outcome dict :=
  obind (get_chain_stats_loop (chain self) 0 0) (fun counts =>
  obind (match chain self with
         | [] => Return VNone
         | _ => obind (get_latest_block self) (fun b => Return (VStr (hash b)))
         end) (fun latest_block_hash =>
  Return
    [ ("total_blocks", VInt (Z.of_nat (List.length (chain self))));
      ("total_certificates", VInt (fst counts));
      ("verified_certificates", VInt (snd counts));
      ("chain_valid", VBool (is_chain_valid self));
      ("difficulty", VInt (difficulty self));
      ("latest_block_hash", latest_block_hash);
      ("latest_block_index", VInt (Z.of_nat (List.length (chain self)) - 1)) ])).

(** [Block.to_dict] *)
Definition Block_to_dict (self : Block) : dict :=
  [ ("index", VInt (index self));
    ("timestamp", VFloat (timestamp self));
    ("human_time", VStr (fromtimestamp_isoformat (timestamp self)));
    ("data", VDict (data self));
    ("previous_hash", VStr (previous_hash self));
    ("hash", VStr (hash self));
    ("nonce", VInt (nonce self)) ].

(** [Blockchain.to_dict] *)
Definition Blockchain_to_dict (self : Blockchain) : dict :=
  [ ("chain", VList (map (fun block => VDict (Block_to_dict block))
                         (chain self)));
    ("difficulty", VInt (difficulty self));
    ("length", VInt (Z.of_nat (List.length (chain self))));
    ("is_valid", VBool (is_chain_valid self)) ].

End Queries.

(* ================================================================== *)
(** ** [class CertificateSmartContract]

    What is embedded is the body of [validate_certificate].  The file
    annotates it with [Dict] without importing the name, so the class
    statement itself runs only where annotations are not evaluated when
    a function is defined. *)

Module CertificateSmartContract.

Definition min_confidence : Z := 60.

(** One rule: the name recorded when it passes and when it fails. *)
Definition rule (ok : bool) (pass fail : string)
    (lists : list string * list string) : list string * list string :=
  if ok then ((fst lists ++ [pass])%list, snd lists)
  else (fst lists, (snd lists ++ [fail])%list).

Definition validate_certificate (certificate_data : dict) : M dict :=
  let lists := ([], []) in
  let lists :=
    rule (truthy (get certificate_data "certificate_number"))
         "certificate_number_present" "certificate_number_missing" lists in
  let lists :=
    rule (truthy (get certificate_data "owner_id"))
         "owner_id_present" "owner_id_missing" lists in
  let lists :=
    rule (truthy (get certificate_data "file_hash"))
         "file_hash_present" "file_hash_missing" lists in
  let confidence := get_default certificate_data "confidence_score" (VInt 0) in
  above <- lift (ge_int confidence min_confidence) ;;
  let lists :=
    rule above
         ("confidence_score_above_" ++ Json.str_of_int min_confidence)
         ("confidence_score_below_" ++ Json.str_of_int min_confidence) lists in
  let rules_passed := fst lists in
  let rules_failed := snd lists in
  let total_rules :=
    Z.of_nat (List.length rules_passed + List.length rules_failed) in
  (* Four rules are recorded on every path, so the score
     [len(rules_passed) / 4 * 100] is the exact float [25 * len(rules_passed)],
     which [round(_, 2)] leaves as it is. *)
  let validation_score :=
    mkFloat (25 * Z.of_nat (List.length rules_passed)) 0 in
  now <- now_isoformat ;;
  ret [ ("valid", VBool (Nat.eqb (List.length rules_failed) 0));
        ("validation_score", VFloat validation_score);
        ("rules_passed", VList (map VStr rules_passed));
        ("rules_failed", VList (map VStr rules_failed));
        ("total_rules", VInt total_rules);
        ("timestamp", VStr now) ].

End CertificateSmartContract.

(* ================================================================== *)
(** ** [class BlockchainManager]

    The manager owns one [Blockchain]; its smart contract has no state. *)

Module BlockchainManager.

Record t : Type := mkManager { blockchain : Blockchain }.

(** [try: body except Exception as e: handler(e)] *)
Definition try_except {A} (body : M A) (handler : exn -> M A) : M A :=
  fun w =>
    match body w with
    | (Raise e, w') => handler e w'
    | other => other
    end.

Definition register_certificate (fuel : nat) (self : t)
    (certificate_data : dict) : M (dict * t) :=
  validation_result <-
    CertificateSmartContract.validate_certificate certificate_data ;;
  if negb (truthy (get validation_result "valid")) then
    ret ([ ("success", VBool false);
           ("error", VStr "Certificate failed smart contract validation");
           ("validation_result", VDict validation_result) ],
         self)
  else
    try_except
      (' (block_hash, blockchain') <-
         add_certificate_transaction fuel (blockchain self) certificate_data ;;
       cert_hash <- calculate_certificate_hash certificate_data ;;
       now <- now_isoformat ;;
       ret ([ ("success", VBool true);
              ("block_hash", VStr block_hash);
              ("block_index",
                VInt (Z.of_nat (List.length (chain blockchain')) - 1));
              ("certificate_hash", VStr cert_hash);
              ("validation_result", VDict validation_result);
              ("timestamp", VStr now) ],
            mkManager blockchain'))
      (fun e =>
         ret ([ ("success", VBool false); ("error", VStr (exn_message e)) ],
              self)).

(** [init_blockchain]: [loaded] is what [Blockchain.load_from_file()]
    returned, the chain read back from the snapshot file or [None].  A
    [Blockchain] object is always true in a condition, so a new chain is
    created exactly when nothing was loaded. *)
Definition init_blockchain (fuel : nat) (loaded : option Blockchain) : M t :=
  match loaded with
  | Some blockchain => ret (mkManager blockchain)
  | None =>
      blockchain <- new_Blockchain fuel 2 ;;
      ret (mkManager blockchain)
  end.

Section Queries.

Variable fromtimestamp_isoformat : pyfloat -> string.

Definition verify_certificate (self : t) (certificate_hash : string)
  : outcome dict :=
  verify_certificate fromtimestamp_isoformat (blockchain self) certificate_hash.

Definition get_certificate_history (self : t) (certificate_id : string)
  : outcome dict :=
  obind (get_certificate_history fromtimestamp_isoformat (blockchain self)
           certificate_id) (fun history =>
  Return [ ("certificate_id", VStr certificate_id);
           ("total_transactions", VInt (Z.of_nat (List.length history)));
           ("history", VList (map VDict history));
           ("exists", VBool (0 <? Z.of_nat (List.length history))) ]).

Definition validate_chain (self : t) : M dict :=
  let is_valid := is_chain_valid (blockchain self) in
  now <- now_isoformat ;;
  ret [ ("chain_valid", VBool is_valid);
        ("total_blocks",
          VInt (Z.of_nat (List.length (chain (blockchain self)))));
        ("validation_timestamp", VStr now) ].

Definition recent_entry (block : Block)
    (certificate_number type status : value) : dict :=
  [ ("block_index", VInt (index block));
    ("timestamp", VStr (fromtimestamp_isoformat (timestamp block)));
    ("certificate_number", certificate_number);
    ("type", type);
    ("status", status);
    ("block_hash", VStr (slice_to (hash block) 16 ++ "...")) ].

(** The [for] loop of [get_recent_transactions] over the blocks left, newest
    first; [recent] and [count] are the list and the counter so far. *)
Fixpoint get_recent_transactions_loop (blocks : list Block) (limit : Z)
    (recent : list dict) (count : Z) : outcome (list dict) :=
  match blocks with
  | [] => Return recent
  | block :: rest =>
      if eq_str (get (data block) "transaction_type") registration then
        let transaction := get_default (data block) "transaction" (VDict []) in
        obind (attr_get_default transaction "certificate_number"
                 (VStr "Unknown")) (fun certificate_number =>
        obind (attr_get_default transaction "certificate_type"
                 (VStr "Unknown")) (fun type =>
        obind (attr_get_default transaction "verification_status"
                 (VStr "pending")) (fun status =>
        let recent :=
          (recent ++ [recent_entry block certificate_number type status])%list in
        let count := count + 1 in
        if limit <=? count then Return recent
        else get_recent_transactions_loop rest limit recent count)))
      else get_recent_transactions_loop rest limit recent count
  end.

Definition get_recent_transactions (self : t) (limit : Z)
  : outcome (list dict) :=
  get_recent_transactions_loop (List.rev (chain (blockchain self))) limit [] 0.

Definition get_blockchain_info (self : t) : outcome dict :=
  obind (get_chain_stats (blockchain self)) (fun stats =>
  obind (match chain (blockchain self) with
         | [] => Return VNone
         | first :: _ =>
             Return (VDict (Block_to_dict fromtimestamp_isoformat first))
         end) (fun genesis_block =>
  obind (match chain (blockchain self) with
         | [] => Return VNone
         | _ =>
             obind (get_latest_block (blockchain self)) (fun b =>
             Return (VDict (Block_to_dict fromtimestamp_isoformat b)))
         end) (fun latest_block =>
  Return
    [ ("blockchain_info",
        VDict [ ("total_blocks", get stats "total_blocks");
                ("total_certificates", get stats "total_certificates");
                ("verified_certificates", get stats "verified_certificates");
                ("chain_valid", get stats "chain_valid");
                ("difficulty", get stats "difficulty");
                ("latest_block_hash", get stats "latest_block_hash");
                ("latest_block_index", get stats "latest_block_index") ]);
      ("genesis_block", genesis_block);
      ("latest_block", latest_block) ]))).

End Queries.

End BlockchainManager.

(* ================================================================== *)
(** * Vocabulary of the properties *)

Local Open Scope list_scope.

(** One turn of the sealing loop. *)
Definition reseal (b : Block) : Block :=
  let b1 := set_nonce b (nonce b + 1) in set_hash b1 (calculate_hash b1).

Definition sealed (d : Z) (b : Block) : bool :=
  String.eqb (slice_to (hash b) d) (str_repeat "0"%char d).

(** [blocks[i+1].previous_hash == blocks[i].hash] at every position. *)
Definition linked (c : list Block) : Prop :=
  forall i p b,
    nth_error c i = Some p -> nth_error c (S i) = Some b ->
    previous_hash b = hash p.

Definition all_valid (c : list Block) : Prop :=
  Forall (fun b => validate b = true) c.

Definition chain_integrity (c : list Block) : Prop := linked c /\ all_valid c.

(** [blocks[i].index == i] *)
Definition indexed (c : list Block) : Prop :=
  forall i b, nth_error c i = Some b -> index b = Z.of_nat i.

(** Chains the code builds: the constructor, then appends that return. *)
Inductive reachable : Blockchain -> Prop :=
| reachable_new (fuel : nat) (d : Z) (w : world) (self : Blockchain) :
    fst (new_Blockchain fuel d w) = Return self -> reachable self
| reachable_add (fuel : nat) (self self' : Blockchain) (payload : dict)
    (w : world) (b : Block) :
    reachable self ->
    fst (add_block fuel self payload w) = Return (b, self') ->
    reachable self'.

(** Chains the manager builds: the constructor, then certificate
    registrations that return. *)
Inductive ledger : Blockchain -> Prop :=
| ledger_new (fuel : nat) (d : Z) (w : world) (self : Blockchain) :
    fst (new_Blockchain fuel d w) = Return self -> ledger self
| ledger_register (fuel : nat) (self self' : Blockchain)
    (certificate_data : dict) (w : world) (block_hash : string) :
    ledger self ->
    fst (add_certificate_transaction fuel self certificate_data w)
    = Return (block_hash, self') ->
    ledger self'.

(** *** Tampering: writing to one attribute of a stored block *)

Inductive mutation : Type :=
| SetIndex (v : Z)
| SetTimestamp (v : pyfloat)
| SetData (v : dict)
| SetPreviousHash (v : string)
| SetNonce (v : Z)
| SetHash (v : string).

(** [block.<field> = v], nothing else recomputed. *)
Definition mutate (m : mutation) (b : Block) : Block :=
  match m with
  | SetIndex v =>
      mkBlock v (timestamp b) (data b) (previous_hash b) (nonce b) (hash b)
  | SetTimestamp v =>
      mkBlock (index b) v (data b) (previous_hash b) (nonce b) (hash b)
  | SetData v =>
      mkBlock (index b) (timestamp b) v (previous_hash b) (nonce b) (hash b)
  | SetPreviousHash v =>
      mkBlock (index b) (timestamp b) (data b) v (nonce b) (hash b)
  | SetNonce v => set_nonce b v
  | SetHash v => set_hash b v
  end.

Fixpoint update_at {A : Type} (i : nat) (f : A -> A) (l : list A) : list A :=
  match l, i with
  | [], _ => []
  | x :: rest, O => f x :: rest
  | x :: rest, S j => x :: update_at j f rest
  end.

(** [self.chain[i].<field> = v] *)
Definition tamper (self : Blockchain) (i : nat) (m : mutation) : Blockchain :=
  mkBlockchain (update_at i (mutate m) (chain self)) (difficulty self)
               (pending_transactions self).

Definition touches_hash (m : mutation) : bool :=
  match m with SetHash _ => true | _ => false end.

(** *** Reading the payload of a block *)

(** The block is marked as a certificate registration. *)
Definition typed_registration (b : Block) : bool :=
  eq_str (get (data b) "transaction_type") registration.

(** The test that [verify_certificate] and [get_certificate_history] make
    before they read the transaction. *)
Definition is_registration (b : Block) : bool :=
  typed_registration b && contains (data b) "transaction".

(** [block.data.get("transaction", {})] *)
Definition transaction_of (b : Block) : value :=
  get_default (data b) "transaction" (VDict []).

(** The value is a dict whose entry [k] is the string [s]. *)
Definition field_is (v : value) (k s : string) : bool :=
  match v with
  | VDict t => eq_str (get t k) s
  | _ => false
  end.

Definition has_hash (h : string) (b : Block) : bool :=
  is_registration b && field_is (transaction_of b) "hash" h.

Definition has_certificate_id (cid : string) (b : Block) : bool :=
  is_registration b && field_is (transaction_of b) "certificate_id" cid.

Definition stored_verified (b : Block) : bool :=
  typed_registration b
  && field_is (transaction_of b) "verification_status" "verified".

(** A block marked as a registration carries a dict as its transaction,
    as every block written by [add_certificate_transaction] does. *)
Definition well_shaped (b : Block) : Prop :=
  typed_registration b = true -> exists t, transaction_of b = VDict t.

(** The summary that [get_recent_transactions] gives of a block. *)
Definition summary (fmt : pyfloat -> string) (b : Block) : dict :=
  match transaction_of b with
  | VDict t =>
      BlockchainManager.recent_entry fmt b
        (get_default t "certificate_number" (VStr "Unknown"))
        (get_default t "certificate_type" (VStr "Unknown"))
        (get_default t "verification_status" (VStr "pending"))
  | _ => []
  end.

(** *** Clock readings and the content hash *)

(** The [k]-th reading that the clock gives from the world [w] on. *)
Definition reading (w : world) (k : nat) : instant := clock w (reads w + k).

(** The content hash of a record registered at the instant [now]. *)
Definition certificate_digest (certificate_data : dict) (now : string)
  : string :=
  SHA256.hexdigest
    (Json.dumps
       (VDict [ ("certificate_number",
                  get certificate_data "certificate_number");
                ("owner_id", get certificate_data "owner_id");
                ("file_hash",
                  get_default certificate_data "file_hash" (VStr EmptyString));
                ("timestamp", VStr now) ])).

(** *** A concrete run

    A clock that advances by one millisecond per reading, and the
    certificate record of the registration scenario. *)

Definition pad6 (n : Z) : string :=
  let digits := Json.str_of_int n in
  (str_repeat "0"%char (6 - Z.of_nat (String.length digits)) ++ digits)%string.

Definition example_clock (n : nat) : instant :=
  let us := 15 + 1000 * Z.of_nat n in
  mkInstant (mkFloat (1762166000000000 + us) (-6))
            ("2026-11-03T10:33:20." ++ pad6 us)%string.

Definition example_world : world := mkWorld example_clock 0.

Definition example_record : dict :=
  [ ("certificate_number", VStr "C-100");
    ("owner_id", VStr "U1");
    ("file_hash", VStr "abc123");
    ("confidence_score", VInt 80) ].

(** The genesis block of a chain of difficulty 1 created at
    [example_world], before and after sealing. *)
Definition example_genesis_unsealed : Block :=
  new_Block 0 (mkFloat 1762166000000015 (-6))
    [ ("type", VStr "genesis");
      ("message", VStr "Certificate Verification Blockchain");
      ("creator", VStr "System");
      ("timestamp", VStr "2026-11-03T10:33:20.001015") ]
    genesis_previous_hash.

Definition example_genesis : Block :=
  mkBlock 0 (mkFloat 1762166000000015 (-6))
    [ ("type", VStr "genesis");
      ("message", VStr "Certificate Verification Blockchain");
      ("creator", VStr "System");
      ("timestamp", VStr "2026-11-03T10:33:20.001015") ]
    genesis_previous_hash
    1
    "070566e98ad6f904f09a2d5d4d6c18d565863ad36e872206acb9a0ec403b7052".

Definition example_chain1 : Blockchain := mkBlockchain [example_genesis] 1 [].

(** The transaction that registering [example_record] on that chain
    stores, and its block. *)
Definition example_transaction : dict :=
  [ ("type", VStr "certificate_verification");
    ("certificate_id", VNone);
    ("certificate_number", VStr "C-100");
    ("certificate_type", VNone);
    ("owner_id", VStr "U1");
    ("owner_name", VStr "Unknown");
    ("verification_status", VStr "pending");
    ("verified_by", VNone);
    ("verified_at", VStr "2026-11-03T10:33:20.003015");
    ("hash",
      VStr "2e86875d904e3f2341cf053a2fc818b72a0ec82b4134a62e2700cd4356dfd3d1");
    ("metadata",
      VDict [ ("confidence_score", VInt 80);
              ("file_hash", VStr "abc123");
              ("timestamp", VStr "2026-11-03T10:33:20.005015") ]) ].

Definition example_payload : dict :=
  [ ("transaction_type", VStr "certificate_registration");
    ("transaction", VDict example_transaction) ].

Definition example_block1 : Block :=
  mkBlock 1 (mkFloat 1762166000006015 (-6)) example_payload
    "070566e98ad6f904f09a2d5d4d6c18d565863ad36e872206acb9a0ec403b7052"
    3
    "068432cbf3930501cb7414eb976632520e35d83e0dd90119898a4ff3a83d6177".

Definition example_chain2 : Blockchain :=
  mkBlockchain [example_genesis; example_block1] 1 [].

(** A block whose stored hash was overwritten with zeros. *)
Definition example_forged : Block :=
  set_hash example_genesis_unsealed genesis_previous_hash.

(** A second record, for the same certificate id as a third, and the chain
    after registering the three of them one after the other. *)
Definition example_record2 : dict :=
  [ ("certificate_id", VStr "CERT-7");
    ("certificate_number", VStr "C-200");
    ("owner_id", VStr "U2");
    ("file_hash", VStr "def456");
    ("verification_status", VStr "pending");
    ("confidence_score", VInt 91) ].

Definition example_record3 : dict :=
  [ ("certificate_id", VStr "CERT-7");
    ("certificate_number", VStr "C-200");
    ("owner_id", VStr "U2");
    ("file_hash", VStr "def456");
    ("verification_status", VStr "verified");
    ("verified_by", VStr "registrar");
    ("confidence_score", VInt 97) ].

Definition example_chain3 :=
  Eval vm_compute in
    match fst (add_certificate_transaction 200 example_chain2 example_record2
                 (mkWorld example_clock 9)) with
    | Return (_, c) => c
    | _ => example_chain2
    end.

Definition example_chain4 :=
  Eval vm_compute in
    match fst (add_certificate_transaction 200 example_chain3 example_record3
                 (mkWorld example_clock 15)) with
    | Return (_, c) => c
    | _ => example_chain3
    end.

(** The verdict on [example_record] and what registering it on
    [example_chain1] returns to the caller. *)
Definition example_verdict : dict :=
  [ ("valid", VBool true);
    ("validation_score", VFloat (mkFloat 100 0));
    ("rules_passed",
      VList [ VStr "certificate_number_present"; VStr "owner_id_present";
              VStr "file_hash_present"; VStr "confidence_score_above_60" ]);
    ("rules_failed", VList []);
    ("total_rules", VInt 4);
    ("timestamp", VStr "2026-11-03T10:33:20.002015") ].

Definition example_returned_hash : string :=
  "6b7f9276d0c3c6c5b6a397d454f711c7553407024fe051115002bc3998ae2f7c".

Definition example_stored_hash : string :=
  "2e86875d904e3f2341cf053a2fc818b72a0ec82b4134a62e2700cd4356dfd3d1".

Definition example_receipt : dict :=
  [ ("success", VBool true);
    ("block_hash",
      VStr "068432cbf3930501cb7414eb976632520e35d83e0dd90119898a4ff3a83d6177");
    ("block_index", VInt 1);
    ("certificate_hash", VStr example_returned_hash);
    ("validation_result", VDict example_verdict);
    ("timestamp", VStr "2026-11-03T10:33:20.008015") ].

(** A record that fails the confidence rule, and its verdict. *)
Definition example_weak_record : dict :=
  [ ("certificate_number", VStr "C-100");
    ("owner_id", VStr "U1");
    ("file_hash", VStr "abc123");
    ("confidence_score", VInt 40) ].

Definition example_weak_verdict : dict :=
  [ ("valid", VBool false);
    ("validation_score", VFloat (mkFloat 75 0));
    ("rules_passed",
      VList [ VStr "certificate_number_present"; VStr "owner_id_present";
              VStr "file_hash_present" ]);
    ("rules_failed", VList [ VStr "confidence_score_below_60" ]);
    ("total_rules", VInt 4);
    ("timestamp", VStr "2026-11-03T10:33:20.002015") ].

(** The chain as it is inside [Blockchain.__init__] before the genesis
    block is created. *)
Definition empty_chain : Blockchain := mkBlockchain [] 2 [].

(** A payload marked as a registration whose transaction is a string,
    and the chain after [add_block] stored it. *)
Definition example_odd_payload : dict :=
  [ ("transaction_type", VStr "certificate_registration");
    ("transaction", VStr "revoked") ].

Definition example_odd_chain :=
  Eval vm_compute in
    match fst (add_block 200 example_chain1 example_odd_payload
                 (mkWorld example_clock 2)) with
    | Return (_, c) => c
    | _ => example_chain1
    end.


(** *** Vocabulary of the further properties *)

(** [self.chain[i] = b'] *)
Definition replace_block (self : Blockchain) (i : nat) (b' : Block)
  : Blockchain :=
  mkBlockchain (update_at i (fun _ => b') (chain self)) (difficulty self)
               (pending_transactions self).

(** [example_block1] with another payload and its hash recomputed. *)
Definition example_rewritten_block1 : Block :=
  reseal (mutate (SetData example_record) example_block1).

(** The latest block of [example_chain4] with another index and its hash
    recomputed. *)
Definition example_rewritten_latest : Block :=
  reseal (mutate (SetIndex 99) (nth 3 (chain example_chain4) example_genesis)).

(** The transaction that [add_certificate_transaction] stores for a
    record, given the three strings it takes from the clock. *)
Definition stored_transaction (certificate_data : dict)
    (verified_at cert_hash recorded_at : string) : dict :=
  [ ("type", VStr "certificate_verification");
    ("certificate_id", get certificate_data "certificate_id");
    ("certificate_number", get certificate_data "certificate_number");
    ("certificate_type", get certificate_data "certificate_type");
    ("owner_id", get certificate_data "owner_id");
    ("owner_name", get_default certificate_data "owner_name" (VStr "Unknown"));
    ("verification_status",
      get_default certificate_data "verification_status" (VStr "pending"));
    ("verified_by", get certificate_data "verified_by");
    ("verified_at", VStr verified_at);
    ("hash", VStr cert_hash);
    ("metadata",
      VDict [ ("confidence_score",
                get_default certificate_data "confidence_score" (VInt 0));
              ("file_hash",
                get_default certificate_data "file_hash" (VStr EmptyString));
              ("timestamp", VStr recorded_at) ]) ].

(** The transaction stored by a call made at the world [w]. *)
Definition transaction_at (certificate_data : dict) (w : world) : dict :=
  stored_transaction certificate_data
    (isoformat (reading w 0))
    (certificate_digest certificate_data (isoformat (reading w 1)))
    (isoformat (reading w 2)).

Definition registration_payload (transaction : dict) : dict :=
  [ ("transaction_type", VStr registration);
    ("transaction", VDict transaction) ].

(** Values that [>=] cannot compare with an integer. *)
Definition uncomparable (v : value) : bool :=
  match v with
  | VNone | VStr _ | VList _ | VDict _ => true
  | _ => false
  end.

(** The scenario record with its confidence score given as text. *)
Definition example_text_score_record : dict :=
  [ ("certificate_number", VStr "C-100");
    ("owner_id", VStr "U1");
    ("file_hash", VStr "abc123");
    ("confidence_score", VStr "80") ].

(** A clock that stands still, as under a test that freezes
    time, and a record without a confidence score. *)
Definition example_frozen_clock (n : nat) : instant :=
  mkInstant (mkFloat 1762166000000015 (-6)) "2026-11-03T10:33:20.000015".

Definition example_unscored_record : dict :=
  [ ("certificate_number", VStr "C-100");
    ("owner_id", VStr "U1");
    ("file_hash", VStr "abc123") ].


(** A block marked as a registration whose transaction is no dict. *)
Definition odd_block (b : Block) : bool :=
  typed_registration b
  && match transaction_of b with VDict _ => false | _ => true end.

(** The chain that [init_blockchain] creates when no snapshot was loaded
    and the clock is at its reading 16. *)
Definition example_fresh_chain :=
  Eval vm_compute in
    match fst (new_Blockchain 2 2 (mkWorld example_clock 16)) with
    | Return c => c
    | _ => empty_chain
    end.

(** *** What the JSON text shows of a value *)

(** Trailing zeros of the mantissa moved into the exponent. *)
Fixpoint strip10 (fuel : nat) (m e : Z) : Z * Z :=
  match fuel with
  | O => (m, e)
  | S k => if m mod 10 =? 0 then strip10 k (m / 10) (e + 1) else (m, e)
  end.

(** The one decimal that stands for a float: no trailing zero in the
    mantissa, and [0 * 10 ^ 0] for zero. *)
Definition normal (f : pyfloat) : pyfloat :=
  match f with
  | mkFloat m e =>
      if m =? 0 then mkFloat 0 0
      else let '(m', e') := strip10 (S (Z.to_nat (Z.log2 (Z.abs m)))) m e in
           mkFloat m' e'
  | _ => f
  end.

Fixpoint insert_entry (kv : string * value) (l : dict) : dict :=
  match l with
  | [] => [kv]
  | kv' :: rest =>
      if String.leb (fst kv) (fst kv') then kv :: l
      else kv' :: insert_entry kv rest
  end.

Definition sort_entries (d : dict) : dict := fold_right insert_entry [] d.

(** A value as its JSON text shows it: floats as their one decimal, a
    tuple as the list of its items, the entries of a dict in the order of
    their keys. *)
Fixpoint canon (v : value) : value :=
  match v with
  | VFloat f => VFloat (normal f)
  | VList items | VTuple items => VList (map canon items)
  | VDict entries =>
      VDict (sort_entries (map (fun kv => (fst kv, canon (snd kv))) entries))
  | _ => v
  end.

(** *** Reading the JSON text back *)

(** The characters that follow a value inside a list or a dict. *)
Definition is_delim (c : ascii) : bool :=
  Ascii.eqb c ","%char || Ascii.eqb c "]"%char || Ascii.eqb c "}"%char.

Definition delimited (r : string) : bool :=
  match r with EmptyString => true | String c _ => is_delim c end.

Definition is_digit (c : ascii) : bool :=
  let n := N_of_ascii c in ((48 <=? n) && (n <=? 57))%N.

Definition hex_value (c : ascii) : N :=
  let n := N_of_ascii c in if (n <? 58)%N then (n - 48)%N else (n - 87)%N.

(** The first character of a quoted string, read back from the escaped
    text; nothing at the closing quote. *)
Definition unescape1 (s : string) : option (ascii * string) :=
  match s with
  | EmptyString => None
  | String c rest =>
      if Ascii.eqb c "\"%char then
        match rest with
        | String k rest' =>
            if Ascii.eqb k "034"%char then Some ("034"%char, rest')
            else if Ascii.eqb k "\"%char then Some ("\"%char, rest')
            else if Ascii.eqb k "n"%char then Some ("010"%char, rest')
            else if Ascii.eqb k "r"%char then Some ("013"%char, rest')
            else if Ascii.eqb k "t"%char then Some ("009"%char, rest')
            else if Ascii.eqb k "b"%char then Some ("008"%char, rest')
            else if Ascii.eqb k "f"%char then Some ("012"%char, rest')
            else
              match rest' with
              | String _ (String _ (String x (String y rest''))) =>
                  Some (ascii_of_N (hex_value x * 16 + hex_value y), rest'')
              | _ => None
              end
        | EmptyString => None
        end
      else if Ascii.eqb c "034"%char then None
      else Some (c, rest)
  end.

(** What the first character of a text announces. *)
Definition tok (c : ascii) : nat :=
  if Ascii.eqb c "n"%char then 0
  else if Ascii.eqb c "t"%char then 1
  else if Ascii.eqb c "f"%char then 2
  else if Ascii.eqb c "034"%char then 3
  else if Ascii.eqb c "["%char then 4
  else if Ascii.eqb c "{"%char then 5
  else if is_digit c || Ascii.eqb c "-"%char || Ascii.eqb c "N"%char
          || Ascii.eqb c "I"%char then 6
  else 7.

Definition vtok (v : value) : nat :=
  match v with
  | VNone => 0
  | VBool true => 1
  | VBool false => 2
  | VStr _ => 3
  | VList _ | VTuple _ => 4
  | VDict _ => 5
  | VInt _ | VFloat _ => 6
  end.

(** The items after the first one, up to what follows them. *)
Fixpoint tail_text (parts : list string) (rest : string) : string :=
  match parts with
  | [] => rest
  | p :: ps => ", " ++ p ++ tail_text ps rest
  end.

(** The characters of an integer, and those of a number. *)
Definition int_char (c : ascii) : bool := is_digit c || Ascii.eqb c "-"%char.

Definition num_char (c : ascii) : bool :=
  is_digit c || Ascii.eqb c "."%char || Ascii.eqb c "e"%char
  || Ascii.eqb c "-"%char || Ascii.eqb c "+"%char.

(** Digits as [repr] takes them: at least one, no zero in front, none at
    the end. *)
Definition wf_digits (ds : list ascii) : Prop :=
  Forall (fun c => is_digit c = true) ds
  /\ (exists c l, ds = c :: l /\ c <> "0"%char)
  /\ (exists c l, List.rev ds = c :: l /\ c <> "0"%char).

(** Which of the four forms of [repr_digits] a text has, and which one
    the position of the point asks for. *)
Definition repr_class (l : list ascii) : nat :=
  if existsb (Ascii.eqb "e"%char) l then 0
  else match l with
       | c :: _ =>
           if Ascii.eqb c "0"%char then 1
           else match List.rev l with
                | c' :: _ => if Ascii.eqb c' "0"%char then 2 else 3
                | [] => 3
                end
       | [] => 3
       end.

Definition digits_class (n decpt : Z) : nat :=
  if (decpt <=? -4) || (16 <? decpt) then 0
  else if decpt <=? 0 then 1
  else if n <=? decpt then 2
  else 3.

(** The decimal of a float has the one form [normal] gives. *)
Definition is_normal (f : pyfloat) : Prop :=
  match f with
  | mkFloat m e => if m =? 0 then e = 0 else m mod 10 <> 0
  | _ => True
  end.

(** What follows the text of an item can be told from it, and the text
    gives the item up to [can]. *)
Definition item_read_back {A B : Type} (text : A -> string) (can : A -> B)
    (a : A) : Prop :=
  forall a' R R',
    delimited R = true -> delimited R' = true ->
    (text a ++ R = text a' ++ R')%string -> can a = can a' /\ R = R'.

(** The two blocks show the same five fields in their JSON text. *)
Definition same_fields (b1 b2 : Block) : Prop :=
  index b1 = index b2
  /\ normal (timestamp b1) = normal (timestamp b2)
  /\ canon (VDict (data b1)) = canon (VDict (data b2))
  /\ previous_hash b1 = previous_hash b2
  /\ nonce b1 = nonce b2.

(** Two different texts with one digest. *)
Definition collision (s1 s2 : string) : Prop :=
  s1 <> s2 /\ SHA256.hexdigest s1 = SHA256.hexdigest s2.

(** The write puts another value into the field: another integer or
    string, a float with another decimal, a payload with another
    canonical form. *)
Definition changes (m : mutation) (b : Block) : Prop :=
  match m with
  | SetIndex v => v <> index b
  | SetTimestamp v => normal v <> normal (timestamp b)
  | SetData v => canon (VDict v) <> canon (VDict (data b))
  | SetPreviousHash v => v <> previous_hash b
  | SetNonce v => v <> nonce b
  | SetHash v => v <> hash b
  end.

(** What [is_chain_valid] reads of a block. *)
Definition seen (b : Block) : bool * string * string :=
  (validate b, previous_hash b, hash b).

(** A payload with a list in it, the same payload with the tuple of the
    same items, and the chain after [add_block] stored the first one and
    a registration after it. *)
Definition example_listed_payload : dict :=
  [ ("transaction_type", VStr "note");
    ("pages", VList [VInt 1; VInt 2]) ].

Definition example_tupled_payload : dict :=
  [ ("transaction_type", VStr "note");
    ("pages", VTuple [VInt 1; VInt 2]) ].

Definition example_listed_chain :=
  Eval vm_compute in
    match fst (add_block 200 example_chain1 example_listed_payload
                 (mkWorld example_clock 2)) with
    | Return (_, c) =>
        match fst (add_block 200 c example_payload
                     (mkWorld example_clock 3)) with
        | Return (_, c') => c'
        | _ => c
        end
    | _ => example_chain1
    end.
(* ================================================================== *)
(** * Properties *)

(** ** The serialiser: stable key order *)







Lemma string_app_assoc (a b c : string) :
  ((a ++ b) ++ c = a ++ (b ++ c))%string.
Proof. induction a as [|x a IH]; cbn; [reflexivity | rewrite IH; reflexivity]. Qed.

Lemma dumps_dict (entries : list (string * value)) :
  Json.dumps (VDict entries)
  = ("{" ++ Json.join ", "
             (map Json.render_item
                  (Json.sort_items
                     (map (fun kv => (fst kv, Json.dumps (snd kv))) entries)))
         ++ "}")%string.
Proof. reflexivity. Qed.



(** ** The digest has 64 characters *)

Lemma compress_length (h block : list Z) :
  List.length h = 8%nat -> List.length (SHA256.compress h block) = 8%nat.
Proof.
  intros H. unfold SHA256.compress.
  rewrite length_map, length_combine, H. reflexivity.
Qed.

Lemma digest_words_length (msg : list Z) :
  List.length (SHA256.digest_words msg) = 8%nat.
Proof.
  unfold SHA256.digest_words.
  generalize (SHA256.blocks
                (List.length
                   (SHA256.words_of_bytes (List.length (SHA256.pad msg))
                      (SHA256.pad msg)))
                (SHA256.words_of_bytes (List.length (SHA256.pad msg))
                   (SHA256.pad msg))).
  intros bs.
  assert (H : List.length SHA256.initial_state = 8%nat) by reflexivity.
  revert H. generalize SHA256.initial_state.
  induction bs as [|b bs IH]; intros h H; cbn [fold_left]; [exact H|].
  apply IH. apply compress_length. exact H.
Qed.

Lemma hexdigest_length (s : string) :
  String.length (SHA256.hexdigest s) = 64%nat.
Proof.
  unfold SHA256.hexdigest.
  pose proof (digest_words_length (SHA256.bytes_of_string s)) as H.
  destruct (SHA256.digest_words (SHA256.bytes_of_string s))
    as [|w1 [|w2 [|w3 [|w4 [|w5 [|w6 [|w7 [|w8 [|w9 l]]]]]]]]];
    try discriminate H.
  reflexivity.
Qed.

(** ** The text of a value can be read back *)

Lemma chars_inj (a b : string) : list_ascii_of_string a = list_ascii_of_string b -> a = b.
Proof.
  intros H. rewrite <- (string_of_list_ascii_of_string a),
    <- (string_of_list_ascii_of_string b), H. reflexivity.
Qed.

Lemma string_app_inv_head (p a b : string) :
  (p ++ a = p ++ b)%string -> a = b.
Proof. induction p as [|x p IH]; cbn; intros H; [exact H|]. injection H as H. auto. Qed.

(** A text without delimiters, followed by a delimiter or by nothing, ends
    where the delimiter is. *)
Lemma token_split (s s' r r' : string) :
  Forall (fun c => is_delim c = false) (list_ascii_of_string s) ->
  Forall (fun c => is_delim c = false) (list_ascii_of_string s') ->
  delimited r = true -> delimited r' = true ->
  (s ++ r = s' ++ r')%string -> s = s' /\ r = r'.
Proof.
  revert s'. induction s as [|c s IH]; intros [|c' s'] Hs Hs' Hr Hr'; cbn;
    intros H.
  - auto.
  - subst r. cbn in Hr. inversion Hs' as [|? ? Hc _]; subst. congruence.
  - subst r'. cbn in Hr'. inversion Hs as [|? ? Hc _]; subst. congruence.
  - injection H as -> H. cbn in Hs, Hs'.
    inversion Hs; subst. inversion Hs'; subst.
    destruct (IH s') as [-> ->]; auto.
Qed.

(** *** Quoted strings *)

Lemma unescape1_escape_char (c : ascii) (x : string) :
  unescape1 (Json.escape_char c ++ x) = Some (c, x).
Proof.
  destruct c as [[] [] [] [] [] [] [] []]; vm_compute; reflexivity.
Qed.

Lemma escape_inj (s s' x x' : string) :
  (Json.escape s ++ Json.dquote ++ x = Json.escape s' ++ Json.dquote ++ x')%string ->
  s = s' /\ x = x'.
Proof.
  revert s'. induction s as [|c s IH]; intros [|c' s'];
    cbn [Json.escape]; rewrite ?string_app_assoc; intros H.
  - change (EmptyString ++ Json.dquote ++ x)%string with (Json.dquote ++ x)%string in H.
    change (EmptyString ++ Json.dquote ++ x')%string with (Json.dquote ++ x')%string in H.
    apply string_app_inv_head in H. auto.
  - apply (f_equal unescape1) in H.
    rewrite unescape1_escape_char in H. discriminate H.
  - apply (f_equal unescape1) in H.
    rewrite unescape1_escape_char in H. discriminate H.
  - apply (f_equal unescape1) in H.
    rewrite !unescape1_escape_char in H. injection H as -> H.
    destruct (IH _ H) as [-> ->]. auto.
Qed.

Lemma quote_inj (s s' x x' : string) :
  (Json.quote s ++ x = Json.quote s' ++ x')%string -> s = s' /\ x = x'.
Proof.
  unfold Json.quote. rewrite !string_app_assoc. intros H.
  apply string_app_inv_head in H.
  apply escape_inj in H. exact H.
Qed.

(** *** Integers *)

Lemma str_of_int_inj (n m : Z) :
  Json.str_of_int n = Json.str_of_int m -> n = m.
Proof.
  unfold Json.str_of_int. intros H.
  apply DecimalZ.to_int_inj.
  assert (Hn : forall z, Z.to_int z <> Pos Nil /\ Z.to_int z <> Neg Nil).
  { intros [|p|p]; cbn; split; try discriminate;
      intros E; injection E as E;
      exact (DecimalPos.Unsigned.to_uint_nonnil p E). }
  apply (f_equal NilZero.int_of_string) in H.
  rewrite !NilZero.isi in H by apply Hn.
  injection H as H. exact H.
Qed.

(** The digits of a decimal, first digit first. *)
Lemma uint_digits (d : uint) :
  Forall (fun c => is_digit c = true) (list_ascii_of_string (NilEmpty.string_of_uint d)).
Proof. induction d; cbn; constructor; try reflexivity; assumption. Qed.

Lemma chars_revapp (d d' : uint) :
  list_ascii_of_string (NilEmpty.string_of_uint (revapp d d'))
  = List.rev (list_ascii_of_string (NilEmpty.string_of_uint d))
    ++ list_ascii_of_string (NilEmpty.string_of_uint d').
Proof.
  revert d'. induction d; intros d'; cbn [revapp]; [reflexivity|..];
    rewrite IHd; cbn; rewrite <- List.app_assoc; reflexivity.
Qed.

Lemma str_of_int_pos (p : positive) :
  list_ascii_of_string (Json.str_of_int (Z.pos p))
  = List.rev (list_ascii_of_string (NilEmpty.string_of_uint (Pos.to_little_uint p))).
Proof.
  unfold Json.str_of_int. cbn [Z.to_int NilZero.string_of_int].
  unfold NilZero.string_of_uint.
  pose proof (DecimalPos.Unsigned.to_uint_nonnil p) as Hn.
  destruct (Pos.to_uint p) eqn:E; try (exfalso; apply Hn; reflexivity);
    rewrite <- E; unfold Pos.to_uint, Decimal.rev; rewrite chars_revapp;
    cbn; rewrite List.app_nil_r; reflexivity.
Qed.

Lemma str_of_int_neg (p : positive) :
  Json.str_of_int (Z.neg p) = String "-" (Json.str_of_int (Z.pos p)).
Proof. reflexivity. Qed.

Lemma of_lu_little (p : positive) :
  DecimalPos.Unsigned.of_lu (Pos.to_little_uint p) = N.pos p.
Proof.
  rewrite <- DecimalPos.Unsigned.of_lu_rev.
  exact (DecimalPos.Unsigned.of_to p).
Qed.

(** Ten times a number: one more digit, a zero. *)
Lemma str_of_int_tenfold (p : positive) :
  list_ascii_of_string (Json.str_of_int (Z.pos (10 * p)))
  = list_ascii_of_string (Json.str_of_int (Z.pos p)) ++ ["0"%char].
Proof.
  rewrite !str_of_int_pos.
  change (Pos.to_little_uint (10 * p))
    with (DecimalPos.Unsigned.to_lu (10 * N.pos p)).
  rewrite DecimalPos.Unsigned.to_ldec_tenfold. reflexivity.
Qed.

(** The last digit is a zero only for a multiple of ten. *)
Lemma str_of_int_last (p : positive) :
  (Z.pos p) mod 10 <> 0 ->
  exists c l, List.rev (list_ascii_of_string (Json.str_of_int (Z.pos p))) = c :: l
              /\ c <> "0"%char.
Proof.
  intros Hm. rewrite str_of_int_pos, rev_involutive.
  pose proof (of_lu_little p) as H.
  destruct (Pos.to_little_uint p) eqn:E; cbn [list_ascii_of_string NilEmpty.string_of_uint];
    try (cbn in H; discriminate H);
    try (eexists; eexists; split; [reflexivity | discriminate]).
  exfalso. apply Hm.
  change (DecimalPos.Unsigned.of_lu (D0 u))
    with (10 * DecimalPos.Unsigned.of_lu u)%N in H.
  change (Z.pos p) with (Z.of_N (N.pos p)). rewrite <- H, N2Z.inj_mul.
  rewrite Z.mul_comm. apply Z_mod_mult.
Qed.

(** No leading zero. *)
Lemma str_of_int_first (p : positive) :
  exists c l, list_ascii_of_string (Json.str_of_int (Z.pos p)) = c :: l
              /\ c <> "0"%char /\ is_digit c = true.
Proof.
  unfold Json.str_of_int. cbn [Z.to_int NilZero.string_of_int].
  pose proof (DecimalPos.Unsigned.to_uint_nonnil p) as Hn.
  pose proof (DecimalPos.Unsigned.to_uint_nonzero p) as Hz.
  assert (Hh : Pos.to_uint p = nzhead (Pos.to_uint p)).
  { pose proof (DecimalN.Unsigned.to_of (Pos.to_uint p)) as H.
    unfold N.of_uint in H. rewrite DecimalPos.Unsigned.of_to in H.
    cbn [N.to_uint] in H.
    rewrite DecimalFacts.unorm_nzhead in H; [exact H|].
    intros E. apply DecimalFacts.unorm_0 in E. rewrite <- H in E. exact (Hz E). }
  pose proof (DecimalFacts.nzhead_nonzero (Pos.to_uint p)) as H0. rewrite <- Hh in H0.
  unfold NilZero.string_of_uint.
  destruct (Pos.to_uint p) eqn:E;
    try (exfalso; apply Hn; reflexivity);
    try (exfalso; eapply H0; reflexivity);
    cbn; eexists; eexists; (split; [reflexivity|]); split;
    (discriminate || reflexivity).
Qed.

Lemma str_of_int_pos_digits (p : positive) :
  Forall (fun c => is_digit c = true) (list_ascii_of_string (Json.str_of_int (Z.pos p))).
Proof.
  rewrite str_of_int_pos. apply Forall_rev. apply uint_digits.
Qed.

Lemma str_of_int_nonneg_digits (n : Z) :
  0 <= n -> Forall (fun c => is_digit c = true) (list_ascii_of_string (Json.str_of_int n)).
Proof.
  destruct n as [|p|p]; intros H; [|apply str_of_int_pos_digits | lia].
  repeat constructor.
Qed.

Lemma digit_not_delim (c : ascii) : is_digit c = true -> is_delim c = false.
Proof.
  destruct c as [[] [] [] [] [] [] [] []]; vm_compute; congruence.
Qed.

Lemma digits_not_delim (l : list ascii) :
  Forall (fun c => is_digit c = true) l ->
  Forall (fun c => is_delim c = false) l.
Proof. apply Forall_impl. exact digit_not_delim. Qed.

Lemma str_of_int_not_delim (n : Z) :
  Forall (fun c => is_delim c = false) (list_ascii_of_string (Json.str_of_int n)).
Proof.
  destruct n as [|p|p].
  - repeat constructor.
  - apply digits_not_delim, str_of_int_pos_digits.
  - rewrite str_of_int_neg. cbn. constructor; [reflexivity|].
    apply digits_not_delim, str_of_int_pos_digits.
Qed.

Lemma str_of_int_int_chars (n : Z) :
  Forall (fun c => int_char c = true) (list_ascii_of_string (Json.str_of_int n)).
Proof.
  assert (Hd : forall l, Forall (fun c => is_digit c = true) l ->
                         Forall (fun c => int_char c = true) l).
  { apply Forall_impl. intros c H. unfold int_char. rewrite H. reflexivity. }
  destruct n as [|p|p].
  - repeat constructor.
  - apply Hd, str_of_int_pos_digits.
  - rewrite str_of_int_neg. cbn. constructor; [reflexivity|].
    apply Hd, str_of_int_pos_digits.
Qed.

Lemma str_of_int_tok (n : Z) :
  exists c s, Json.str_of_int n = String c s /\ tok c = 6%nat.
Proof.
  destruct n as [|p|p].
  - eexists; eexists; split; reflexivity.
  - destruct (str_of_int_first p) as (c & l & Hc & _ & Hd).
    destruct (Json.str_of_int (Z.pos p)) as [|c' s]; [discriminate|].
    cbn in Hc. injection Hc as -> _. exists c, s. split; [reflexivity|].
    revert Hd. destruct c as [[] [] [] [] [] [] [] []]; vm_compute; congruence.
  - rewrite str_of_int_neg. eexists; eexists; split; reflexivity.
Qed.

(** *** Floats: the decimal behind the text *)

Lemma strip_zeros_nonzero (c : ascii) (l : list ascii) (e : Z) :
  c <> "0"%char -> Json.strip_zeros (c :: l) e = (c :: l, e).
Proof.
  intros H. destruct c as [[] [] [] [] [] [] [] []]; try reflexivity.
  exfalso. apply H. reflexivity.
Qed.

Lemma abs_tenfold (q : Z) :
  q <> 0 -> exists p, Z.abs q = Z.pos p /\ Z.abs (10 * q) = Z.pos (10 * p).
Proof.
  destruct q as [|p|p]; intros H; [congruence| |]; exists p; split; reflexivity.
Qed.

Lemma finite_repr_tenfold (m e : Z) :
  m <> 0 -> m mod 10 = 0 ->
  Json.finite_repr m e = Json.finite_repr (m / 10) (e + 1).
Proof.
  intros Hm H10.
  assert (Hq : m = 10 * (m / 10)) by (apply Z_div_exact_full_2; lia).
  set (q := m / 10) in *.
  assert (Hq0 : q <> 0) by lia.
  unfold Json.finite_repr.
  destruct (Z.eqb_spec m 0) as [|_]; [lia|].
  destruct (Z.eqb_spec q 0) as [|_]; [lia|].
  assert (Hs : (m <? 0) = (q <? 0)).
  { destruct (Z.ltb_spec m 0), (Z.ltb_spec q 0); lia || reflexivity. }
  destruct (abs_tenfold q Hq0) as (p & Hp & Hp10).
  rewrite <- Hq in Hp10. rewrite Hp, Hp10, str_of_int_tenfold.
  rewrite rev_unit.
  change (Json.strip_zeros ("0"%char :: ?l) e)
    with (Json.strip_zeros l (e + 1)).
  rewrite Hs. reflexivity.
Qed.

Lemma strip10_repr (k : nat) (m e : Z) :
  m <> 0 ->
  Json.finite_repr m e
  = Json.finite_repr (fst (strip10 k m e)) (snd (strip10 k m e)).
Proof.
  revert m e. induction k as [|k IH]; intros m e Hm; cbn [strip10];
    [reflexivity|].
  destruct (Z.eqb_spec (m mod 10) 0) as [H10|]; [|reflexivity].
  rewrite finite_repr_tenfold by assumption. apply IH.
  assert (Hq : m = 10 * (m / 10)) by (apply Z_div_exact_full_2; lia). lia.
Qed.

Lemma strip10_normal (k : nat) (m e : Z) :
  m <> 0 -> Z.abs m < 2 ^ Z.of_nat k ->
  fst (strip10 k m e) <> 0 /\ fst (strip10 k m e) mod 10 <> 0.
Proof.
  revert m e. induction k as [|k IH]; intros m e Hm Hk.
  - cbn in Hk. lia.
  - cbn [strip10].
    destruct (Z.eqb_spec (m mod 10) 0) as [H10|H10]; [|cbn; auto].
    assert (Hq : m = 10 * (m / 10)) by (apply Z_div_exact_full_2; lia).
    apply IH; [lia|].
    rewrite Nat2Z.inj_succ, Z.pow_succ_r in Hk by lia. lia.
Qed.

Lemma normal_finite (m e : Z) :
  m <> 0 ->
  exists m' e',
    normal (mkFloat m e) = mkFloat m' e'
    /\ m' <> 0 /\ m' mod 10 <> 0
    /\ Json.finite_repr m e = Json.finite_repr m' e'.
Proof.
  intros Hm. unfold normal.
  destruct (Z.eqb_spec m 0) as [|_]; [contradiction|].
  set (k := S (Z.to_nat (Z.log2 (Z.abs m)))).
  pose proof (strip10_repr k m e Hm) as Hr.
  assert (Hk : Z.abs m < 2 ^ Z.of_nat k).
  { subst k. rewrite Nat2Z.inj_succ, Z2Nat.id by apply Z.log2_nonneg.
    apply Z.log2_spec. lia. }
  pose proof (strip10_normal k m e Hm Hk) as [H0 H10].
  destruct (strip10 k m e) as [m' e']. cbn [fst snd] in *.
  exists m', e'. auto.
Qed.

Lemma normal_is_normal (f : pyfloat) : is_normal (normal f).
Proof.
  destruct f as [m e| | | |]; try exact I.
  destruct (Z.eqb_spec m 0) as [->|Hm]; [reflexivity|].
  destruct (normal_finite m e Hm) as (m' & e' & Hn & H0 & H10 & _).
  rewrite Hn. cbn [is_normal].
  destruct (Z.eqb_spec m' 0); [contradiction | exact H10].
Qed.

Lemma float_repr_normal (f : pyfloat) :
  Json.float_repr (normal f) = Json.float_repr f.
Proof.
  destruct f as [m e| | | |]; try reflexivity.
  destruct (Z.eqb_spec m 0) as [->|Hm]; [reflexivity|].
  destruct (normal_finite m e Hm) as (m' & e' & Hn & _ & _ & Hr).
  rewrite Hn. symmetry. exact Hr.
Qed.

(** *** Floats: the four forms of [repr] *)

Lemma Forall_firstn {A} (P : A -> Prop) (n : nat) (l : list A) :
  Forall P l -> Forall P (firstn n l).
Proof.
  intros H. revert n. induction H as [|x l Hx _ IH]; intros [|n]; cbn;
    constructor; auto.
Qed.

Lemma Forall_skipn {A} (P : A -> Prop) (n : nat) (l : list A) :
  Forall P l -> Forall P (skipn n l).
Proof.
  intros H. revert n. induction H as [|x l Hx Hl IH]; intros [|n]; cbn;
    try constructor; auto.
Qed.

Lemma split_at_char (c : ascii) (p p' q q' : list ascii) :
  ~ In c p -> ~ In c p' -> p ++ c :: q = p' ++ c :: q' -> p = p' /\ q = q'.
Proof.
  revert p'. induction p as [|x p IH]; intros [|x' p'] Hp Hp' H; cbn in *.
  - injection H as H. auto.
  - injection H as <- _. exfalso. apply Hp'. left. reflexivity.
  - injection H as -> _. exfalso. apply Hp. left. reflexivity.
  - injection H as -> H. destruct (IH p') as [-> ->]; auto.
Qed.

Lemma zeros_prefix (k k' : nat) (x x' : list ascii) :
  (exists c l, x = c :: l /\ c <> "0"%char) ->
  (exists c l, x' = c :: l /\ c <> "0"%char) ->
  repeat "0"%char k ++ x = repeat "0"%char k' ++ x' -> k = k' /\ x = x'.
Proof.
  intros (c & l & -> & Hc) (c' & l' & -> & Hc').
  revert k'. induction k as [|k IH]; intros [|k']; cbn; intros H.
  - auto.
  - injection H as -> _. exfalso. apply Hc. reflexivity.
  - injection H as <- _. exfalso. apply Hc'. reflexivity.
  - injection H as H. destruct (IH _ H) as [-> E]. auto.
Qed.

Lemma digit_chars (c : ascii) :
  is_digit c = true ->
  c <> "e"%char /\ c <> "."%char /\ c <> "-"%char /\ num_char c = true
  /\ int_char c = true.
Proof.
  destruct c as [[] [] [] [] [] [] [] []]; vm_compute; intros H;
    try discriminate H; repeat split; discriminate.
Qed.

Lemma digits_without (c : ascii) (l : list ascii) :
  is_digit c = false -> Forall (fun c => is_digit c = true) l -> ~ In c l.
Proof.
  intros Hc Hl Hin. rewrite Forall_forall in Hl. apply Hl in Hin. congruence.
Qed.

Lemma existsb_digits (l : list ascii) :
  Forall (fun c => is_digit c = true) l ->
  existsb (Ascii.eqb "e"%char) l = false.
Proof.
  induction 1 as [|c l Hc _ IH]; cbn [existsb]; [reflexivity|].
  rewrite IH, orb_false_r.
  apply Ascii.eqb_neq. intros E. apply (proj1 (digit_chars c Hc)). auto.
Qed.

Lemma repeat_digits (k : nat) :
  Forall (fun c => is_digit c = true) (repeat "0"%char k).
Proof. induction k; cbn; constructor; auto. Qed.

Lemma pad2_inj (a b : Z) :
  0 <= a -> 0 <= b ->
  Json.pad2 (Json.str_of_int a) = Json.pad2 (Json.str_of_int b) -> a = b.
Proof.
  assert (Hlead : forall n s, 0 <= n -> (2 <= String.length (Json.str_of_int n))%nat ->
                              Json.str_of_int n <> String "0" s).
  { intros [|p|p] s Hn Hl E; [cbn in Hl; lia | | lia].
    destruct (str_of_int_first p) as (c & l & Hc & H0 & _).
    rewrite E in Hc. cbn in Hc. injection Hc as <- _. apply H0. reflexivity. }
  intros Ha Hb. unfold Json.pad2.
  destruct (Nat.ltb_spec (String.length (Json.str_of_int a)) 2) as [La|La];
    destruct (Nat.ltb_spec (String.length (Json.str_of_int b)) 2) as [Lb|Lb];
    intros H.
  - cbn in H. injection H as H. apply str_of_int_inj. exact H.
  - exfalso. symmetry in H. exact (Hlead _ _ Hb Lb H).
  - exfalso. exact (Hlead _ _ Ha La H).
  - apply str_of_int_inj. exact H.
Qed.

Lemma skipn_last (j : nat) (ds : list ascii) (c : ascii) (l : list ascii) :
  List.rev ds = c :: l -> (j < List.length ds)%nat ->
  exists l', List.rev (skipn j ds) = c :: l'.
Proof.
  intros Hr Hj.
  assert (E : ds = List.rev l ++ [c]).
  { rewrite <- (rev_involutive ds), Hr. reflexivity. }
  subst ds. rewrite length_app, length_rev in Hj. cbn in Hj.
  rewrite skipn_app.
  replace (j - List.length (List.rev l))%nat with 0%nat
    by (rewrite length_rev; lia).
  cbn [skipn]. rewrite rev_unit. eauto.
Qed.

Lemma repr_class_digits (ds : list ascii) (d : Z) :
  wf_digits ds ->
  repr_class (Json.repr_digits ds d)
  = digits_class (Z.of_nat (List.length ds)) d.
Proof.
  intros (Hd & (c & l & -> & Hc0) & (cl & ll & Hrev & Hcl)).
  assert (Hc0' : Ascii.eqb c "0"%char = false) by (apply Ascii.eqb_neq; exact Hc0).
  assert (Hcl' : Ascii.eqb cl "0"%char = false) by (apply Ascii.eqb_neq; exact Hcl).
  unfold Json.repr_digits, digits_class, repr_class.
  destruct ((d <=? -4) || (16 <? d)) eqn:E1.
  - rewrite !existsb_app. cbn [existsb].
    change (Ascii.eqb "e"%char "e"%char) with true.
    cbn [orb]. rewrite !orb_true_r. reflexivity.
  - apply orb_false_iff in E1 as [E1 E1'].
    apply Z.leb_gt in E1. apply Z.ltb_ge in E1'.
    destruct (Z.leb_spec d 0) as [E2|E2].
    + cbn [existsb]. rewrite existsb_app, (existsb_digits _ (repeat_digits _)),
        (existsb_digits _ Hd). reflexivity.
    + destruct (Z.leb_spec (Z.of_nat (List.length (c :: l))) d) as [E3|E3].
      * rewrite !existsb_app, (existsb_digits _ Hd),
          (existsb_digits _ (repeat_digits _)). cbn [existsb].
        change (Ascii.eqb "e"%char "."%char) with false.
        change (Ascii.eqb "e"%char "0"%char) with false.
        cbn [orb]. rewrite <- app_comm_cons, Hc0', app_comm_cons.
        rewrite !rev_app_distr. reflexivity.
      * destruct (Z.to_nat d) as [|j] eqn:Ej; [lia|].
        assert (Hj : (S j < List.length (c :: l))%nat) by lia.
        cbn [firstn app].
        assert (Hf : Forall (fun c => is_digit c = true) (firstn j l)).
        { apply Forall_firstn. inversion Hd; assumption. }
        assert (Hs : Forall (fun c => is_digit c = true) (skipn (S j) (c :: l))).
        { apply Forall_skipn. exact Hd. }
        cbn [existsb]. rewrite existsb_app. cbn [existsb].
        change (Ascii.eqb "e"%char "."%char) with false.
        rewrite (existsb_digits _ Hf), (existsb_digits _ Hs).
        inversion Hd as [|? ? Hdc _]; subst.
        destruct (digit_chars c Hdc) as (He & _).
        assert (He' : Ascii.eqb "e"%char c = false)
          by (apply Ascii.eqb_neq; congruence).
        rewrite He'. cbn [orb].
        rewrite <- app_comm_cons, Hc0', app_comm_cons, rev_app_distr.
        destruct (skipn_last (S j) (c :: l) cl ll Hrev Hj) as [l' Hl'].
        change (List.rev ("."%char :: ?r)) with (List.rev r ++ ["."%char]).
        rewrite Hl', <- !app_comm_cons, Hcl'. reflexivity.
Qed.

Lemma frac_inj (l l' : list ascii) :
  match l with [] => [] | a :: r => "."%char :: a :: r end
  = match l' with [] => [] | a :: r => "."%char :: a :: r end ->
  l = l'.
Proof. destruct l, l'; intros H; try discriminate H; [reflexivity|]. injection H; congruence. Qed.

Lemma repr_digits_inj (ds ds' : list ascii) (d d' : Z) :
  wf_digits ds -> wf_digits ds' ->
  Json.repr_digits ds d = Json.repr_digits ds' d' -> ds = ds' /\ d = d'.
Proof.
  intros W W' H.
  assert (Hc : digits_class (Z.of_nat (List.length ds)) d
               = digits_class (Z.of_nat (List.length ds')) d').
  { rewrite <- !repr_class_digits by assumption. rewrite H. reflexivity. }
  pose proof W as (Hd & (c & l & Eds & Hc0) & (cl & ll & Hrev & Hcl)).
  pose proof W' as (Hd' & (c' & l' & Eds' & Hc0') & (cl' & ll' & Hrev' & Hcl')).
  unfold Json.repr_digits in H. unfold digits_class in Hc.
  destruct ((d <=? -4) || (16 <? d)) eqn:E1;
    destruct ((d' <=? -4) || (16 <? d')) eqn:E1'.
  - (* exponent form *)
    subst ds ds'. cbn [firstn skipn app] in H. injection H as -> H.
    assert (Hne : forall x, Forall (fun c => is_digit c = true) x ->
                   ~ In "e"%char
                       match x with [] => [] | a :: r => "."%char :: a :: r end).
    { intros x Hx Hin. destruct x; [exact Hin|].
      destruct Hin as [Hin|Hin]; [discriminate|].
      revert Hin. apply digits_without; [reflexivity | exact Hx]. }
    inversion Hd; subst. inversion Hd'; subst.
    apply split_at_char in H; [|apply Hne; assumption | apply Hne; assumption].
    destruct H as [Hf Hx]. apply frac_inj in Hf. subst l'.
    split; [reflexivity|].
    injection Hx as Hs Hp. apply chars_inj in Hp.
    apply pad2_inj in Hp; [|lia|lia].
    destruct (Z.ltb_spec (d - 1) 0), (Z.ltb_spec (d' - 1) 0);
      try discriminate Hs; lia.
  - exfalso. destruct (d' <=? 0); [discriminate|].
    destruct (Z.of_nat (List.length ds') <=? d'); discriminate.
  - exfalso. destruct (d <=? 0); [discriminate|].
    destruct (Z.of_nat (List.length ds) <=? d); discriminate.
  - apply orb_false_iff in E1 as [E1 F1]. apply Z.leb_gt in E1.
    apply orb_false_iff in E1' as [E1' F1']. apply Z.leb_gt in E1'.
    destruct (Z.leb_spec d 0) as [E2|E2]; destruct (Z.leb_spec d' 0) as [E2'|E2'].
    + (* zero point digits *)
      injection H as H.
      apply zeros_prefix in H; [|eauto|eauto].
      destruct H as [Hk ->]. split; [reflexivity | lia].
    + exfalso. destruct (Z.of_nat (List.length ds') <=? d'); discriminate.
    + exfalso. destruct (Z.of_nat (List.length ds) <=? d); discriminate.
    + destruct (Z.leb_spec (Z.of_nat (List.length ds)) d) as [E3|E3];
        destruct (Z.leb_spec (Z.of_nat (List.length ds')) d') as [E3'|E3'];
        try discriminate Hc.
      * (* digits, zeros, point zero *)
        rewrite !app_assoc in H. apply app_inv_tail in H.
        apply (f_equal (@List.rev ascii)) in H.
        rewrite !rev_app_distr, !rev_repeat in H.
        apply zeros_prefix in H; [|eauto|eauto].
        destruct H as [Hk Hr].
        apply (f_equal (@List.rev ascii)) in Hr.
        rewrite !rev_involutive in Hr. subst ds'.
        split; [reflexivity | lia].
      * (* digits, point, digits *)
        assert (Hp : forall x j, Forall (fun c => is_digit c = true) x ->
                       ~ In "."%char (firstn j x)).
        { intros x j Hx. apply digits_without; [reflexivity|].
          apply Forall_firstn. exact Hx. }
        apply split_at_char in H; [|apply Hp; assumption | apply Hp; assumption].
        destruct H as [Hf Hs].
        assert (E : ds = ds').
        { rewrite <- (firstn_skipn (Z.to_nat d) ds),
            <- (firstn_skipn (Z.to_nat d') ds'), Hf, Hs. reflexivity. }
        split; [exact E|]. subst ds'.
        apply (f_equal (@List.length ascii)) in Hf.
        rewrite !length_firstn in Hf. lia.
Qed.

(** *** Floats: from the text to the decimal *)

Lemma abs_pos (m : Z) :
  m <> 0 -> m mod 10 <> 0 ->
  exists p, Z.abs m = Z.pos p /\ Z.pos p mod 10 <> 0.
Proof.
  intros Hm H10.
  assert (Hp : 0 < Z.abs m) by lia.
  destruct (Z.abs m) as [|p|p] eqn:E; try lia.
  exists p. split; [reflexivity|]. intros H. apply H10.
  apply Z.mod_divide in H; [|lia]. apply Z.mod_divide; [lia|].
  rewrite <- E in H. exact (proj1 (Z.divide_abs_r 10 m) H).
Qed.

Lemma finite_text (m e : Z) :
  m <> 0 -> m mod 10 <> 0 ->
  exists ds,
    wf_digits ds
    /\ ds = list_ascii_of_string (Json.str_of_int (Z.abs m))
    /\ list_ascii_of_string (Json.finite_repr m e)
       = if m <? 0
         then "-"%char
              :: Json.repr_digits ds (Z.of_nat (List.length ds) + e)
         else Json.repr_digits ds (Z.of_nat (List.length ds) + e).
Proof.
  intros Hm H10. destruct (abs_pos m Hm H10) as (p & Hp & Hp10).
  exists (list_ascii_of_string (Json.str_of_int (Z.abs m))).
  destruct (str_of_int_last p Hp10) as (c & l & Hr & Hc).
  split; [|split; [reflexivity|]].
  - rewrite Hp. split; [apply str_of_int_pos_digits|]. split.
    + destruct (str_of_int_first p) as (c' & l' & E & H0 & _). eauto.
    + eauto.
  - unfold Json.finite_repr.
    destruct (Z.eqb_spec m 0) as [|_]; [contradiction|].
    rewrite Hp, Hr, (strip_zeros_nonzero c l e Hc), <- Hr, rev_involutive.
    rewrite list_ascii_of_string_of_list_ascii. reflexivity.
Qed.

Lemma repr_digits_head (ds : list ascii) (d : Z) :
  wf_digits ds ->
  exists c r, Json.repr_digits ds d = c :: r /\ is_digit c = true.
Proof.
  intros (Hd & (c & l & -> & Hc0) & _).
  inversion Hd as [|? ? Hdc _]; subst.
  unfold Json.repr_digits.
  destruct ((d <=? -4) || (16 <? d)); [cbn; eauto|].
  destruct (Z.leb_spec d 0); [eauto|].
  destruct (Z.leb_spec (Z.of_nat (List.length (c :: l))) d); [cbn; eauto|].
  destruct (Z.to_nat d) eqn:E; [lia|]. cbn. eauto.
Qed.

Lemma repr_digits_not_zero (ds : list ascii) (d : Z) :
  wf_digits ds -> Json.repr_digits ds d <> ["0"%char; "."%char; "0"%char].
Proof.
  intros W H.
  assert (Hc : repr_class (Json.repr_digits ds d) = 1%nat)
    by (rewrite H; reflexivity).
  rewrite repr_class_digits in Hc by exact W.
  destruct W as (Hd & (c & l & -> & Hc0) & _).
  unfold Json.repr_digits in H. unfold digits_class in Hc.
  destruct ((d <=? -4) || (16 <? d)); [discriminate|].
  destruct (d <=? 0).
  - injection H as H.
    destruct (Z.to_nat (- d)) as [|k]; cbn in H.
    + injection H as -> _. apply Hc0. reflexivity.
    + injection H as H. destruct k; discriminate H.
  - destruct (Z.of_nat (List.length (c :: l)) <=? d); discriminate.
Qed.

Lemma Forall_num_digits (l : list ascii) :
  Forall (fun c => is_digit c = true) l ->
  Forall (fun c => num_char c = true) l.
Proof. apply Forall_impl. intros c H. apply digit_chars. exact H. Qed.

Lemma repr_digits_num_chars (ds : list ascii) (d : Z) :
  Forall (fun c => is_digit c = true) ds ->
  Forall (fun c => num_char c = true) (Json.repr_digits ds d).
Proof.
  intros Hd. unfold Json.repr_digits.
  assert (Hp : forall n, 0 <= n ->
             Forall (fun c => num_char c = true)
                    (list_ascii_of_string (Json.pad2 (Json.str_of_int n)))).
  { intros n Hn. unfold Json.pad2.
    destruct (String.length (Json.str_of_int n) <? 2)%nat; cbn;
      [constructor; [reflexivity|]|];
      apply Forall_num_digits, str_of_int_nonneg_digits; exact Hn. }
  destruct ((d <=? -4) || (16 <? d)).
  - apply Forall_app. split; [apply Forall_num_digits, Forall_firstn, Hd|].
    apply Forall_app. split.
    + pose proof (Forall_skipn _ 1 _ Hd) as Hs.
      destruct (skipn 1 ds); [constructor|].
      constructor; [reflexivity | apply Forall_num_digits, Hs].
    + constructor; [reflexivity|].
      constructor; [destruct (d - 1 <? 0); reflexivity|].
      apply Hp. lia.
  - destruct (d <=? 0).
    + constructor; [reflexivity|]. constructor; [reflexivity|].
      apply Forall_app. split; apply Forall_num_digits;
        [apply repeat_digits | exact Hd].
    + destruct (Z.of_nat (List.length ds) <=? d).
      * apply Forall_app. split; [apply Forall_num_digits, Hd|].
        apply Forall_app. split; [apply Forall_num_digits, repeat_digits|].
        repeat constructor.
      * apply Forall_app. split; [apply Forall_num_digits, Forall_firstn, Hd|].
        constructor; [reflexivity|].
        apply Forall_num_digits, Forall_skipn, Hd.
Qed.

Lemma repr_digits_marker (ds : list ascii) (d : Z) :
  exists x, In x (Json.repr_digits ds d) /\ int_char x = false.
Proof.
  unfold Json.repr_digits.
  destruct ((d <=? -4) || (16 <? d)).
  - exists "e"%char. split; [|reflexivity].
    apply in_or_app. right. apply in_or_app. right. left. reflexivity.
  - exists "."%char. split; [|reflexivity].
    destruct (d <=? 0); [right; left; reflexivity|].
    destruct (Z.of_nat (List.length ds) <=? d).
    + apply in_or_app. right. apply in_or_app. right. left. reflexivity.
    + apply in_or_app. right. left. reflexivity.
Qed.

(** The text of a float: a sign or none, then [0.0], a name, or the
    digits of [repr]. *)
Lemma float_text (f : pyfloat) :
  exists (neg : bool) (body : list ascii),
    list_ascii_of_string (Json.float_repr f) = (if neg then "-"%char :: body else body)
    /\ (body = list_ascii_of_string "0.0" \/ body = list_ascii_of_string "Infinity" \/ body = list_ascii_of_string "NaN"
        \/ exists ds d, wf_digits ds /\ body = Json.repr_digits ds d).
Proof.
  rewrite <- float_repr_normal. pose proof (normal_is_normal f) as Hn.
  destruct (normal f) as [m e| | | |]; cbn [Json.float_repr].
  - cbn [is_normal] in Hn. destruct (Z.eqb_spec m 0) as [->|Hm].
    + exists false. eexists. split; [reflexivity|]. left. reflexivity.
    + destruct (finite_text m e Hm Hn) as (ds & W & _ & Ht).
      exists (m <? 0). eexists. split; [exact Ht|].
      right. right. right. eauto.
  - exists true. eexists. split; [reflexivity|]. left. reflexivity.
  - exists false. eexists. split; [reflexivity|]. right. left. reflexivity.
  - exists true. eexists. split; [reflexivity|]. right. left. reflexivity.
  - exists false. eexists. split; [reflexivity|]. right. right. left. reflexivity.
Qed.

Lemma num_char_not_delim (c : ascii) : num_char c = true -> is_delim c = false.
Proof.
  destruct c as [[] [] [] [] [] [] [] []]; vm_compute; congruence.
Qed.

Lemma float_repr_not_delim (f : pyfloat) :
  Forall (fun c => is_delim c = false) (list_ascii_of_string (Json.float_repr f)).
Proof.
  destruct (float_text f) as (neg & body & -> & Hb).
  assert (H : Forall (fun c => is_delim c = false) body).
  { destruct Hb as [-> | [-> | [-> | (ds & d & W & ->)]]];
      try (repeat constructor).
    eapply Forall_impl; [exact num_char_not_delim|].
    apply repr_digits_num_chars. apply W. }
  destruct neg; [constructor; [reflexivity|]|]; exact H.
Qed.

Lemma float_repr_tok (f : pyfloat) :
  exists c s, Json.float_repr f = String c s /\ tok c = 6%nat.
Proof.
  destruct (float_text f) as (neg & body & Ht & Hb).
  assert (H : exists c r, body = c :: r /\ tok c = 6%nat).
  { destruct Hb as [-> | [-> | [-> | (ds & d & W & ->)]]];
      try (eexists; eexists; split; reflexivity).
    destruct (repr_digits_head ds d W) as (c & r & -> & Hc).
    exists c, r. split; [reflexivity|].
    revert Hc. destruct c as [[] [] [] [] [] [] [] []]; vm_compute; congruence. }
  destruct H as (c & r & -> & Hc).
  destruct (Json.float_repr f) as [|c0 s]; [destruct neg; discriminate Ht|].
  cbn in Ht. destruct neg; injection Ht as -> _; eauto.
Qed.

Lemma float_repr_not_int (f : pyfloat) (n : Z) :
  Json.float_repr f <> Json.str_of_int n.
Proof.
  intros E.
  pose proof (str_of_int_int_chars n) as Hi. rewrite <- E in Hi.
  destruct (float_text f) as (neg & body & Ht & Hb). rewrite Ht in Hi.
  assert (H : exists x, In x body /\ int_char x = false).
  { destruct Hb as [-> | [-> | [-> | (ds & d & W & ->)]]].
    - exists "."%char. split; [right; left|]; reflexivity.
    - exists "I"%char. split; [left|]; reflexivity.
    - exists "N"%char. split; [left|]; reflexivity.
    - apply repr_digits_marker. }
  destruct H as (x & Hin & Hx).
  rewrite Forall_forall in Hi.
  assert (Hin' : In x (if neg then "-"%char :: body else body))
    by (destruct neg; [right|]; exact Hin).
  apply Hi in Hin'. congruence.
Qed.

Lemma float_repr_inj_normal (f g : pyfloat) :
  is_normal f -> is_normal g ->
  Json.float_repr f = Json.float_repr g -> f = g.
Proof.
  assert (Hfin : forall m e, m <> 0 -> m mod 10 <> 0 ->
            forall s, In s ["0.0"; "-0.0"; "Infinity"; "-Infinity"; "NaN"] ->
                      Json.finite_repr m e <> s).
  { intros m e Hm H10 s Hs E.
    destruct (finite_text m e Hm H10) as (ds & W & _ & Ht).
    rewrite E in Ht.
    destruct (repr_digits_head ds (Z.of_nat (List.length ds) + e) W)
      as (c & r & Hh & Hc).
    pose proof (repr_digits_not_zero ds (Z.of_nat (List.length ds) + e) W) as Hz.
    rewrite Hh in Ht.
    cbn in Hs.
    destruct Hs as [<-|[<-|[<-|[<-|[<-|[]]]]]]; cbn in Ht;
      destruct (m <? 0); injection Ht as Ht; subst;
      try discriminate Hc; try (apply Hz; rewrite Hh; reflexivity);
      try (injection H as H; subst; discriminate Hc). }
  assert (Hzero : forall e, Json.finite_repr 0 e = "0.0") by reflexivity.
  intros Hf Hg E.
  destruct f as [m e| | | |]; destruct g as [m' e'| | | |];
    cbn [Json.float_repr] in E; try reflexivity; try discriminate E;
    cbn [is_normal] in Hf, Hg.
  - destruct (Z.eqb_spec m 0) as [->|Hm]; destruct (Z.eqb_spec m' 0) as [->|Hm'].
    + congruence.
    + exfalso. rewrite Hzero in E. symmetry in E.
      apply (Hfin m' e' Hm' Hg _) in E; [exact E | left; reflexivity].
    + exfalso. rewrite Hzero in E.
      apply (Hfin m e Hm Hf _) in E; [exact E | left; reflexivity].
    + destruct (finite_text m e Hm Hf) as (ds & W & Eds & Ht).
      destruct (finite_text m' e' Hm' Hg) as (ds' & W' & Eds' & Ht').
      rewrite E, Ht' in Ht.
      destruct (repr_digits_head ds (Z.of_nat (List.length ds) + e) W)
        as (c & r & Hh & Hc).
      destruct (repr_digits_head ds' (Z.of_nat (List.length ds') + e') W')
        as (c' & r' & Hh' & Hc').
      assert (Hs : (m <? 0) = (m' <? 0)
                   /\ Json.repr_digits ds (Z.of_nat (List.length ds) + e)
                      = Json.repr_digits ds' (Z.of_nat (List.length ds') + e')).
      { rewrite Hh, Hh' in Ht |- *.
        destruct (m <? 0), (m' <? 0); try (injection Ht as Ht1 Ht2; subst);
          try discriminate Hc; try discriminate Hc'; split; congruence. }
      destruct Hs as [Hs Hb].
      apply repr_digits_inj in Hb; [|assumption|assumption].
      destruct Hb as [Hds Hd].
      assert (Hl : List.length ds = List.length ds') by congruence.
      rewrite Eds, Eds' in Hds. apply chars_inj, str_of_int_inj in Hds.
      assert (m = m').
      { destruct (Z.ltb_spec m 0), (Z.ltb_spec m' 0); try discriminate Hs; lia. }
      subst m'. f_equal. lia.
  - exfalso. destruct (Z.eqb_spec m 0) as [->|Hm]; [discriminate E|].
    apply (Hfin m e Hm Hf _) in E; [exact E | cbn; auto].
  - exfalso. destruct (Z.eqb_spec m 0) as [->|Hm]; [discriminate E|].
    apply (Hfin m e Hm Hf _) in E; [exact E | cbn; auto].
  - exfalso. destruct (Z.eqb_spec m 0) as [->|Hm]; [discriminate E|].
    apply (Hfin m e Hm Hf _) in E; [exact E | cbn; auto].
  - exfalso. destruct (Z.eqb_spec m 0) as [->|Hm]; [discriminate E|].
    apply (Hfin m e Hm Hf _) in E; [exact E | cbn; auto 6].
  - exfalso. symmetry in E.
    destruct (Z.eqb_spec m' 0) as [->|Hm]; [discriminate E|].
    apply (Hfin m' e' Hm Hg _) in E; [exact E | cbn; auto].
  - exfalso. symmetry in E.
    destruct (Z.eqb_spec m' 0) as [->|Hm]; [discriminate E|].
    apply (Hfin m' e' Hm Hg _) in E; [exact E | cbn; auto].
  - exfalso. symmetry in E.
    destruct (Z.eqb_spec m' 0) as [->|Hm]; [discriminate E|].
    apply (Hfin m' e' Hm Hg _) in E; [exact E | cbn; auto].
  - exfalso. symmetry in E.
    destruct (Z.eqb_spec m' 0) as [->|Hm]; [discriminate E|].
    apply (Hfin m' e' Hm Hg _) in E; [exact E | cbn; auto 6].
Qed.

(** Two floats have the same text exactly when they have the same
    decimal. *)
Lemma float_repr_inj (f g : pyfloat) :
  Json.float_repr f = Json.float_repr g <-> normal f = normal g.
Proof.
  split; intros H.
  - apply float_repr_inj_normal; try apply normal_is_normal.
    rewrite !float_repr_normal. exact H.
  - rewrite <- (float_repr_normal f), <- (float_repr_normal g), H. reflexivity.
Qed.

(** *** Values *)

Lemma value_nested_ind (P : value -> Prop) :
  P VNone -> (forall b, P (VBool b)) -> (forall n, P (VInt n)) ->
  (forall f, P (VFloat f)) -> (forall s, P (VStr s)) ->
  (forall l, Forall P l -> P (VList l)) ->
  (forall d, Forall (fun kv => P (snd kv)) d -> P (VDict d)) ->
  (forall l, Forall P l -> P (VTuple l)) ->
  forall v, P v.
Proof.
  intros HN HB HI HF HS HL HD HT. fix IH 1.
  intros [|b|n|f|s|l|d|l];
    [exact HN | apply HB | apply HI | apply HF | apply HS
     | apply HL | apply HD | apply HT].
  - induction l as [|x l IHl]; constructor; [apply IH | exact IHl].
  - induction d as [|[k x] d IHd]; constructor; [apply IH | exact IHd].
  - induction l as [|x l IHl]; constructor; [apply IH | exact IHl].
Qed.

Lemma dumps_list (l : list value) :
  Json.dumps (VList l)
  = ("[" ++ Json.join ", " (map Json.dumps l) ++ "]")%string.
Proof. reflexivity. Qed.

Lemma dumps_tuple (l : list value) :
  Json.dumps (VTuple l)
  = ("[" ++ Json.join ", " (map Json.dumps l) ++ "]")%string.
Proof. reflexivity. Qed.

Lemma dumps_tok (v : value) :
  exists c s, Json.dumps v = String c s /\ tok c = vtok v.
Proof.
  destruct v as [|[]|n|f|s|l|d|l];
    try (eexists; eexists; split; reflexivity).
  - apply str_of_int_tok.
  - apply float_repr_tok.
Qed.

Lemma dumps_same_tok (v v' : value) (r r' : string) :
  (Json.dumps v ++ r = Json.dumps v' ++ r')%string -> vtok v = vtok v'.
Proof.
  destruct (dumps_tok v) as (c & s & -> & <-).
  destruct (dumps_tok v') as (c' & s' & -> & <-).
  cbn. intros H. injection H as -> _. reflexivity.
Qed.

(** **** Sequences of items *)

Lemma join_tail (p : string) (ps : list string) (rest : string) :
  (Json.join ", " (p :: ps) ++ rest = p ++ tail_text ps rest)%string.
Proof.
  revert p. induction ps as [|q ps IH]; intros p; [reflexivity|].
  change (Json.join ", " (p :: q :: ps))
    with (p ++ ", " ++ Json.join ", " (q :: ps))%string.
  rewrite !string_app_assoc, IH. reflexivity.
Qed.

Section Sequences.

Variables (A B : Type) (text : A -> string) (can : A -> B) (close : ascii).
Hypothesis close_delim : is_delim close = true.
Hypothesis close_not_comma : close <> ","%char.
Hypothesis text_head :
  forall a, exists c s, text a = String c s /\ c <> close.

Lemma tail_text_delimited (ps : list string) (r : string) :
  delimited (tail_text ps (String close r)) = true.
Proof. destruct ps; [exact close_delim | reflexivity]. Qed.

Lemma tail_text_inj (l l' : list A) (r r' : string) :
  Forall (item_read_back text can) l ->
  tail_text (map text l) (String close r)
  = tail_text (map text l') (String close r') ->
  map can l = map can l' /\ r = r'.
Proof.
  intros Hl. revert l'. induction Hl as [|a l Ha _ IH]; intros [|a' l'];
    cbn [map tail_text]; intros H.
  - injection H as H. auto.
  - exfalso. cbn in H. injection H as H _. exact (close_not_comma H).
  - exfalso. cbn in H. injection H as H _. apply close_not_comma. auto.
  - cbn in H. injection H as H.
    apply Ha in H; try apply tail_text_delimited.
    destruct H as [Hc H]. destruct (IH _ H) as [Hm Hr].
    split; [cbn; congruence | exact Hr].
Qed.

Lemma seq_inj (l l' : list A) (r r' : string) :
  Forall (item_read_back text can) l ->
  (Json.join ", " (map text l) ++ String close r
   = Json.join ", " (map text l') ++ String close r')%string ->
  map can l = map can l' /\ r = r'.
Proof.
  intros Hl. destruct l as [|a l]; destruct l' as [|a' l']; cbn [map].
  - cbn. intros H. injection H as H. auto.
  - rewrite join_tail. cbn [Json.join String.append]. intros H. exfalso.
    destruct (text_head a') as (c & s & E & Hc). rewrite E in H.
    cbn in H. injection H as H _. apply Hc. auto.
  - rewrite join_tail. cbn [Json.join String.append]. intros H. exfalso.
    destruct (text_head a) as (c & s & E & Hc). rewrite E in H.
    cbn in H. injection H as H _. apply Hc. auto.
  - rewrite !join_tail. intros H.
    inversion Hl as [|? ? Ha Hl']; subst.
    apply Ha in H; try apply tail_text_delimited.
    destruct H as [Hc H]. apply tail_text_inj in H; [|exact Hl'].
    destruct H as [Hm Hr]. split; [cbn; congruence | exact Hr].
Qed.

End Sequences.

(** **** Sorting the entries *)

Lemma insert_item_map (f : value -> string) (kv : string * value) (l : dict) :
  Json.insert_item (fst kv, f (snd kv))
    (map (fun kv => (fst kv, f (snd kv))) l)
  = map (fun kv => (fst kv, f (snd kv))) (insert_entry kv l).
Proof.
  induction l as [|x l IH]; cbn; [reflexivity|].
  destruct (String.leb (fst kv) (fst x)); cbn; [reflexivity|].
  rewrite IH. reflexivity.
Qed.

Lemma sort_items_map (f : value -> string) (d : dict) :
  Json.sort_items (map (fun kv => (fst kv, f (snd kv))) d)
  = map (fun kv => (fst kv, f (snd kv))) (sort_entries d).
Proof.
  unfold Json.sort_items, sort_entries.
  induction d as [|x d IH]; cbn; [reflexivity|].
  rewrite IH. apply (insert_item_map f x).
Qed.

Lemma insert_entry_map (g : value -> value) (kv : string * value) (l : dict) :
  insert_entry (fst kv, g (snd kv)) (map (fun kv => (fst kv, g (snd kv))) l)
  = map (fun kv => (fst kv, g (snd kv))) (insert_entry kv l).
Proof.
  induction l as [|x l IH]; cbn; [reflexivity|].
  destruct (String.leb (fst kv) (fst x)); cbn; [reflexivity|].
  rewrite IH. reflexivity.
Qed.

Lemma sort_entries_map (g : value -> value) (d : dict) :
  sort_entries (map (fun kv => (fst kv, g (snd kv))) d)
  = map (fun kv => (fst kv, g (snd kv))) (sort_entries d).
Proof.
  unfold sort_entries.
  induction d as [|x d IH]; cbn; [reflexivity|].
  rewrite IH. apply (insert_entry_map g x).
Qed.

Lemma In_insert_entry (x kv : string * value) (l : dict) :
  In x (insert_entry kv l) -> x = kv \/ In x l.
Proof.
  induction l as [|y l IH]; cbn.
  - intros [H|[]]; auto.
  - destruct (String.leb (fst kv) (fst y)); cbn; intros H.
    + destruct H as [H|H]; auto.
    + destruct H as [H|H]; auto. apply IH in H. tauto.
Qed.

Lemma In_sort_entries (x : string * value) (d : dict) :
  In x (sort_entries d) -> In x d.
Proof.
  unfold sort_entries. induction d as [|y d IH]; cbn; [auto|].
  intros H. apply In_insert_entry in H. destruct H as [H|H]; auto.
Qed.

(** **** The text of a value determines its canonical form *)

Lemma dumps_head_not (v : value) (c0 : ascii) :
  tok c0 = 7%nat -> exists c s, Json.dumps v = String c s /\ c <> c0.
Proof.
  intros H0. destruct (dumps_tok v) as (c & s & E & Ht).
  exists c, s. split; [exact E|]. intros ->. rewrite H0 in Ht.
  destruct v as [|[]| | | | | |]; discriminate Ht.
Qed.

Theorem dumps_read_back (v : value) :
  forall (v' : value) (r r' : string),
    delimited r = true -> delimited r' = true ->
    (Json.dumps v ++ r = Json.dumps v' ++ r')%string ->
    canon v = canon v' /\ r = r'.
Proof.
  induction v as [|b|n|f|s|l IHl|d IHd|l IHl] using value_nested_ind;
    intros v' r r' Hr Hr' H; pose proof (dumps_same_tok _ _ _ _ H) as Ht.
  - destruct v' as [|[]| | | | | |]; try discriminate Ht.
    apply string_app_inv_head in H. auto.
  - destruct b; destruct v' as [|[]| | | | | |]; try discriminate Ht;
      apply string_app_inv_head in H; auto.
  - destruct v' as [|[]|n'|f'| | | |]; try discriminate Ht;
      cbn [Json.dumps] in H;
      apply token_split in H;
      try apply str_of_int_not_delim; try apply float_repr_not_delim;
      try assumption; destruct H as [H ->].
    + apply str_of_int_inj in H. subst. auto.
    + exfalso. symmetry in H. exact (float_repr_not_int _ _ H).
  - destruct v' as [|[]|n'|f'| | | |]; try discriminate Ht;
      cbn [Json.dumps] in H;
      apply token_split in H;
      try apply str_of_int_not_delim; try apply float_repr_not_delim;
      try assumption; destruct H as [H ->].
    + exfalso. exact (float_repr_not_int _ _ H).
    + apply float_repr_inj in H. cbn [canon]. rewrite H. auto.
  - destruct v' as [|[]| | |s'| | |]; try discriminate Ht.
    cbn [Json.dumps] in H. apply quote_inj in H. destruct H as [-> ->]. auto.
  - assert (Hl : forall l', 
               (Json.dumps (VList l) ++ r
                = ("[" ++ Json.join ", " (map Json.dumps l') ++ "]") ++ r')%string ->
               map canon l = map canon l' /\ r = r').
    { intros l' E. rewrite dumps_list, !string_app_assoc in E.
      apply string_app_inv_head in E.
      change ("]" ++ r)%string with (String "]" r) in E.
      change ("]" ++ r')%string with (String "]" r') in E.
      apply (seq_inj value value Json.dumps canon "]"%char) in E;
        [exact E | reflexivity | discriminate | |].
      - intros a. apply dumps_head_not. reflexivity.
      - exact IHl. }
    destruct v' as [|[]| | | |l'| |l']; try discriminate Ht;
      apply Hl in H; destruct H as [H ->]; cbn [canon]; rewrite H; auto.
  - destruct v' as [|[]| | | | |d'|]; try discriminate Ht.
    rewrite !dumps_dict, !sort_items_map, !map_map, !string_app_assoc in H.
    apply string_app_inv_head in H.
    change ("}" ++ r)%string with (String "}" r) in H.
    change ("}" ++ r')%string with (String "}" r') in H.
    apply (seq_inj (string * value) (string * value)
             (fun kv => Json.render_item (fst kv, Json.dumps (snd kv)))
             (fun kv => (fst kv, canon (snd kv))) "}"%char) in H.
    + destruct H as [H ->]. split; [|reflexivity].
      cbn [canon]. rewrite !sort_entries_map, H. reflexivity.
    + reflexivity.
    + discriminate.
    + intros a. eexists. eexists. split; [reflexivity | discriminate].
    + rewrite Forall_forall. intros [k x] Hin [k' x'] R R' HR HR' E.
      apply In_sort_entries in Hin.
      rewrite Forall_forall in IHd. specialize (IHd _ Hin). cbn [snd] in IHd.
      unfold Json.render_item in E. cbn [fst snd] in E.
      rewrite !string_app_assoc in E. apply quote_inj in E.
      destruct E as [-> E]. apply string_app_inv_head in E.
      apply IHd in E; try assumption. destruct E as [E ->].
      cbn [fst snd]. rewrite E. auto.
  - assert (Hl : forall l', 
               (Json.dumps (VTuple l) ++ r
                = ("[" ++ Json.join ", " (map Json.dumps l') ++ "]") ++ r')%string ->
               map canon l = map canon l' /\ r = r').
    { intros l' E. rewrite dumps_tuple, !string_app_assoc in E.
      apply string_app_inv_head in E.
      change ("]" ++ r)%string with (String "]" r) in E.
      change ("]" ++ r')%string with (String "]" r') in E.
      apply (seq_inj value value Json.dumps canon "]"%char) in E;
        [exact E | reflexivity | discriminate | |].
      - intros a. apply dumps_head_not. reflexivity.
      - exact IHl. }
    destruct v' as [|[]| | | |l'| |l']; try discriminate Ht;
      apply Hl in H; destruct H as [H ->]; cbn [canon]; rewrite H; auto.
Qed.

(** **** The canonical form has the text of the value *)

Lemma insert_entry_sorted (kv : string * value) (l : dict) :
  Sorted (fun a b => String.leb (fst a) (fst b) = true) l ->
  Sorted (fun a b => String.leb (fst a) (fst b) = true) (insert_entry kv l).
Proof.
  induction 1 as [|x l Hl IH Hx]; cbn.
  - repeat constructor.
  - destruct (String.leb (fst kv) (fst x)) eqn:E.
    + constructor; [constructor; assumption|]. constructor. exact E.
    + constructor; [exact IH|].
      assert (Hxk : String.leb (fst x) (fst kv) = true).
      { destruct (String.leb_total (fst x) (fst kv)); congruence. }
      destruct l as [|y l]; cbn; [constructor; exact Hxk|].
      destruct (String.leb (fst kv) (fst y)); constructor;
        [exact Hxk | inversion Hx; assumption].
Qed.

Lemma sort_entries_sorted (d : dict) :
  Sorted (fun a b => String.leb (fst a) (fst b) = true) (sort_entries d).
Proof.
  unfold sort_entries. induction d as [|x d IH]; cbn;
    [constructor | apply insert_entry_sorted; exact IH].
Qed.

Lemma sort_entries_id (l : dict) :
  Sorted (fun a b => String.leb (fst a) (fst b) = true) l ->
  sort_entries l = l.
Proof.
  unfold sort_entries. induction 1 as [|x l Hl IH Hx]; cbn; [reflexivity|].
  rewrite IH. destruct Hx as [|y l Hxy]; cbn; [reflexivity|].
  rewrite Hxy. reflexivity.
Qed.

Lemma dumps_canon (v : value) : Json.dumps (canon v) = Json.dumps v.
Proof.
  induction v as [|b|n|f|s|l IHl|d IHd|l IHl] using value_nested_ind;
    try reflexivity.
  - cbn [canon Json.dumps]. apply float_repr_normal.
  - cbn [canon]. rewrite !dumps_list, map_map. do 3 f_equal.
    apply map_ext_in. intros x Hx. rewrite Forall_forall in IHl. auto.
  - cbn [canon]. rewrite !dumps_dict, !sort_items_map.
    rewrite (sort_entries_id _ (sort_entries_sorted _)).
    rewrite sort_entries_map, !map_map. do 3 f_equal.
    apply map_ext_in. intros [k x] Hx. apply In_sort_entries in Hx.
    rewrite Forall_forall in IHd. specialize (IHd _ Hx). cbn [fst snd] in *.
    rewrite IHd. reflexivity.
  - cbn [canon]. rewrite dumps_list, dumps_tuple, map_map. do 3 f_equal.
    apply map_ext_in. intros x Hx. rewrite Forall_forall in IHl. auto.
Qed.

(** Two values have the same text exactly when they have the same
    canonical form. *)
Theorem dumps_inj (v v' : value) :
  Json.dumps v = Json.dumps v' <-> canon v = canon v'.
Proof.
  split; intros H.
  - assert (E : (Json.dumps v ++ EmptyString
                 = Json.dumps v' ++ EmptyString)%string) by (rewrite H; reflexivity).
    apply dumps_read_back in E; [apply E | reflexivity | reflexivity].
  - rewrite <- (dumps_canon v), <- (dumps_canon v'), H. reflexivity.
Qed.

Lemma canon_block (b : Block) :
  canon (VDict [ ("index", VInt (index b));
                 ("timestamp", VFloat (timestamp b));
                 ("data", VDict (data b));
                 ("previous_hash", VStr (previous_hash b));
                 ("nonce", VInt (nonce b)) ])
  = VDict [ ("data", canon (VDict (data b)));
            ("index", VInt (index b));
            ("nonce", VInt (nonce b));
            ("previous_hash", VStr (previous_hash b));
            ("timestamp", VFloat (normal (timestamp b))) ].
Proof. reflexivity. Qed.

(** The hashed string of a block shows its five fields and nothing
    else. *)
Theorem block_string_inj (b1 b2 : Block) :
  block_string b1 = block_string b2 <-> same_fields b1 b2.
Proof.
  unfold block_string, same_fields. rewrite dumps_inj, !canon_block.
  split.
  - intros H. injection H as Hd Hi Hn Hp Ht.
    repeat split; try assumption. cbn [canon]. rewrite Hd. reflexivity.
  - intros (Hi & Ht & Hd & Hp & Hn). rewrite Hi, Ht, Hd, Hp, Hn. reflexivity.
Qed.

(** The digest and the serialiser are only ever evaluated on closed terms. *)
#[global] Opaque SHA256.hexdigest Json.dumps.

(** ** The digest on the test vectors of FIPS 180-4 *)

Example sha256_abc :
  SHA256.hexdigest "abc"
  = "ba7816bf8f01cfea414140de5dae2223b00361a396177a9cb410ff61f20015ad".
Proof. vm_compute. reflexivity. Qed.

Example sha256_two_blocks :
  SHA256.hexdigest "abcdbcdecdefdefgefghfghighijhijkijkljklmklmnlmnomnopnopq"
  = "248d6a61d20638b8e5c026930c3e6039a33ce45964ff2167f6ecedd419db06c1".
Proof. vm_compute. reflexivity. Qed.

(** ** Blocks: hashing and sealing *)

Lemma calculate_hash_set_hash (b : Block) (h : string) :
  calculate_hash (set_hash b h) = calculate_hash b.
Proof. reflexivity. Qed.

Lemma validate_set_hash (b : Block) :
  validate (set_hash b (calculate_hash b)) = true.
Proof.
  unfold validate. rewrite calculate_hash_set_hash. apply String.eqb_refl.
Qed.

Lemma validate_new_Block (i : Z) (t : pyfloat) (d : dict) (p : string) :
  validate (new_Block i t d p) = true.
Proof. unfold new_Block. apply validate_set_hash. Qed.

Lemma validate_true_iff (b : Block) :
  validate b = true <-> hash b = calculate_hash b.
Proof.
  unfold validate. rewrite String.eqb_eq. split; congruence.
Qed.

Lemma mine_block_unfold (fuel : nat) (b : Block) (d : Z) :
  mine_block fuel b d =
  if negb (sealed d b) then
    match fuel with
    | O => OutOfFuel
    | S fuel' => mine_block fuel' (reseal b) d
    end
  else Return b.
Proof. destruct fuel; reflexivity. Qed.

Lemma mine_block_sealed (fuel : nat) (b b' : Block) (d : Z) :
  mine_block fuel b d = Return b' -> sealed d b' = true.
Proof.
  revert b. induction fuel as [|fuel IH]; intros b; rewrite mine_block_unfold;
    destruct (sealed d b) eqn:E; cbn; intros H;
    try discriminate; try (injection H as <-; exact E).
  eapply IH; eassumption.
Qed.

(** A sealed result is the block itself, or it went through the loop and
    carries a freshly computed hash. *)
Lemma mine_block_same_or_valid (fuel : nat) (b b' : Block) (d : Z) :
  mine_block fuel b d = Return b' ->
  b' = b \/ (validate b' = true /\ nonce b < nonce b').
Proof.
  revert b. induction fuel as [|fuel IH]; intros b; rewrite mine_block_unfold;
    destruct (sealed d b) eqn:E; cbn; intros H;
    try discriminate; try (injection H as <-; now left).
  right. destruct (IH _ H) as [-> | [Hv Hn]].
  - split; [apply validate_set_hash | cbn; lia].
  - split; [exact Hv | cbn in Hn; lia].
Qed.

Lemma mine_block_validate (fuel : nat) (b b' : Block) (d : Z) :
  validate b = true -> mine_block fuel b d = Return b' -> validate b' = true.
Proof.
  intros Hv H. destruct (mine_block_same_or_valid _ _ _ _ H) as [-> | [Hv' _]];
    assumption.
Qed.

(** Sealing touches the nonce and the hash only. *)
Lemma mine_block_fields (fuel : nat) (b b' : Block) (d : Z) :
  mine_block fuel b d = Return b' ->
  index b' = index b /\ timestamp b' = timestamp b /\ data b' = data b
  /\ previous_hash b' = previous_hash b /\ nonce b <= nonce b'.
Proof.
  revert b. induction fuel as [|fuel IH]; intros b; rewrite mine_block_unfold;
    destruct (sealed d b) eqn:E; cbn; intros H;
    try discriminate; try (injection H as <-; repeat split; lia).
  destruct (IH _ H) as (Hi & Ht & Hd & Hp & Hn). cbn in *.
  repeat split; try assumption; lia.
Qed.

(** More fuel does not change an answer already reached. *)
Lemma mine_block_more_fuel (fuel extra : nat) (b b' : Block) (d : Z) :
  mine_block fuel b d = Return b' -> mine_block (fuel + extra) b d = Return b'.
Proof.
  revert b. induction fuel as [|fuel IH]; intros b;
    rewrite (mine_block_unfold (_ + extra)); rewrite mine_block_unfold;
    destruct (sealed d b) eqn:E; cbn; intros H;
    try discriminate; try exact H.
  apply IH. exact H.
Qed.

Lemma substring_prefix_get (n : nat) (c : ascii) (s : string) :
  substring 0 n s = string_of_list_ascii (repeat c n) ->
  forall i, (i < n)%nat -> String.get i s = Some c.
Proof.
  revert s. induction n as [|n IH]; intros s H i Hi; [lia|].
  destruct s as [|a s]; cbn in H; [discriminate|].
  injection H as -> H. destruct i as [|i]; cbn; [reflexivity|].
  apply IH; [exact H | lia].
Qed.

Lemma sealed_leading_zeros (d : Z) (b : Block) :
  0 <= d -> sealed d b = true ->
  forall i, (i < Z.to_nat d)%nat -> String.get i (hash b) = Some "0"%char.
Proof.
  intros Hd H. unfold sealed in H. apply String.eqb_eq in H.
  unfold slice_to, str_repeat in H.
  destruct (d <? 0) eqn:E; [apply Z.ltb_lt in E; lia|].
  apply substring_prefix_get. exact H.
Qed.

Lemma sealed_zero (b : Block) : sealed 0 b = true.
Proof.
  unfold sealed, slice_to, str_repeat. cbn.
  destruct (hash b); reflexivity.
Qed.

(** ** Chain integrity *)

Lemma linked_cons (p b : Block) (rest : list Block) :
  linked (p :: b :: rest) <-> previous_hash b = hash p /\ linked (b :: rest).
Proof.
  split.
  - intros H. split.
    + apply (H 0%nat p b); reflexivity.
    + intros i x y Hx Hy. apply (H (S i) x y); assumption.
  - intros [H1 H2] i x y Hx Hy. destruct i as [|i].
    + cbn in Hx, Hy. congruence.
    + apply (H2 i); assumption.
Qed.

Lemma linked_single (p : Block) : linked [p].
Proof. intros [|[|i]] x y Hx Hy; cbn in Hy; discriminate. Qed.

Lemma linked_nil : linked [].
Proof. intros [|i] x y Hx Hy; cbn in Hx; discriminate. Qed.

Lemma linked_snoc (c : list Block) (p b : Block) :
  linked (c ++ [p]) -> previous_hash b = hash p -> linked ((c ++ [p]) ++ [b]).
Proof.
  intros Hl Hb i x y Hx Hy.
  assert (Hlen : List.length (c ++ [p]) = S (List.length c))
    by (rewrite length_app; cbn; lia).
  destruct (Nat.lt_ge_cases (S i) (List.length (c ++ [p]))) as [Hlt | Hge].
  - rewrite nth_error_app1 in Hx by lia. rewrite nth_error_app1 in Hy by lia.
    eapply Hl; eassumption.
  - assert (Hi : i = List.length c).
    { assert (S i < List.length ((c ++ [p]) ++ [b]))%nat
        by (apply nth_error_Some; congruence).
      rewrite length_app in H. cbn in H. lia. }
    subst i. rewrite nth_error_app2 in Hy by lia.
    rewrite Hlen, Nat.sub_diag in Hy. cbn in Hy.
    rewrite nth_error_app1 in Hx by lia.
    rewrite nth_error_app2 in Hx by lia. rewrite Nat.sub_diag in Hx. cbn in Hx.
    congruence.
Qed.

Lemma is_chain_valid_from_shape (i : Z) (p : Block) (rest : list Block) :
  is_chain_valid_from i p rest = (true, [])
  \/ exists msg, is_chain_valid_from i p rest = (false, [msg]).
Proof.
  revert i p. induction rest as [|b rest IH]; intros i p; cbn.
  - now left.
  - destruct (validate b); cbn; [|right; eauto].
    destruct (String.eqb (previous_hash b) (hash p)); cbn; [|right; eauto].
    apply IH.
Qed.

Lemma is_chain_valid_from_true (i : Z) (p : Block) (rest : list Block) :
  is_chain_valid_from i p rest = (true, [])
  <-> all_valid rest /\ linked (p :: rest).
Proof.
  revert i p. induction rest as [|b rest IH]; intros i p; cbn [is_chain_valid_from].
  - split; [intros _; split; [constructor | apply linked_single] | reflexivity].
  - destruct (validate b) eqn:Hv; cbn [negb].
    + destruct (String.eqb_spec (previous_hash b) (hash p)) as [E|E]; cbn [negb].
      * rewrite IH, linked_cons. split.
        -- intros [H1 H2]. split; [constructor; assumption | split; assumption].
        -- intros [H1 [_ H2]]. inversion H1; subst. split; assumption.
      * split; [discriminate|]. intros [_ H]. apply linked_cons in H.
        destruct H; contradiction.
    + split; [discriminate|]. intros [H _]. inversion H; congruence.
Qed.

Lemma is_chain_valid_log_true (self : Blockchain) :
  is_chain_valid self = true <-> is_chain_valid_log self = (true, []).
Proof.
  unfold is_chain_valid, is_chain_valid_log.
  destruct (chain self) as [|first rest]; [cbn; tauto|].
  destruct (is_chain_valid_from_shape 1 first rest) as [-> | [msg ->]]; cbn;
    split; congruence.
Qed.

(** [is_chain_valid] looks at the hash of every block but the first, and
    at every link. *)
Lemma is_chain_valid_iff (self : Blockchain) :
  is_chain_valid self = true
  <-> all_valid (tl (chain self)) /\ linked (chain self).
Proof.
  rewrite is_chain_valid_log_true. unfold is_chain_valid_log.
  destruct (chain self) as [|first rest]; cbn [tl].
  - split; [intros _; split; [constructor | apply linked_nil] | reflexivity].
  - apply is_chain_valid_from_true.
Qed.

Lemma chain_integrity_valid (self : Blockchain) :
  chain_integrity (chain self) -> is_chain_valid self = true.
Proof.
  intros [Hl Hv]. apply is_chain_valid_iff. split; [|exact Hl].
  destruct (chain self); [constructor | inversion Hv; assumption].
Qed.

(** ** Running the monad backwards *)

Lemma bind_Return {A B} (m : M A) (k : A -> M B) (w w' : world) (b : B) :
  bind m k w = (Return b, w') ->
  exists a w1, m w = (Return a, w1) /\ k a w1 = (Return b, w').
Proof.
  unfold bind. destruct (m w) as [[a | e |] w1]; intros H; try discriminate.
  eauto.
Qed.

Lemma lift_Return {A} (o : outcome A) (w w' : world) (a : A) :
  lift o w = (Return a, w') -> o = Return a /\ w' = w.
Proof. unfold lift. intros H. injection H as -> ->. auto. Qed.

Lemma ret_Return {A} (x a : A) (w w' : world) :
  ret x w = (Return a, w') -> a = x /\ w' = w.
Proof. unfold ret. intros H. injection H as -> ->. auto. Qed.

Lemma get_latest_block_snoc (self : Blockchain) (b : Block) :
  get_latest_block self = Return b <-> exists pre, chain self = pre ++ [b].
Proof.
  unfold get_latest_block. split.
  - destruct (List.rev (chain self)) as [|x l] eqn:E; intros H; [discriminate|].
    injection H as ->. exists (List.rev l).
    rewrite <- (rev_involutive (chain self)), E. reflexivity.
  - intros [pre ->]. rewrite rev_app_distr. reflexivity.
Qed.

Lemma get_latest_block_nil (self : Blockchain) :
  chain self = [] ->
  get_latest_block self = Raise (mkExn "IndexError" "list index out of range").
Proof. unfold get_latest_block. intros ->. reflexivity. Qed.

Lemma create_genesis_block_Return (fuel : nat) (self self' : Blockchain)
    (w w' : world) :
  create_genesis_block fuel self w = (Return self', w') ->
  exists g,
    mine_block fuel
      (new_Block 0 (unix_time (clock w (reads w)))
         [ ("type", VStr "genesis");
           ("message", VStr "Certificate Verification Blockchain");
           ("creator", VStr "System");
           ("timestamp", VStr (isoformat (clock w (S (reads w))))) ]
         genesis_previous_hash) (difficulty self) = Return g
    /\ self' = append_block self g /\ w' = tick (tick w).
Proof.
  unfold create_genesis_block. intros H.
  apply bind_Return in H as (ts & w1 & H1 & H).
  apply bind_Return in H as (now & w2 & H2 & H).
  apply bind_Return in H as (g & w3 & H3 & H).
  apply lift_Return in H3 as [H3 ->]. apply ret_Return in H as [-> ->].
  unfold time_time in H1. injection H1 as <- <-.
  unfold now_isoformat in H2. injection H2 as <- <-.
  exists g. auto.
Qed.

Lemma add_block_Return (fuel : nat) (self self' : Blockchain) (d : dict)
    (w w' : world) (b : Block) :
  add_block fuel self d w = (Return (b, self'), w') ->
  exists latest,
    get_latest_block self = Return latest
    /\ mine_block fuel
         (new_Block (Z.of_nat (List.length (chain self)))
            (unix_time (clock w (reads w))) d (hash latest))
         (difficulty self) = Return b
    /\ self' = append_block self b /\ w' = tick w.
Proof.
  unfold add_block. intros H.
  apply bind_Return in H as (latest & w1 & H1 & H).
  apply lift_Return in H1 as [H1 ->].
  apply bind_Return in H as (ts & w2 & H2 & H).
  apply bind_Return in H as (g & w3 & H3 & H).
  apply lift_Return in H3 as [H3 ->]. apply ret_Return in H as [H ->].
  injection H as -> ->.
  unfold time_time in H2. injection H2 as <- <-.
  exists latest. auto.
Qed.

(** ** The concrete run *)

Lemma example_genesis_mined :
  mine_block 1 example_genesis_unsealed 1 = Return example_genesis.
Proof. vm_compute. reflexivity. Qed.

Lemma example_chain1_created :
  fst (new_Blockchain 1 1 example_world) = Return example_chain1.
Proof. vm_compute. reflexivity. Qed.

Lemma example_block1_appended :
  fst (add_block 3 example_chain1 example_payload (mkWorld example_clock 6))
  = Return (example_block1, example_chain2).
Proof. vm_compute. reflexivity. Qed.

Lemma example_chain1_reachable : reachable example_chain1.
Proof. exact (reachable_new 1 1 example_world _ example_chain1_created). Qed.

(** ** Sealing (C4) *)

(** C4, as amended.  For every difficulty [d >= 0] and every block, when
    [mine_block d] returns, the first [d] characters of the block's hash
    are all ['0']; [validate] then holds if it held when mining began (as
    it does for every block straight from the constructor) or if the loop
    changed the block.  For [d = 0] it returns at once with the block, and
    so its nonce, unchanged. *)
Theorem C4_mine_block_seals :
  (forall (fuel : nat) (d : Z) (b b' : Block),
      0 <= d ->
      mine_block fuel b d = Return b' ->
      slice_to (hash b') d = str_repeat "0"%char d
      /\ (forall i, (i < Z.to_nat d)%nat ->
                    String.get i (hash b') = Some "0"%char)
      /\ (validate b = true \/ b' <> b -> validate b' = true))
  /\ (forall (fuel : nat) (b : Block), mine_block fuel b 0 = Return b).
Proof.
  split.
  - intros fuel d b b' Hd H.
    pose proof (mine_block_sealed _ _ _ _ H) as Hs.
    split; [apply String.eqb_eq; exact Hs|].
    split; [apply sealed_leading_zeros; assumption|].
    intros [Hv | Hne].
    + eapply mine_block_validate; eassumption.
    + destruct (mine_block_same_or_valid _ _ _ _ H) as [-> | [Hv _]];
        [contradiction | exact Hv].
  - intros fuel b. rewrite mine_block_unfold, sealed_zero. reflexivity.
Qed.

Lemma C4_mine_block_seals_witness :
  0 <= 1
  /\ mine_block 1 example_genesis_unsealed 1 = Return example_genesis
  /\ slice_to (hash example_genesis) 1 = "0"
  /\ validate example_genesis = true.
Proof.
  assert (H0 : 0 <= 1) by lia.
  pose proof example_genesis_mined as Hm.
  destruct (proj1 C4_mine_block_seals 1%nat 1 _ _ H0 Hm) as (Hz & _ & Hv).
  split; [exact H0|]. split; [exact Hm|]. split; [exact Hz|].
  apply Hv. left. apply validate_new_Block.
Defined.

(** Where the claim as stated fails: a block whose stored hash already
    starts with a zero is returned as it is, and does not validate. *)
Lemma C4_forged_block_not_validated :
  mine_block 0 example_forged 1 = Return example_forged
  /\ validate example_forged = false.
Proof. split; vm_compute; reflexivity. Qed.

(** ** Chain integrity (C3) *)

Lemma all_valid_snoc (c : list Block) (b : Block) :
  all_valid c -> validate b = true -> all_valid (c ++ [b]).
Proof.
  intros Hc Hb. apply Forall_app. split; [exact Hc | constructor; [exact Hb | constructor]].
Qed.

Lemma indexed_snoc (c : list Block) (b : Block) :
  indexed c -> index b = Z.of_nat (List.length c) -> indexed (c ++ [b]).
Proof.
  intros Hc Hb i x Hx.
  destruct (Nat.lt_ge_cases i (List.length c)) as [Hlt | Hge].
  - rewrite nth_error_app1 in Hx by exact Hlt. apply Hc. exact Hx.
  - assert (i < List.length (c ++ [b]))%nat by (apply nth_error_Some; congruence).
    rewrite length_app in H. cbn in H.
    assert (i = List.length c) by lia. subst i.
    rewrite nth_error_app2, Nat.sub_diag in Hx by lia. cbn in Hx.
    injection Hx as <-. exact Hb.
Qed.

Lemma new_Blockchain_chain (fuel : nat) (d : Z) (w : world) (self : Blockchain) :
  fst (new_Blockchain fuel d w) = Return self ->
  exists g, chain self = [g] /\ difficulty self = d
            /\ validate g = true /\ index g = 0
            /\ previous_hash g = genesis_previous_hash /\ sealed d g = true.
Proof.
  unfold new_Blockchain. intros H.
  destruct (create_genesis_block fuel (mkBlockchain [] d []) w) as [o w'] eqn:E.
  cbn in H. subst o.
  apply create_genesis_block_Return in E as (g & Hm & -> & _).
  exists g. cbn in Hm |- *.
  destruct (mine_block_fields _ _ _ _ Hm) as (Hi & _ & _ & Hp & _).
  repeat split; try assumption.
  - eapply mine_block_validate; [apply validate_new_Block | exact Hm].
  - eapply mine_block_sealed; exact Hm.
Qed.

Lemma add_block_chain (fuel : nat) (self self' : Blockchain) (payload : dict)
    (w : world) (b : Block) :
  fst (add_block fuel self payload w) = Return (b, self') ->
  exists pre latest,
    chain self = pre ++ [latest]
    /\ chain self' = chain self ++ [b]
    /\ difficulty self' = difficulty self
    /\ validate b = true
    /\ index b = Z.of_nat (List.length (chain self))
    /\ data b = payload
    /\ previous_hash b = hash latest
    /\ sealed (difficulty self) b = true.
Proof.
  intros H. destruct (add_block fuel self payload w) as [o w'] eqn:E.
  cbn in H. subst o.
  apply add_block_Return in E as (latest & Hl & Hm & -> & _).
  apply get_latest_block_snoc in Hl as [pre Hpre].
  exists pre, latest.
  destruct (mine_block_fields _ _ _ _ Hm) as (Hi & _ & Hd & Hp & _).
  repeat split; try assumption; try reflexivity.
  - eapply mine_block_validate; [apply validate_new_Block | exact Hm].
  - eapply mine_block_sealed; exact Hm.
Qed.

(** What every chain the code builds satisfies. *)
Lemma reachable_invariant (self : Blockchain) :
  reachable self ->
  chain self <> []
  /\ chain_integrity (chain self)
  /\ indexed (chain self)
  /\ Forall (fun b => sealed (difficulty self) b = true) (chain self)
  /\ (exists g rest, chain self = g :: rest
                     /\ previous_hash g = genesis_previous_hash).
Proof.
  induction 1 as [fuel d w self H | fuel self self' payload w b Hr IH H].
  - apply new_Blockchain_chain in H as (g & Hc & Hd & Hv & Hi & Hp & Hs).
    rewrite Hc, Hd. repeat split.
    + discriminate.
    + apply linked_single.
    + constructor; [exact Hv | constructor].
    + intros [|[|i]] x Hx; cbn in Hx; try discriminate.
      injection Hx as <-. exact Hi.
    + constructor; [exact Hs | constructor].
    + exists g, []. auto.
  - destruct IH as (Hne & [Hl Hv] & Hidx & Hsealed & (g & rest & Hg & Hgp)).
    apply add_block_chain in H
      as (pre & latest & Hpre & Hc & Hd & Hvb & Hib & _ & Hpb & Hsb).
    rewrite Hc, Hd. repeat split.
    + destruct (chain self); [contradiction | discriminate].
    + rewrite Hpre. apply linked_snoc; [rewrite <- Hpre; exact Hl | exact Hpb].
    + apply all_valid_snoc; assumption.
    + apply indexed_snoc; assumption.
    + apply Forall_app. split; [exact Hsealed | constructor; [exact Hsb | constructor]].
    + exists g, (rest ++ [b]). rewrite Hg. auto.
Qed.

(** C3, as amended.  Every chain reachable by construction followed by
    appends that return satisfies the integrity invariant: each block after
    the first stores the hash of the block before it, and every stored hash
    equals the hash recomputed from the block's fields; so [is_chain_valid]
    is true.  After [add_block], the chain is valid, the new block is the
    latest one, and its [previous_hash] is the hash of the block that was
    the latest before, whatever the length of the chain was. *)
Theorem C3_chain_integrity :
  (forall self : Blockchain,
      reachable self ->
      chain_integrity (chain self) /\ is_chain_valid self = true)
  /\ (forall (fuel : nat) (self self' : Blockchain) (payload : dict)
             (w : world) (b : Block),
         reachable self ->
         fst (add_block fuel self payload w) = Return (b, self') ->
         is_chain_valid self' = true
         /\ get_latest_block self' = Return b
         /\ exists prior, get_latest_block self = Return prior
                          /\ previous_hash b = hash prior).
Proof.
  split.
  - intros self Hr. destruct (reachable_invariant _ Hr) as (_ & Hi & _).
    split; [exact Hi | apply chain_integrity_valid; exact Hi].
  - intros fuel self self' payload w b Hr H.
    assert (Hr' : reachable self') by (eapply reachable_add; eassumption).
    destruct (reachable_invariant _ Hr') as (_ & Hi & _).
    apply add_block_chain in H
      as (pre & latest & Hpre & Hc & _ & _ & _ & _ & Hpb & _).
    split; [apply chain_integrity_valid; exact Hi|].
    split; [apply get_latest_block_snoc; eauto|].
    exists latest. split; [apply get_latest_block_snoc; eauto | exact Hpb].
Qed.

Lemma C3_chain_integrity_witness :
  reachable example_chain1
  /\ fst (add_block 3 example_chain1 example_payload (mkWorld example_clock 6))
     = Return (example_block1, example_chain2)
  /\ is_chain_valid example_chain2 = true
  /\ get_latest_block example_chain2 = Return example_block1
  /\ previous_hash example_block1 = hash example_genesis.
Proof.
  pose proof example_chain1_reachable as Hr.
  pose proof example_block1_appended as Ha.
  destruct (proj2 C3_chain_integrity _ _ _ _ _ _ Hr Ha)
    as (Hv & Hl & prior & Hprior & Hp).
  split; [exact Hr|]. split; [exact Ha|]. split; [exact Hv|].
  split; [exact Hl|].
  rewrite Hp. cbv in Hprior. injection Hprior as <-. reflexivity.
Defined.

(** Where the claim as stated fails: on a chain that holds the genesis
    block only, the appended block links to the hash of the genesis block,
    not to the 64 zeros that the genesis block itself carries as
    [previous_hash]. *)
Lemma C3_first_append_links_to_genesis_hash :
  List.length (chain example_chain1) = 1%nat
  /\ fst (add_block 3 example_chain1 example_payload (mkWorld example_clock 6))
     = Return (example_block1, example_chain2)
  /\ get_latest_block example_chain2 = Return example_block1
  /\ previous_hash example_block1 = hash example_genesis
  /\ previous_hash example_block1 <> genesis_previous_hash.
Proof.
  split; [reflexivity|]. split; [exact example_block1_appended|].
  split; [reflexivity|]. split; [reflexivity|].
  apply String.eqb_neq. vm_compute. reflexivity.
Qed.

(** ** Tampering detection (C1) *)

Lemma linked_prefix (l1 l2 : list Block) : linked (l1 ++ l2) -> linked l1.
Proof.
  intros H i p b Hp Hb.
  assert (S i < List.length l1)%nat by (apply nth_error_Some; congruence).
  apply (H i p b); rewrite nth_error_app1 by lia; assumption.
Qed.

Lemma update_at_split {A : Type} (f : A -> A) (l : list A) (i : nat) (x : A) :
  nth_error l i = Some x ->
  exists pre post,
    l = pre ++ x :: post /\ List.length pre = i
    /\ update_at i f l = pre ++ f x :: post.
Proof.
  revert i. induction l as [|y l IH]; intros [|i] H; cbn in H; try discriminate.
  - injection H as ->. exists [], l. auto.
  - destruct (IH _ H) as (pre & post & -> & Hlen & Hu).
    exists (y :: pre), post. cbn. rewrite Hu, Hlen. auto.
Qed.

(** The scan stops at the first block whose hash does not check. *)
Lemma is_chain_valid_from_first_bad (k : Z) (p b : Block)
    (pre post : list Block) :
  all_valid pre -> linked (p :: pre) -> validate b = false ->
  is_chain_valid_from k p (pre ++ b :: post)
  = (false, [InvalidHashAt (k + Z.of_nat (List.length pre))]).
Proof.
  revert k p. induction pre as [|x pre IH]; intros k p Hv Hl Hb.
  - cbn. rewrite Hb. cbn. rewrite Z.add_0_r. reflexivity.
  - inversion Hv as [|? ? Hx Hpre]; subst.
    apply linked_cons in Hl as [Hxp Hl].
    rewrite <- app_comm_cons. cbn [is_chain_valid_from].
    rewrite Hx, Hxp, String.eqb_refl.
    cbn [negb]. rewrite IH by assumption.
    do 3 f_equal. cbn [List.length]. lia.
Qed.

(** The scan reads the block before the first checked one through its
    stored hash only. *)
Lemma is_chain_valid_from_hash_only (k : Z) (p p' : Block) (rest : list Block) :
  hash p' = hash p ->
  is_chain_valid_from k p' rest = is_chain_valid_from k p rest.
Proof. intros H. destruct rest as [|b rest]; cbn; rewrite ?H; reflexivity. Qed.

Lemma mutate_keeps_hash (m : mutation) (b : Block) :
  touches_hash m = false -> hash (mutate m b) = hash b.
Proof. destruct m; cbn; intros H; try reflexivity; discriminate. Qed.

(** A write that puts another value into a hashed field changes the
    hashed string. *)
Lemma changes_block_string (m : mutation) (b : Block) :
  touches_hash m = false -> changes m b ->
  block_string (mutate m b) <> block_string b.
Proof.
  intros Hm Hc E. apply block_string_inj in E.
  destruct E as (Hi & Ht & Hd & Hp & Hn).
  destruct m; try discriminate Hm; unfold changes in Hc;
    cbn [mutate set_nonce index timestamp data previous_hash nonce] in *;
    auto.
Qed.

(** After such a write the block no longer validates, unless the old and
    the new hashed string have one digest. *)
Lemma changes_not_valid (m : mutation) (b : Block) :
  validate b = true -> changes m b ->
  validate (mutate m b) = false
  \/ collision (block_string b) (block_string (mutate m b)).
Proof.
  intros Hv Hc. apply validate_true_iff in Hv.
  destruct (touches_hash m) eqn:Hm.
  - left. destruct m; try discriminate Hm. unfold changes in Hc.
    apply Bool.not_true_is_false. intros H. apply validate_true_iff in H.
    cbn [mutate] in H. rewrite calculate_hash_set_hash in H. cbn in H.
    apply Hc. congruence.
  - pose proof (changes_block_string m b Hm Hc) as Hs.
    destruct (validate (mutate m b)) eqn:E; [right | left; reflexivity].
    apply validate_true_iff in E. rewrite (mutate_keeps_hash m b Hm) in E.
    split; [congruence|]. unfold calculate_hash in *. congruence.
Qed.

(** [is_chain_valid] reads of the first block its stored hash, and of
    every later block whether it validates, its previous hash and its
    stored hash. *)
Lemma is_chain_valid_from_seen (k : Z) (p p' : Block) (l l' : list Block) :
  hash p = hash p' -> map seen l = map seen l' ->
  is_chain_valid_from k p l = is_chain_valid_from k p' l'.
Proof.
  revert k p p' l'.
  induction l as [|b l IH]; intros k p p' [|b' l'] Hp Hl; cbn [map] in Hl;
    try discriminate Hl; [reflexivity|].
  unfold seen in Hl at 1 3. injection Hl as Hv Hph Hh Hl.
  cbn [is_chain_valid_from]. rewrite Hv, Hph, Hp.
  destruct (negb (validate b')); [reflexivity|].
  destruct (negb (String.eqb (previous_hash b') (hash p'))); [reflexivity|].
  apply IH; assumption.
Qed.

Lemma unchanged_seen (m : mutation) (b : Block) :
  touches_hash m = false -> same_fields (mutate m b) b ->
  seen (mutate m b) = seen b.
Proof.
  intros Hm Hs. pose proof (proj2 (block_string_inj _ _) Hs) as E.
  destruct Hs as (_ & _ & _ & Hp & _).
  unfold seen, validate, calculate_hash.
  rewrite E, (mutate_keeps_hash m b Hm), Hp. reflexivity.
Qed.

Lemma map_update_at {A B : Type} (g : A -> B) (f : A -> A) (l : list A)
    (i : nat) (x : A) :
  nth_error l i = Some x -> g (f x) = g x ->
  map g (update_at i f l) = map g l.
Proof.
  intros Hx Hg. destruct (update_at_split f l i x Hx) as (pre & post & -> & _ & ->).
  rewrite !map_app. cbn [map]. rewrite Hg. reflexivity.
Qed.

(** C1, as amended.  On a chain that [is_chain_valid] accepts, a write to
    a stored field of a block at position [i >= 1] (latest or not) that
    puts another value there (another integer or string, a float with
    another decimal, a payload with another canonical form) makes
    [is_chain_valid] return false and report an invalid hash at block
    [i], unless the old and the new hashed string of the block are two
    different texts with one SHA-256 digest.  The genesis block is never
    re-hashed: another stored hash on it is reported as a broken link at
    block 1, and a write to any other of its fields leaves the result of
    [is_chain_valid] as it was.  And a write to a hashed field that leaves
    the five fields with the same canonical form (a payload with its keys
    in another order, a tuple for a list) is not seen at any position. *)
Theorem C1_tampering_detected :
  (forall (self : Blockchain) (i : nat) (b : Block) (m : mutation),
      is_chain_valid self = true ->
      (1 <= i)%nat ->
      nth_error (chain self) i = Some b ->
      changes m b ->
      is_chain_valid_log (tamper self i m)
      = (false, [InvalidHashAt (Z.of_nat i)])
      \/ collision (block_string b) (block_string (mutate m b)))
  /\ (forall (self : Blockchain) (g b1 : Block) (rest : list Block)
             (h : string),
         is_chain_valid self = true ->
         chain self = g :: b1 :: rest ->
         h <> hash g ->
         is_chain_valid_log (tamper self 0 (SetHash h))
         = (false, [InvalidPreviousHashAt 1]))
  /\ (forall (self : Blockchain) (m : mutation),
         touches_hash m = false ->
         is_chain_valid_log (tamper self 0 m) = is_chain_valid_log self)
  /\ (forall (self : Blockchain) (i : nat) (b : Block) (m : mutation),
         nth_error (chain self) i = Some b ->
         touches_hash m = false ->
         same_fields (mutate m b) b ->
         is_chain_valid_log (tamper self i m) = is_chain_valid_log self).
Proof.
  split; [|split; [|split]].
  - intros self i b m Hvalid Hi Hb Hd.
    apply is_chain_valid_iff in Hvalid as [Hv Hl].
    destruct (chain self) as [|first rest] eqn:Hc; [destruct i; discriminate|].
    destruct i as [|j]; [lia|]. cbn in Hb. cbn [tl] in Hv.
    destruct (update_at_split (mutate m) _ _ _ Hb)
      as (pre & post & Hrest & Hlen & Hu).
    rewrite Hrest in Hv, Hl. apply Forall_app in Hv as [Hpre Hpost].
    inversion Hpost as [|? ? Hbv _]; subst.
    destruct (changes_not_valid m b Hbv Hd) as [Hbad | Hcol];
      [left | right; exact Hcol].
    unfold is_chain_valid_log, tamper. cbn [chain]. rewrite Hc.
    cbn [update_at]. rewrite Hu.
    rewrite is_chain_valid_from_first_bad.
    + do 3 f_equal. lia.
    + exact Hpre.
    + apply (linked_prefix (first :: pre) (b :: post)). exact Hl.
    + exact Hbad.
  - intros self g b1 rest h Hvalid Hc Hh.
    apply is_chain_valid_iff in Hvalid as [Hv Hl].
    unfold is_chain_valid_log, tamper. cbn [chain]. rewrite Hc in *.
    cbn [tl] in Hv. inversion Hv as [|? ? Hb1 _]; subst.
    apply linked_cons in Hl as [Hp _].
    cbn. rewrite Hb1. cbn.
    destruct (String.eqb_spec (previous_hash b1) h) as [E|E]; [|reflexivity].
    congruence.
  - intros self m Hm. unfold is_chain_valid_log, tamper. cbn [chain].
    destruct (chain self) as [|first rest]; [reflexivity|].
    cbn [update_at]. apply is_chain_valid_from_hash_only.
    apply mutate_keeps_hash. exact Hm.
  - intros self i b m Hb Hm Hs.
    pose proof (map_update_at seen (mutate m) _ _ _ Hb (unchanged_seen m b Hm Hs))
      as E.
    unfold is_chain_valid_log, tamper. cbn [chain].
    destruct (chain self) as [|first rest];
      destruct (update_at i (mutate m) _) as [|first' rest'];
      cbn [map] in E; try discriminate E; [reflexivity|].
    unfold seen in E at 1 3. injection E as _ _ Eh Er.
    apply is_chain_valid_from_seen; [exact Eh | exact Er].
Qed.

Lemma example_chain4_valid : is_chain_valid example_chain4 = true.
Proof. vm_compute. reflexivity. Qed.

Lemma example_record_changes :
  changes (SetData example_record) example_block1.
Proof.
  unfold changes. intros E. apply dumps_inj in E. revert E.
  apply String.eqb_neq. vm_compute. reflexivity.
Qed.

Lemma C1_tampering_detected_witness :
  is_chain_valid example_chain4 = true
  /\ (1 <= 1)%nat
  /\ nth_error (chain example_chain4) 1 = Some example_block1
  /\ changes (SetData example_record) example_block1
  /\ is_chain_valid_log (tamper example_chain4 1 (SetData example_record))
     = (false, [InvalidHashAt 1]).
Proof.
  assert (H1 : (1 <= 1)%nat) by lia.
  assert (H2 : nth_error (chain example_chain4) 1 = Some example_block1)
    by reflexivity.
  split; [exact example_chain4_valid|]. split; [exact H1|].
  split; [exact H2|]. split; [exact example_record_changes|].
  destruct (proj1 C1_tampering_detected example_chain4 1%nat example_block1
              (SetData example_record) example_chain4_valid H1 H2
              example_record_changes) as [H | [_ H]]; [exact H|].
  exfalso. revert H. apply String.eqb_neq. vm_compute. reflexivity.
Defined.

(** Where the claim as stated fails.  The genesis block of a two-block
    chain is a non-latest block; after its nonce is overwritten it no
    longer validates, and [is_chain_valid] still returns true.  And in a
    chain of three blocks, the payload of block 1 holds a list; after the
    payload is replaced by the one that holds the tuple of the same items,
    [is_chain_valid] still returns true. *)
Lemma C1_undetected_writes :
  (List.length (chain example_chain2) = 2%nat
   /\ is_chain_valid example_chain2 = true
   /\ nth_error (chain example_chain2) 0 = Some example_genesis
   /\ nonce example_genesis <> 2
   /\ validate (mutate (SetNonce 2) example_genesis) = false
   /\ is_chain_valid_log (tamper example_chain2 0 (SetNonce 2)) = (true, []))
  /\ (List.length (chain example_listed_chain) = 3%nat
      /\ is_chain_valid example_listed_chain = true
      /\ (exists b, nth_error (chain example_listed_chain) 1 = Some b
                    /\ data b = example_listed_payload)
      /\ example_tupled_payload <> example_listed_payload
      /\ is_chain_valid_log
           (tamper example_listed_chain 1 (SetData example_tupled_payload))
         = (true, [])).
Proof.
  split.
  - split; [reflexivity|]. split; [vm_compute; reflexivity|].
    split; [reflexivity|]. split; [discriminate|].
    split; vm_compute; reflexivity.
  - split; [reflexivity|]. split; [vm_compute; reflexivity|].
    split; [eexists; split; reflexivity|]. split; [discriminate|].
    vm_compute. reflexivity.
Qed.

(** ** Registration and lookup of the returned hash (C2) *)

(** C2, on the scenario of the claim: a fresh chain of difficulty 1, the
    record C-100 / U1 / abc123 / 80, a clock that moves between readings.
    Registration succeeds, the block hash starts with ['0'] and the block
    index is 1; but the [certificate_hash] handed back was computed from a
    later clock reading than the hash stored in the block, so looking it up
    finds nothing.  The stored hash is found, in block 1. *)
Theorem C2_returned_hash_is_not_the_stored_one :
  fst (new_Blockchain 1 1 example_world) = Return example_chain1
  /\ reads (snd (new_Blockchain 1 1 example_world)) = 2%nat
  /\ fst (BlockchainManager.register_certificate 3
            (BlockchainManager.mkManager example_chain1) example_record
            (mkWorld example_clock 2))
     = Return (example_receipt, BlockchainManager.mkManager example_chain2)
  /\ get example_receipt "success" = VBool true
  /\ (exists h, get example_receipt "block_hash" = VStr h
                /\ String.get 0 h = Some "0"%char)
  /\ get example_receipt "block_index" = VInt 1
  /\ get example_receipt "certificate_hash" = VStr example_returned_hash
  /\ (forall fmt,
         BlockchainManager.verify_certificate fmt
           (BlockchainManager.mkManager example_chain2) example_returned_hash
         = Return not_found)
  /\ get not_found "exists" = VBool false
  /\ (forall fmt,
         BlockchainManager.verify_certificate fmt
           (BlockchainManager.mkManager example_chain2) example_stored_hash
         = Return (found fmt example_block1 (VDict example_transaction))).
Proof.
  split; [exact example_chain1_created|].
  split; [vm_compute; reflexivity|].
  split; [vm_compute; reflexivity|].
  split; [reflexivity|].
  split; [eexists; split; reflexivity|].
  split; [reflexivity|]. split; [reflexivity|].
  split; [intros fmt; reflexivity|].
  split; [reflexivity|].
  intros fmt; reflexivity.
Qed.

(** ** The latest block (C7) *)

(** C7, as amended.  [get_latest_block] returns the last block of a
    non-empty chain; on an empty chain it raises Python's [IndexError]
    (list index out of range), a defined exception; the code has no
    [EmptyChainError]. *)
Theorem C7_get_latest_block :
  (forall (self : Blockchain) (pre : list Block) (b : Block),
      chain self = pre ++ [b] -> get_latest_block self = Return b)
  /\ (forall self : Blockchain,
         chain self = [] ->
         get_latest_block self
         = Raise (mkExn "IndexError" "list index out of range")).
Proof.
  split.
  - intros self pre b H. apply get_latest_block_snoc. eauto.
  - exact get_latest_block_nil.
Qed.

Lemma C7_get_latest_block_witness :
  chain example_chain2 = [example_genesis] ++ [example_block1]
  /\ get_latest_block example_chain2 = Return example_block1
  /\ chain empty_chain = []
  /\ get_latest_block empty_chain
     = Raise (mkExn "IndexError" "list index out of range").
Proof.
  assert (H1 : chain example_chain2 = [example_genesis] ++ [example_block1])
    by reflexivity.
  assert (H2 : chain empty_chain = []) by reflexivity.
  split; [exact H1|].
  split; [exact (proj1 C7_get_latest_block _ _ _ H1)|].
  split; [exact H2|].
  exact (proj2 C7_get_latest_block _ H2).
Defined.

(** Where the claim as stated fails: the exception raised on an empty chain
    is [IndexError], not [EmptyChainError]. *)
Lemma C7_empty_chain_raises_IndexError :
  exists e, get_latest_block empty_chain = Raise e
            /\ exn_class e = "IndexError"
            /\ exn_class e <> "EmptyChainError".
Proof.
  eexists. split; [reflexivity|]. split; [reflexivity|]. discriminate.
Qed.

(** ** Rejected certificates (C8) *)

Lemma bind_lift_Return {A B} (o : outcome A) (k : A -> M B) (w w' : world)
    (b : B) :
  bind (lift o) k w = (Return b, w') ->
  exists a, o = Return a /\ k a w = (Return b, w').
Proof.
  intros H. apply bind_Return in H as (a & w1 & H1 & H).
  apply lift_Return in H1 as [-> ->]. eauto.
Qed.

(** The verdict is negative exactly when one of the four rules fails. *)
Lemma validate_certificate_valid (certificate_data verdict : dict)
    (w w' : world) :
  CertificateSmartContract.validate_certificate certificate_data w
  = (Return verdict, w') ->
  exists above,
    ge_int (get_default certificate_data "confidence_score" (VInt 0))
           CertificateSmartContract.min_confidence = Return above
    /\ get verdict "valid"
       = VBool (truthy (get certificate_data "certificate_number")
                && truthy (get certificate_data "owner_id")
                && truthy (get certificate_data "file_hash")
                && above)
    /\ w' = tick w.
Proof.
  unfold CertificateSmartContract.validate_certificate. intros H.
  apply bind_lift_Return in H as (above & Ha & H).
  apply bind_Return in H as (now & w1 & Hn & H).
  unfold now_isoformat in Hn. injection Hn as <- <-.
  apply ret_Return in H as [-> ->].
  exists above. split; [exact Ha|]. split; [|reflexivity].
  unfold CertificateSmartContract.rule.
  destruct (truthy (get certificate_data "certificate_number"));
    destruct (truthy (get certificate_data "owner_id"));
    destruct (truthy (get certificate_data "file_hash"));
    destruct above; reflexivity.
Qed.

(** C8.  Whenever the verdict of [validate_certificate] has [valid] false,
    which is exactly when the certificate number, the owner id or the file
    hash is missing (or otherwise falsy) or the confidence score is below
    60, [register_certificate] returns [success: False] together with the
    whole verdict, and the manager, with its chain, is the one it was
    given: nothing is mined, for any amount of fuel, and the clock was read
    once, for the verdict. *)
Theorem C8_rejected_certificate_leaves_chain :
  forall (fuel : nat) (self : BlockchainManager.t)
         (certificate_data verdict : dict) (w w' : world),
    CertificateSmartContract.validate_certificate certificate_data w
    = (Return verdict, w') ->
    get verdict "valid" = VBool false ->
    BlockchainManager.register_certificate fuel self certificate_data w
    = (Return ([ ("success", VBool false);
                 ("error", VStr "Certificate failed smart contract validation");
                 ("validation_result", VDict verdict) ],
               self),
       w')
    /\ w' = tick w
    /\ (truthy (get certificate_data "certificate_number") = false
        \/ truthy (get certificate_data "owner_id") = false
        \/ truthy (get certificate_data "file_hash") = false
        \/ ge_int (get_default certificate_data "confidence_score" (VInt 0)) 60
           = Return false).
Proof.
  intros fuel self cd verdict w w' Hv Hvalid.
  split; [|].
  - unfold BlockchainManager.register_certificate, bind.
    rewrite Hv, Hvalid. reflexivity.
  - destruct (validate_certificate_valid _ _ _ _ Hv) as (above & Ha & Hg & Hw).
    split; [exact Hw|].
    rewrite Hvalid in Hg. injection Hg as Hg. symmetry in Hg.
    destruct (truthy (get cd "certificate_number")); [|now left].
    destruct (truthy (get cd "owner_id")); [|now (right; left)].
    destruct (truthy (get cd "file_hash")); [|now (right; right; left)].
    cbn in Hg. subst above. right; right; right. exact Ha.
Qed.

Lemma C8_rejected_certificate_leaves_chain_witness :
  CertificateSmartContract.validate_certificate example_weak_record
    (mkWorld example_clock 2)
  = (Return example_weak_verdict, mkWorld example_clock 3)
  /\ get example_weak_verdict "valid" = VBool false
  /\ BlockchainManager.register_certificate 0
       (BlockchainManager.mkManager example_chain1) example_weak_record
       (mkWorld example_clock 2)
     = (Return ([ ("success", VBool false);
                  ("error",
                    VStr "Certificate failed smart contract validation");
                  ("validation_result", VDict example_weak_verdict) ],
                BlockchainManager.mkManager example_chain1),
        mkWorld example_clock 3).
Proof.
  assert (H1 : CertificateSmartContract.validate_certificate
                 example_weak_record (mkWorld example_clock 2)
               = (Return example_weak_verdict, mkWorld example_clock 3))
    by reflexivity.
  assert (H2 : get example_weak_verdict "valid" = VBool false) by reflexivity.
  split; [exact H1|]. split; [exact H2|].
  exact (proj1 (C8_rejected_certificate_leaves_chain 0
                  (BlockchainManager.mkManager example_chain1) _ _ _ _ H1 H2)).
Defined.

(** ** Registration: which clock reading each hash comes from *)

(** The cause, on any run: the hash stored in the block is computed from
    the third clock reading of the call, the hash handed back from the
    sixth. *)
Lemma calculate_certificate_hash_reading (certificate_data : dict) (w : world) :
  calculate_certificate_hash certificate_data w
  = (Return (certificate_digest certificate_data (isoformat (reading w 0))),
     tick w).
Proof.
  unfold calculate_certificate_hash, bind, now_isoformat, ret, reading.
  rewrite Nat.add_0_r. reflexivity.
Qed.

Lemma certificate_digest_at (certificate_data : dict) (w : world) (i j : nat) :
  i = j ->
  VStr (certificate_digest certificate_data (isoformat (clock w i)))
  = VStr (certificate_digest certificate_data (isoformat (clock w j))).
Proof. intros ->. reflexivity. Qed.

Lemma add_certificate_transaction_Return (fuel : nat) (self self' : Blockchain)
    (certificate_data : dict) (w w' : world) (block_hash : string) :
  add_certificate_transaction fuel self certificate_data w
  = (Return (block_hash, self'), w') ->
  exists b t,
    chain self' = chain self ++ [b]
    /\ hash b = block_hash
    /\ data b = [ ("transaction_type", VStr registration);
                  ("transaction", VDict t) ]
    /\ get t "hash"
       = VStr (certificate_digest certificate_data (isoformat (reading w 1)))
    /\ add_block fuel self (data b) (tick (tick (tick w)))
       = (Return (b, self'), w')
    /\ w' = tick (tick (tick (tick w))).
Proof.
  unfold add_certificate_transaction. intros H.
  apply bind_Return in H as (verified_at & w1 & H1 & H).
  unfold now_isoformat in H1. injection H1 as <- <-.
  apply bind_Return in H as (cert_hash & w2 & H2 & H).
  rewrite calculate_certificate_hash_reading in H2. injection H2 as <- <-.
  apply bind_Return in H as (recorded_at & w3 & H3 & H).
  unfold now_isoformat in H3. injection H3 as <- <-.
  apply bind_Return in H as ([b bc] & w4 & H4 & H).
  apply ret_Return in H as [H ->]. injection H as -> ->.
  pose proof H4 as Hadd.
  apply add_block_Return in H4 as (latest & _ & Hm & -> & ->).
  destruct (mine_block_fields _ _ _ _ Hm) as (_ & _ & Hd & _).
  eexists b, _. split; [reflexivity|]. split; [reflexivity|].
  split; [exact Hd|]. split; [|split; [rewrite Hd; exact Hadd | reflexivity]].
  cbn [get get_default lookup String.eqb Ascii.eqb Bool.eqb].
  unfold reading. cbn [tick reads clock]. apply certificate_digest_at. lia.
Qed.

Lemma register_certificate_hashes (fuel : nat) (self self' : BlockchainManager.t)
    (certificate_data result : dict) (w : world) :
  fst (BlockchainManager.register_certificate fuel self certificate_data w)
  = Return (result, self') ->
  get result "success" = VBool true ->
  get result "certificate_hash"
  = VStr (certificate_digest certificate_data (isoformat (reading w 5)))
  /\ exists b t,
       get_latest_block (BlockchainManager.blockchain self') = Return b
       /\ data b = [ ("transaction_type", VStr registration);
                     ("transaction", VDict t) ]
       /\ get t "hash"
          = VStr (certificate_digest certificate_data
                    (isoformat (reading w 2))).
Proof.
  unfold BlockchainManager.register_certificate, bind at 1. intros H Hs.
  destruct (CertificateSmartContract.validate_certificate certificate_data w)
    as [[verdict | e |] w1] eqn:Hv; cbn [fst] in H; try discriminate.
  apply validate_certificate_valid in Hv as (_ & _ & _ & ->).
  destruct (negb (truthy (get verdict "valid"))).
  { cbn in H. injection H as <- _. discriminate. }
  unfold BlockchainManager.try_except in H.
  match type of H with
  | context [match ?body with _ => _ end] => destruct body as [o w2] eqn:Hb
  end.
  destruct o as [[r m] | e |]; cbn [fst] in H; try discriminate;
    [| cbn in H; injection H as <- _; discriminate].
  injection H as -> ->.
  apply bind_Return in Hb as ([bh bc] & w3 & Ha & Hb).
  apply add_certificate_transaction_Return in Ha
    as (b & t & Hc & _ & Hd & Ht & _ & ->).
  apply bind_Return in Hb as (cert_hash & w4 & Hh & Hb).
  rewrite calculate_certificate_hash_reading in Hh. injection Hh as <- <-.
  apply bind_Return in Hb as (now & w5 & _ & Hb).
  apply ret_Return in Hb as [Hb _]. injection Hb as Hr Hm. subst result self'.
  split.
  - cbn [get get_default lookup String.eqb Ascii.eqb Bool.eqb].
    unfold reading. cbn [tick reads clock]. apply certificate_digest_at. lia.
  - exists b, t. split; [apply get_latest_block_snoc; eauto|].
    split; [exact Hd|]. rewrite Ht.
    unfold reading. cbn [tick reads clock]. apply certificate_digest_at. lia.
Qed.

(** ** Lookup by content hash (C5) *)

Lemma is_registration_typed (b : Block) :
  is_registration b = true -> typed_registration b = true.
Proof. unfold is_registration. intros H. apply andb_prop in H. tauto. Qed.

Lemma verify_certificate_loop_hit (fmt : pyfloat -> string) (b : Block)
    (rest : list Block) (h : string) :
  has_hash h b = true ->
  verify_certificate_loop fmt (b :: rest) h
  = Return (found fmt b (transaction_of b)).
Proof.
  unfold has_hash. intros H. apply andb_prop in H as [Hr Hf].
  cbn [verify_certificate_loop].
  fold (typed_registration b). fold (is_registration b). fold (transaction_of b).
  rewrite Hr. destruct (transaction_of b) as [| | | | |l|t|l]; try discriminate.
  cbn [field_is] in Hf. unfold get in Hf.
  cbn [andb attr_get attr_get_default obind]. rewrite Hf. reflexivity.
Qed.

Lemma verify_certificate_loop_skip (fmt : pyfloat -> string) (b : Block)
    (rest : list Block) (h : string) :
  well_shaped b -> has_hash h b = false ->
  verify_certificate_loop fmt (b :: rest) h
  = verify_certificate_loop fmt rest h.
Proof.
  unfold has_hash. intros Hw H.
  cbn [verify_certificate_loop].
  fold (typed_registration b). fold (is_registration b). fold (transaction_of b).
  destruct (is_registration b) eqn:Hr; [|reflexivity].
  destruct (Hw (is_registration_typed _ Hr)) as [t Ht].
  rewrite Ht in H |- *. cbn [andb field_is] in H. unfold get in H.
  cbn [attr_get attr_get_default obind]. rewrite H. reflexivity.
Qed.

Lemma verify_certificate_loop_first (fmt : pyfloat -> string)
    (pre post : list Block) (b : Block) (h : string) :
  Forall well_shaped pre ->
  (forall x, In x pre -> has_hash h x = false) ->
  has_hash h b = true ->
  verify_certificate_loop fmt (pre ++ b :: post) h
  = Return (found fmt b (transaction_of b)).
Proof.
  induction 1 as [|x pre Hx _ IH]; intros Hpre Hb.
  - apply verify_certificate_loop_hit. exact Hb.
  - rewrite <- app_comm_cons, verify_certificate_loop_skip.
    + apply IH; [|exact Hb]. intros y Hy. apply Hpre. now right.
    + exact Hx.
    + apply Hpre. now left.
Qed.

Lemma verify_certificate_loop_none (fmt : pyfloat -> string)
    (blocks : list Block) (h : string) :
  Forall well_shaped blocks ->
  (forall x, In x blocks -> has_hash h x = false) ->
  verify_certificate_loop fmt blocks h = Return not_found.
Proof.
  induction 1 as [|x blocks Hx _ IH]; intros Hnone; [reflexivity|].
  rewrite verify_certificate_loop_skip.
  - apply IH. intros y Hy. apply Hnone. now right.
  - exact Hx.
  - apply Hnone. now left.
Qed.

(** C5, as amended.  On a chain whose blocks marked as certificate
    registrations carry a dict as their transaction (as every block written
    by [add_certificate_transaction] does): if no registration in the chain
    has content hash [h], [verify_certificate h] returns the not-found
    result, with [exists] false; otherwise it returns the first match in
    chain order, reporting that block's index, hash and timestamp and the
    transaction itself.  For the second part the blocks before the match
    are the only ones that need the shape. *)
Theorem C5_verify_certificate_first_match :
  (forall (fmt : pyfloat -> string) (self : Blockchain) (h : string),
      Forall well_shaped (chain self) ->
      (forall b, In b (chain self) -> has_hash h b = false) ->
      verify_certificate fmt self h = Return not_found
      /\ get not_found "exists" = VBool false)
  /\ (forall (fmt : pyfloat -> string) (self : Blockchain) (h : string)
             (pre post : list Block) (b : Block),
         chain self = pre ++ b :: post ->
         Forall well_shaped pre ->
         (forall x, In x pre -> has_hash h x = false) ->
         has_hash h b = true ->
         exists r,
           verify_certificate fmt self h = Return r
           /\ get r "exists" = VBool true
           /\ get r "block_index" = VInt (index b)
           /\ get r "block_hash" = VStr (hash b)
           /\ get r "timestamp" = VFloat (timestamp b)
           /\ get r "transaction" = transaction_of b
           /\ lookup (data b) "transaction" = Some (transaction_of b)).
Proof.
  split.
  - intros fmt self h Hs Hnone. split; [|reflexivity].
    apply verify_certificate_loop_none; assumption.
  - intros fmt self h pre post b Hc Hs Hpre Hb.
    exists (found fmt b (transaction_of b)).
    split; [|repeat (split; [reflexivity|])].
    + unfold verify_certificate. rewrite Hc.
      apply verify_certificate_loop_first; assumption.
    + unfold has_hash, is_registration, contains in Hb.
      unfold transaction_of, get_default.
      destruct (lookup (data b) "transaction"); [reflexivity|].
      rewrite andb_false_r in Hb. discriminate.
Qed.

Lemma example_chain4_well_shaped : Forall well_shaped (chain example_chain4).
Proof. repeat constructor; intros _; eexists; reflexivity. Qed.

Lemma example_chain4_indexed : indexed (chain example_chain4).
Proof.
  intros i b H.
  do 4 (destruct i as [|i]; [cbn in H; injection H as <-; reflexivity|]).
  destruct i; discriminate.
Qed.

Lemma C5_verify_certificate_first_match_witness :
  Forall well_shaped (chain example_chain4)
  /\ (forall b, In b (chain example_chain4) ->
                has_hash example_returned_hash b = false)
  /\ (forall fmt,
         verify_certificate fmt example_chain4 example_returned_hash
         = Return not_found)
  /\ chain example_chain4
     = [example_genesis] ++ example_block1 :: skipn 2 (chain example_chain4)
  /\ has_hash example_stored_hash example_block1 = true
  /\ (forall fmt, exists r,
         verify_certificate fmt example_chain4 example_stored_hash = Return r
         /\ get r "exists" = VBool true
         /\ get r "block_index" = VInt 1
         /\ get r "transaction" = VDict example_transaction).
Proof.
  assert (H1 : forall b, In b (chain example_chain4) ->
                         has_hash example_returned_hash b = false).
  { intros b Hb. cbn in Hb.
    repeat (destruct Hb as [<- | Hb]; [reflexivity|]). contradiction. }
  assert (H2 : chain example_chain4
               = [example_genesis] ++ example_block1
                   :: skipn 2 (chain example_chain4)) by reflexivity.
  assert (H3 : Forall well_shaped [example_genesis])
    by (repeat constructor; intros _; eexists; reflexivity).
  assert (H4 : forall x, In x [example_genesis] ->
                         has_hash example_stored_hash x = false).
  { intros x [<- | []]. reflexivity. }
  assert (H5 : has_hash example_stored_hash example_block1 = true)
    by reflexivity.
  split; [exact example_chain4_well_shaped|]. split; [exact H1|].
  split.
  { intros fmt.
    exact (proj1 (proj1 C5_verify_certificate_first_match fmt example_chain4
                    example_returned_hash example_chain4_well_shaped H1)). }
  split; [exact H2|]. split; [exact H5|].
  intros fmt.
  destruct (proj2 C5_verify_certificate_first_match fmt example_chain4
              example_stored_hash _ _ _ H2 H3 H4 H5)
    as (r & Hr & He & Hi & _ & _ & Ht & _).
  exists r. split; [exact Hr|]. split; [exact He|].
  split; [exact Hi | exact Ht].
Defined.

(** Where the claim as stated fails: [add_block] accepts any payload; on
    the chain that holds a block marked as a registration whose
    transaction is a string, no registration has the content hash asked
    for, and the lookup ends in an [AttributeError]. *)
Lemma C5_odd_transaction_raises :
  (exists b,
      fst (add_block 200 example_chain1 example_odd_payload
             (mkWorld example_clock 2)) = Return (b, example_odd_chain))
  /\ (forall b, In b (chain example_odd_chain) -> has_hash "abc123" b = false)
  /\ (forall fmt,
         verify_certificate fmt example_odd_chain "abc123"
         = Raise (mkExn "AttributeError"
                    "'str' object has no attribute 'get'")).
Proof.
  split; [eexists; vm_compute; reflexivity|].
  split; [|intros fmt; reflexivity].
  intros b Hb. cbn in Hb.
  repeat (destruct Hb as [<- | Hb]; [reflexivity|]). contradiction.
Qed.

(** ** History and recent entries (C6) *)

Lemma get_certificate_history_loop_filter (fmt : pyfloat -> string)
    (blocks : list Block) (cid : string) (history : list dict) :
  Forall well_shaped blocks ->
  get_certificate_history_loop fmt blocks cid history
  = Return (history
            ++ map (fun b => history_entry fmt b (transaction_of b))
                   (filter (has_certificate_id cid) blocks)).
Proof.
  intros H. revert history.
  induction H as [|b blocks Hb _ IH]; intros history.
  - cbn. rewrite app_nil_r. reflexivity.
  - cbn [get_certificate_history_loop filter]. unfold has_certificate_id at 1.
    fold (typed_registration b). fold (is_registration b).
    fold (transaction_of b).
    destruct (is_registration b) eqn:Hr; cbn [andb]; [|apply IH].
    destruct (Hb (is_registration_typed _ Hr)) as [t Ht].
    rewrite IH, IH. rewrite Ht.
    cbn [attr_get attr_get_default obind field_is]. unfold get.
    destruct (eq_str (get_default t "certificate_id" VNone) cid).
    + cbn [map]. rewrite <- app_assoc, Ht. reflexivity.
    + reflexivity.
Qed.

Lemma get_recent_transactions_loop_firstn (fmt : pyfloat -> string)
    (blocks : list Block) (limit : Z) (recent : list dict) (count : Z) :
  Forall well_shaped blocks ->
  count < limit ->
  BlockchainManager.get_recent_transactions_loop fmt blocks limit recent count
  = Return (recent
            ++ map (summary fmt)
                   (firstn (Z.to_nat (limit - count))
                           (filter typed_registration blocks))).
Proof.
  intros H. revert recent count.
  induction H as [|b blocks Hb _ IH]; intros recent count Hc.
  - cbn. rewrite firstn_nil, app_nil_r. reflexivity.
  - cbn [BlockchainManager.get_recent_transactions_loop filter].
    fold (typed_registration b). fold (transaction_of b).
    destruct (typed_registration b) eqn:Hr; [|apply IH; exact Hc].
    destruct (Hb Hr) as [t Ht].
    replace (Z.to_nat (limit - count))
      with (S (Z.to_nat (limit - (count + 1)))) by lia.
    cbn [firstn map]. unfold summary at 1. rewrite Ht.
    cbn [attr_get_default obind].
    destruct (Z.leb_spec limit (count + 1)) as [Hle | Hgt].
    + replace (Z.to_nat (limit - (count + 1))) with 0%nat by lia.
      reflexivity.
    + rewrite IH by exact Hgt. rewrite <- app_assoc. reflexivity.
Qed.

Lemma indexed_from_sorted (k : nat) (c : list Block) :
  (forall i b, nth_error c i = Some b -> index b = Z.of_nat (k + i)) ->
  StronglySorted Z.lt (map index c).
Proof.
  revert k. induction c as [|x c IH]; intros k H; cbn; constructor.
  - apply (IH (S k)). intros i b Hb.
    rewrite (H (S i) b Hb). f_equal. lia.
  - apply Forall_forall. intros z Hz. apply in_map_iff in Hz as (b & <- & Hb).
    apply In_nth_error in Hb as [i Hi].
    rewrite (H 0%nat x eq_refl), (H (S i) b Hi). lia.
Qed.

Lemma indexed_sorted (c : list Block) :
  indexed c -> StronglySorted Z.lt (map index c).
Proof. intros H. apply (indexed_from_sorted 0). exact H. Qed.

Lemma sorted_filter {A} (R : Z -> Z -> Prop) (f : A -> Z) (keep : A -> bool)
    (l : list A) :
  StronglySorted R (map f l) -> StronglySorted R (map f (filter keep l)).
Proof.
  induction l as [|x l IH]; cbn; intros H; [constructor|].
  inversion H as [|? ? Hs Hf]; subst.
  destruct (keep x); [|apply IH; exact Hs].
  cbn. constructor; [apply IH; exact Hs|].
  apply Forall_forall. intros z Hz. apply in_map_iff in Hz as (y & <- & Hy).
  apply filter_In in Hy as [Hy _].
  rewrite Forall_forall in Hf. apply Hf. apply in_map. exact Hy.
Qed.

Lemma firstn_In {A} (n : nat) (l : list A) (x : A) :
  In x (firstn n l) -> In x l.
Proof.
  intros H. rewrite <- (firstn_skipn n l). apply in_or_app. now left.
Qed.

Lemma sorted_firstn {A} (R : Z -> Z -> Prop) (f : A -> Z) (n : nat)
    (l : list A) :
  StronglySorted R (map f l) -> StronglySorted R (map f (firstn n l)).
Proof.
  revert l. induction n as [|n IH]; intros [|x l] H; cbn; try constructor.
  - inversion H; subst. apply IH. assumption.
  - inversion H as [|? ? Hs Hf]; subst.
    apply Forall_forall. intros z Hz. apply in_map_iff in Hz as (y & <- & Hy).
    apply firstn_In in Hy.
    rewrite Forall_forall in Hf. apply Hf. apply in_map. exact Hy.
Qed.

Lemma sorted_rev (l : list Z) :
  StronglySorted Z.lt l -> StronglySorted Z.gt (List.rev l).
Proof.
  induction l as [|x l IH]; intros H; cbn; [constructor|].
  inversion H as [|? ? Hs Hf]; subst.
  assert (G : forall (pre : list Z),
             StronglySorted Z.gt pre -> Forall (fun y => y > x) pre ->
             StronglySorted Z.gt (pre ++ [x])).
  { induction pre as [|p pre IHp]; intros Hp Hx; cbn.
    - constructor; constructor.
    - inversion Hp; subst. inversion Hx; subst.
      constructor; [apply IHp; assumption|].
      apply Forall_app. split; [assumption | constructor; [assumption | constructor]]. }
  apply G; [apply IH; exact Hs|].
  apply Forall_forall. intros y Hy. apply in_rev in Hy.
  rewrite Forall_forall in Hf. specialize (Hf y Hy). lia.
Qed.

Lemma indexed_rev_sorted (c : list Block) :
  indexed c -> StronglySorted Z.gt (map index (List.rev c)).
Proof.
  intros H. rewrite map_rev. apply sorted_rev, indexed_sorted. exact H.
Qed.

(** C6, as amended.  On a chain whose blocks marked as registrations carry
    a dict as their transaction: [get_certificate_history] returns, in
    chain order, exactly the entries of the registrations that bear the
    certificate id; and for every limit [n >= 1],
    [get_recent_transactions n] returns the summaries of the first [n]
    registrations met from the newest block backwards, so at most [n] of
    them.  When every block carries its position as its index (as in every
    chain the code builds), chain order is ascending block index and the
    backwards order is descending block index. *)
Theorem C6_history_and_recent_order :
  (forall (fmt : pyfloat -> string) (self : Blockchain) (cid : string),
      Forall well_shaped (chain self) ->
      let matching := filter (has_certificate_id cid) (chain self) in
      get_certificate_history fmt self cid
      = Return (map (fun b => history_entry fmt b (transaction_of b)) matching)
      /\ map (fun e => get e "block_index")
             (map (fun b => history_entry fmt b (transaction_of b)) matching)
         = map (fun b => VInt (index b)) matching
      /\ (indexed (chain self) -> StronglySorted Z.lt (map index matching)))
  /\ (forall (fmt : pyfloat -> string) (self : BlockchainManager.t)
             (limit : Z),
         Forall well_shaped (chain (BlockchainManager.blockchain self)) ->
         1 <= limit ->
         let shown :=
           firstn (Z.to_nat limit)
                  (filter typed_registration
                     (List.rev (chain (BlockchainManager.blockchain self)))) in
         BlockchainManager.get_recent_transactions fmt self limit
         = Return (map (summary fmt) shown)
         /\ Z.of_nat (List.length (map (summary fmt) shown)) <= limit
         /\ (forall b, In b shown ->
                       get (summary fmt b) "block_index" = VInt (index b))
         /\ (indexed (chain (BlockchainManager.blockchain self)) ->
             StronglySorted Z.gt (map index shown))).
Proof.
  split.
  - intros fmt self cid Hs matching. split; [|split].
    + unfold get_certificate_history.
      rewrite get_certificate_history_loop_filter by exact Hs. reflexivity.
    + rewrite map_map. reflexivity.
    + intros Hi. apply sorted_filter, indexed_sorted. exact Hi.
  - intros fmt self limit Hs Hl shown. split; [|split; [|split]].
    + unfold BlockchainManager.get_recent_transactions.
      rewrite get_recent_transactions_loop_firstn.
      * rewrite Z.sub_0_r. reflexivity.
      * apply Forall_rev. exact Hs.
      * lia.
    + rewrite length_map. unfold shown.
      pose proof (firstn_le_length (Z.to_nat limit)
                    (filter typed_registration
                       (List.rev (chain (BlockchainManager.blockchain self))))).
      assert (1 <= Z.to_nat limit)%nat by lia. lia.
    + intros b Hb. unfold shown in Hb. apply firstn_In in Hb.
      apply filter_In in Hb as [Hin Ht].
      apply in_rev in Hin. rewrite Forall_forall in Hs.
      destruct (Hs b Hin Ht) as [t Hb]. unfold summary. rewrite Hb.
      reflexivity.
    + intros Hi. apply sorted_firstn, sorted_filter, indexed_rev_sorted.
      exact Hi.
Qed.

Lemma example_odd_chain_history :
  forall fmt,
    get_certificate_history fmt example_odd_chain "CERT-7"
    = Raise (mkExn "AttributeError" "'str' object has no attribute 'get'").
Proof. intros fmt. reflexivity. Qed.

Lemma C6_history_and_recent_order_witness :
  Forall well_shaped (chain example_chain4)
  /\ indexed (chain example_chain4)
  /\ 1 <= 2
  /\ (forall fmt, exists entries,
         get_certificate_history fmt example_chain4 "CERT-7" = Return entries
         /\ map (fun e => get e "block_index") entries = [VInt 2; VInt 3])
  /\ (forall fmt, exists recent,
         BlockchainManager.get_recent_transactions fmt
           (BlockchainManager.mkManager example_chain4) 2 = Return recent
         /\ Z.of_nat (List.length recent) <= 2
         /\ map (fun e => get e "block_index") recent = [VInt 3; VInt 2]).
Proof.
  assert (H2 : 1 <= 2) by lia.
  split; [exact example_chain4_well_shaped|].
  split; [exact example_chain4_indexed|]. split; [exact H2|]. split.
  - intros fmt.
    destruct (proj1 C6_history_and_recent_order fmt example_chain4 "CERT-7"
                example_chain4_well_shaped) as (Hh & Hi & _).
    eexists. split; [exact Hh|]. rewrite Hi. reflexivity.
  - intros fmt.
    destruct (proj2 C6_history_and_recent_order fmt
                (BlockchainManager.mkManager example_chain4) 2
                example_chain4_well_shaped H2) as (Hr & Hl & _ & _).
    eexists. split; [exact Hr|]. split; [exact Hl|]. reflexivity.
Defined.

(** Where the claim as stated fails.  On the chain that holds a block
    marked as a registration whose transaction is a string, the history
    query ends in an [AttributeError].  And with limit 0 the summary of
    the newest registration is returned all the same: the limit is tested
    after an entry was added. *)
Lemma C6_odd_transaction_and_zero_limit :
  (forall fmt,
      get_certificate_history fmt example_odd_chain "CERT-7"
      = Raise (mkExn "AttributeError" "'str' object has no attribute 'get'"))
  /\ (forall fmt,
         BlockchainManager.get_recent_transactions fmt
           (BlockchainManager.mkManager example_chain4) 0
         = Return [summary fmt (nth 3 (chain example_chain4) example_genesis)]).
Proof.
  split; [exact example_odd_chain_history|].
  intros fmt. reflexivity.
Qed.

(** ** What "verified" means (C10) *)


Lemma get_chain_stats_loop_counts (blocks : list Block) (total verified : Z)
    (counts : Z * Z) :
  get_chain_stats_loop blocks total verified = Return counts ->
  fst counts
  = total + Z.of_nat (List.length (filter typed_registration blocks))
  /\ snd counts
     = verified + Z.of_nat (List.length (filter stored_verified blocks)).
Proof.
  revert total verified.
  induction blocks as [|b blocks IH]; intros total verified;
    cbn [get_chain_stats_loop]; intros H.
  - injection H as <-. cbn. lia.
  - fold (typed_registration b) in H. fold (transaction_of b) in H.
    cbn [filter]. unfold stored_verified at 1.
    destruct (typed_registration b) eqn:Hr; cbn [andb].
    + destruct (transaction_of b) as [| | | | |l|t|l] eqn:Ht;
        cbn [attr_get attr_get_default obind] in H; try discriminate.
      cbn [field_is]. unfold get.
      destruct (eq_str (get_default t "verification_status" VNone) "verified");
        apply IH in H as [H1 H2]; cbn [List.length]; lia.
    + apply IH in H as [H1 H2]. lia.
Qed.



(** ** Determinism of the block hash (C9) *)





(** On the example block, a change to any one of the five fields does
    change the digest. *)
Example calculate_hash_sensitive :
  calculate_hash (mutate (SetIndex 2) example_block1)
  <> calculate_hash example_block1
  /\ calculate_hash
       (mutate (SetTimestamp (mkFloat 1762166000006016 (-6))) example_block1)
     <> calculate_hash example_block1
  /\ calculate_hash (mutate (SetData example_odd_payload) example_block1)
     <> calculate_hash example_block1
  /\ calculate_hash (mutate (SetPreviousHash genesis_previous_hash)
                       example_block1)
     <> calculate_hash example_block1
  /\ calculate_hash (mutate (SetNonce 4) example_block1)
     <> calculate_hash example_block1.
Proof.
  repeat split; apply String.eqb_neq; vm_compute; reflexivity.
Qed.

(** ** Chains the manager builds *)

Lemma fst_Return {A} (m : M A) (w : world) (a : A) :
  fst (m w) = Return a -> m w = (Return a, snd (m w)).
Proof. destruct (m w) as [o w']. cbn. intros ->. reflexivity. Qed.

Lemma ledger_reachable (self : Blockchain) : ledger self -> reachable self.
Proof.
  induction 1 as [fuel d w self H | fuel self self' cd w bh _ IH H].
  - eapply reachable_new. exact H.
  - apply fst_Return in H.
    apply add_certificate_transaction_Return in H
      as (b & t & _ & _ & _ & _ & Hadd & _).
    eapply reachable_add; [exact IH|]. rewrite Hadd. reflexivity.
Qed.

(** Every chain the manager builds has the shape that the lookups rely on,
    and every block in it carries its position as its index. *)
Lemma ledger_well_shaped (self : Blockchain) :
  ledger self -> Forall well_shaped (chain self) /\ indexed (chain self).
Proof.
  intros Hl. split; [|apply reachable_invariant, ledger_reachable; exact Hl].
  induction Hl as [fuel d w self H | fuel self self' cd w bh _ IH H].
  - apply fst_Return in H. unfold new_Blockchain in H.
    apply create_genesis_block_Return in H as (g & Hm & -> & _).
    destruct (mine_block_fields _ _ _ _ Hm) as (_ & _ & Hd & _).
    constructor; [|constructor].
    intros Ht. unfold typed_registration in Ht. rewrite Hd in Ht.
    discriminate Ht.
  - apply fst_Return in H.
    apply add_certificate_transaction_Return in H
      as (b & t & Hc & _ & Hd & _).
    rewrite Hc. apply Forall_app. split; [exact IH|].
    constructor; [|constructor].
    intros _. exists t. unfold transaction_of. rewrite Hd. reflexivity.
Qed.

(* ================================================================== *)
(** * Further properties of the code *)

(** ** The sealing loop *)

Lemma mine_block_iterations (fuel : nat) (b b' : Block) (d : Z) :
  mine_block fuel b d = Return b' ->
  exists k,
    (k <= fuel)%nat
    /\ b' = Nat.iter k reseal b
    /\ (forall j, (j < k)%nat -> sealed d (Nat.iter j reseal b) = false).
Proof.
  revert b. induction fuel as [|fuel IH]; intros b; rewrite mine_block_unfold;
    destruct (sealed d b) eqn:E; cbn [negb]; intros H; try discriminate.
  - injection H as <-. exists 0%nat. repeat split; [lia | intros j Hj; lia].
  - injection H as <-. exists 0%nat. repeat split; [lia | intros j Hj; lia].
  - destruct (IH _ H) as (k & Hk & Hb & Hj).
    exists (S k). split; [lia|]. split.
    + rewrite Nat.iter_succ_r. exact Hb.
    + intros [|j] Hlt; [exact E|].
      rewrite Nat.iter_succ_r. apply Hj. lia.
Qed.

Lemma nonce_iter_reseal (k : nat) (b : Block) :
  nonce (Nat.iter k reseal b) = nonce b + Z.of_nat k.
Proof.
  induction k as [|k IH]; [cbn; lia|].
  rewrite Nat.iter_succ. unfold reseal at 1. cbn [nonce set_hash set_nonce].
  rewrite IH. lia.
Qed.

Lemma mine_block_reaches (fuel k : nat) (b : Block) (d : Z) :
  (k <= fuel)%nat ->
  sealed d (Nat.iter k reseal b) = true ->
  exists b', mine_block fuel b d = Return b'.
Proof.
  revert fuel b. induction k as [|k IH]; intros fuel b Hk Hs.
  - cbn in Hs. rewrite mine_block_unfold, Hs. cbn [negb]. eauto.
  - rewrite mine_block_unfold. destruct (sealed d b); cbn [negb]; [eauto|].
    destruct fuel as [|fuel]; [lia|].
    apply IH; [lia|]. rewrite <- Nat.iter_succ_r. exact Hs.
Qed.

(** X1.  [mine_block] hands back the block with the first nonce, counting
    up from the nonce it starts with, whose hash has the leading zeros:
    when it returns after [k] turns of the loop the nonce has grown by [k]
    and none of the [k] candidates before qualified; and it does return
    as soon as the loop is given as many turns as the first qualifying
    candidate needs. *)
Theorem X1_mine_block_first_nonce :
  (forall (fuel : nat) (b b' : Block) (d : Z),
      mine_block fuel b d = Return b' ->
      exists k,
        (k <= fuel)%nat
        /\ b' = Nat.iter k reseal b
        /\ nonce b' = nonce b + Z.of_nat k
        /\ sealed d b' = true
        /\ (forall j, (j < k)%nat -> sealed d (Nat.iter j reseal b) = false))
  /\ (forall (fuel k : nat) (b : Block) (d : Z),
         (k <= fuel)%nat ->
         sealed d (Nat.iter k reseal b) = true ->
         exists b', mine_block fuel b d = Return b').
Proof.
  split.
  - intros fuel b b' d H.
    destruct (mine_block_iterations _ _ _ _ H) as (k & Hk & Hb & Hj).
    exists k. split; [exact Hk|]. split; [exact Hb|].
    split; [rewrite Hb; apply nonce_iter_reseal|].
    split; [eapply mine_block_sealed; exact H | exact Hj].
  - exact mine_block_reaches.
Qed.

Lemma X1_mine_block_first_nonce_witness :
  mine_block 1 example_genesis_unsealed 1 = Return example_genesis
  /\ nonce example_genesis = nonce example_genesis_unsealed + 1
  /\ sealed 1 example_genesis_unsealed = false
  /\ (1 <= 3)%nat
  /\ sealed 1 (Nat.iter 1 reseal example_genesis_unsealed) = true
  /\ exists b', mine_block 3 example_genesis_unsealed 1 = Return b'.
Proof.
  pose proof example_genesis_mined as Hm.
  assert (H1 : (1 <= 3)%nat) by lia.
  assert (H2 : sealed 1 (Nat.iter 1 reseal example_genesis_unsealed) = true)
    by (vm_compute; reflexivity).
  destruct X1_mine_block_first_nonce as [Hfirst Hreach].
  destruct (Hfirst _ _ _ _ Hm) as (k & Hk & Hb & Hn & _ & Hj).
  split; [exact Hm|].
  assert (Hk1 : k = 1%nat).
  { assert (E : nonce example_genesis = 1) by reflexivity.
    assert (E0 : nonce example_genesis_unsealed = 0) by reflexivity.
    rewrite E, E0 in Hn. lia. }
  subst k. split; [exact Hn|].
  split; [exact (Hj 0%nat Nat.lt_0_1)|].
  split; [exact H1|]. split; [exact H2|].
  exact (Hreach 3%nat 1%nat _ 1 H1 H2).
Defined.

Lemma substring_length (n : nat) (s : string) :
  String.length (substring 0 n s) = Nat.min n (String.length s).
Proof.
  revert s. induction n as [|n IH]; intros [|c s]; cbn; try reflexivity.
  rewrite IH. reflexivity.
Qed.

Lemma str_repeat_length (c : ascii) (d : Z) :
  String.length (str_repeat c d) = Z.to_nat d.
Proof.
  unfold str_repeat. induction (Z.to_nat d) as [|n IH]; cbn; [reflexivity|].
  rewrite IH. reflexivity.
Qed.

Lemma reseal_hash_length (b : Block) :
  String.length (hash (reseal b)) = 64%nat.
Proof. unfold reseal, calculate_hash. cbn [hash set_hash]. apply hexdigest_length. Qed.

Lemma valid_hash_length (b : Block) :
  validate b = true -> String.length (hash b) = 64%nat.
Proof.
  intros H. apply validate_true_iff in H. rewrite H.
  apply hexdigest_length.
Qed.

Lemma sealed_out_of_range (d : Z) (b : Block) :
  String.length (hash b) = 64%nat ->
  64 < d \/ -64 < d < 0 -> sealed d b = false.
Proof.
  intros Hl Hd. unfold sealed. apply String.eqb_neq. intros E.
  apply (f_equal String.length) in E.
  rewrite str_repeat_length in E. unfold slice_to in E.
  destruct (d <? 0) eqn:Hneg; rewrite substring_length, Hl in E.
  - apply Z.ltb_lt in Hneg. lia.
  - apply Z.ltb_ge in Hneg. lia.
Qed.

Lemma mine_block_out_of_range (fuel : nat) (d : Z) (b : Block) :
  String.length (hash b) = 64%nat ->
  64 < d \/ -64 < d < 0 -> mine_block fuel b d = OutOfFuel.
Proof.
  revert b. induction fuel as [|fuel IH]; intros b Hl Hd;
    rewrite mine_block_unfold, (sealed_out_of_range _ _ Hl Hd); cbn [negb].
  - reflexivity.
  - apply IH; [apply reseal_hash_length | exact Hd].
Qed.

(** X2.  On a block whose stored hash is its digest (64 characters), the
    sealing loop cannot end when the difficulty is above 64 or strictly
    between -64 and 0: no number of turns gives a result.  With a
    difficulty of -64 or below it returns at once, with the block as it
    is. *)
Theorem X2_mine_block_difficulty_range :
  forall (fuel : nat) (b : Block) (d : Z),
    validate b = true ->
    (64 < d \/ -64 < d < 0 -> mine_block fuel b d = OutOfFuel)
    /\ (d <= -64 -> mine_block fuel b d = Return b).
Proof.
  intros fuel b d Hv. pose proof (valid_hash_length _ Hv) as Hl. split.
  - apply mine_block_out_of_range. exact Hl.
  - intros Hd. rewrite mine_block_unfold.
    assert (Hs : sealed d b = true).
    { unfold sealed, slice_to, str_repeat.
      destruct (d <? 0) eqn:Hneg; [|apply Z.ltb_ge in Hneg; lia].
      replace (String.length (hash b) - Z.to_nat (- d))%nat with 0%nat by lia.
      replace (Z.to_nat d) with 0%nat by lia.
      destruct (hash b); reflexivity. }
    rewrite Hs. reflexivity.
Qed.

Lemma X2_mine_block_difficulty_range_witness :
  validate example_genesis = true
  /\ mine_block 5 example_genesis 65 = OutOfFuel
  /\ mine_block 5 example_genesis (-1) = OutOfFuel
  /\ mine_block 0 example_genesis (-64) = Return example_genesis.
Proof.
  assert (Hv : validate example_genesis = true) by (vm_compute; reflexivity).
  split; [exact Hv|].
  split; [apply (proj1 (X2_mine_block_difficulty_range 5 _ 65 Hv)); lia|].
  split; [apply (proj1 (X2_mine_block_difficulty_range 5 _ (-1) Hv)); lia|].
  apply (proj2 (X2_mine_block_difficulty_range 0 _ (-64) Hv)). lia.
Defined.

(** ** What [is_chain_valid] checks and what it reports *)

Lemma last_cons_default {A} (x d : A) (l : list A) :
  last (x :: l) d = last l x.
Proof.
  revert x d. induction l as [|y l IH]; intros x d; [reflexivity|].
  change (last (x :: y :: l) d) with (last (y :: l) d).
  rewrite (IH y d), (IH y x). reflexivity.
Qed.

(** The scan stops at the first block that validates but does not point
    at the hash of the block before it. *)
Lemma is_chain_valid_from_first_bad_link (k : Z) (p b : Block)
    (pre post : list Block) :
  all_valid pre -> linked (p :: pre) -> validate b = true ->
  previous_hash b <> hash (last pre p) ->
  is_chain_valid_from k p (pre ++ b :: post)
  = (false, [InvalidPreviousHashAt (k + Z.of_nat (List.length pre))]).
Proof.
  revert k p. induction pre as [|x pre IH]; intros k p Hv Hl Hb Hne.
  - cbn in Hne |- *. rewrite Hb. cbn [negb].
    destruct (String.eqb_spec (previous_hash b) (hash p)) as [E|E];
      [contradiction|].
    cbn [negb]. rewrite Z.add_0_r. reflexivity.
  - inversion Hv as [|? ? Hx Hpre]; subst.
    apply linked_cons in Hl as [Hxp Hl].
    rewrite <- app_comm_cons. cbn [is_chain_valid_from].
    rewrite Hx, Hxp, String.eqb_refl. cbn [negb].
    rewrite last_cons_default in Hne.
    rewrite IH by assumption.
    do 3 f_equal. cbn [List.length]. lia.
Qed.

(** X3.  [is_chain_valid] returns true exactly when every block after the
    first validates and every block points at the stored hash of the one
    before it; so a chain of at most one block is always accepted.  When
    it returns false it has printed the first position at which one of the
    two tests fails: an invalid hash if the block there does not validate,
    an invalid previous hash if it validates but does not point at its
    predecessor. *)
Theorem X3_is_chain_valid_reports_first_failure :
  (forall self : Blockchain,
      is_chain_valid self = true
      <-> all_valid (tl (chain self)) /\ linked (chain self))
  /\ (forall self : Blockchain,
         (List.length (chain self) <= 1)%nat -> is_chain_valid self = true)
  /\ (forall (self : Blockchain) (first b : Block) (pre post : list Block),
         chain self = first :: pre ++ b :: post ->
         all_valid pre ->
         linked (first :: pre) ->
         (validate b = false ->
          is_chain_valid_log self
          = (false, [InvalidHashAt (Z.of_nat (S (List.length pre)))]))
         /\ (validate b = true ->
             previous_hash b <> hash (last pre first) ->
             is_chain_valid_log self
             = (false,
                [InvalidPreviousHashAt (Z.of_nat (S (List.length pre)))]))).
Proof.
  split; [exact is_chain_valid_iff|]. split.
  - intros self H. apply is_chain_valid_iff.
    destruct (chain self) as [|x [|y l]]; cbn in H |- *.
    + split; [constructor | apply linked_nil].
    + split; [constructor | apply linked_single].
    + lia.
  - intros self first b pre post Hc Hv Hl. unfold is_chain_valid_log.
    rewrite Hc. split.
    + intros Hb. rewrite is_chain_valid_from_first_bad by assumption.
      do 3 f_equal. lia.
    + intros Hb Hne. rewrite is_chain_valid_from_first_bad_link by assumption.
      do 3 f_equal. lia.
Qed.

Lemma example_block1_valid : validate example_block1 = true.
Proof. vm_compute. reflexivity. Qed.

Lemma example_prefix_linked : linked [example_genesis; example_block1].
Proof. apply linked_cons. split; [reflexivity | apply linked_single]. Qed.

Lemma X3_is_chain_valid_reports_first_failure_witness :
  chain (tamper example_chain4 2 (SetNonce 0))
  = example_genesis :: [example_block1]
      ++ mutate (SetNonce 0) (nth 2 (chain example_chain4) example_genesis)
      :: skipn 3 (chain example_chain4)
  /\ all_valid [example_block1]
  /\ linked [example_genesis; example_block1]
  /\ validate (mutate (SetNonce 0) (nth 2 (chain example_chain4) example_genesis))
     = false
  /\ is_chain_valid_log (tamper example_chain4 2 (SetNonce 0))
     = (false, [InvalidHashAt 2]).
Proof.
  assert (H1 : chain (tamper example_chain4 2 (SetNonce 0))
               = example_genesis :: [example_block1]
                   ++ mutate (SetNonce 0)
                        (nth 2 (chain example_chain4) example_genesis)
                   :: skipn 3 (chain example_chain4)) by reflexivity.
  assert (H2 : all_valid [example_block1])
    by (constructor; [exact example_block1_valid | constructor]).
  assert (H4 : validate (mutate (SetNonce 0)
                           (nth 2 (chain example_chain4) example_genesis))
               = false) by (vm_compute; reflexivity).
  split; [exact H1|]. split; [exact H2|].
  split; [exact example_prefix_linked|]. split; [exact H4|].
  exact (proj1 (proj2 (proj2 X3_is_chain_valid_reports_first_failure)
                  _ _ _ _ _ H1 H2 example_prefix_linked) H4).
Defined.

Lemma linked_replace_last (l : list Block) (b b' : Block) :
  linked (l ++ [b]) -> previous_hash b' = previous_hash b ->
  linked (l ++ [b']).
Proof.
  intros H Hp i x y Hx Hy.
  assert (Hi : (S i < List.length (l ++ [b']))%nat)
    by (apply nth_error_Some; congruence).
  rewrite length_app in Hi. cbn in Hi.
  destruct (Nat.lt_ge_cases (S i) (List.length l)) as [Hlt | Hge].
  - rewrite nth_error_app1 in Hx, Hy by lia.
    apply (H i x y); rewrite nth_error_app1 by lia; assumption.
  - assert (S i = List.length l) by lia.
    rewrite nth_error_app1 in Hx by lia.
    rewrite nth_error_app2 in Hy by lia.
    replace (S i - List.length l)%nat with 0%nat in Hy by lia.
    cbn in Hy. injection Hy as <-. rewrite Hp.
    apply (H i x b).
    + rewrite nth_error_app1 by lia. exact Hx.
    + rewrite nth_error_app2 by lia.
      replace (S i - List.length l)%nat with 0%nat by lia. reflexivity.
Qed.

(** X4.  Rewriting a block that has a successor and recomputing its hash
    does not get past [is_chain_valid]: if the new block validates, still
    points at the same predecessor and has another hash than the old one,
    the scan fails at the next position with an invalid previous hash. *)
Theorem X4_resealed_block_breaks_next_link :
  forall (self : Blockchain) (i : nat) (b next b' : Block),
    is_chain_valid self = true ->
    nth_error (chain self) i = Some b ->
    nth_error (chain self) (S i) = Some next ->
    validate b' = true ->
    previous_hash b' = previous_hash b ->
    hash b' <> hash b ->
    is_chain_valid_log (replace_block self i b')
    = (false, [InvalidPreviousHashAt (Z.of_nat (S i))]).
Proof.
  intros self i b next b' Hvalid Hb Hnext Hv' Hp Hh.
  apply is_chain_valid_iff in Hvalid as [Hv Hl].
  unfold is_chain_valid_log, replace_block. cbn [chain].
  pose proof (Hl i b next Hb Hnext) as Hlink.
  destruct (update_at_split (fun _ => b') _ _ _ Hb)
    as (pre & post & Hc & Hlen & Hu).
  rewrite Hu. rewrite Hc in Hnext, Hv, Hl.
  rewrite nth_error_app2 in Hnext by lia.
  replace (S i - List.length pre)%nat with 1%nat in Hnext by lia.
  destruct post as [|n post]; cbn in Hnext; [discriminate|].
  injection Hnext as ->.
  destruct pre as [|first pre].
  - cbn in Hlen. subst i.
    change (tl ([] ++ b :: next :: post)) with (next :: post) in Hv.
    change ([] ++ b' :: next :: post) with (b' :: next :: post).
    inversion Hv as [|? ? Hn _]; subst.
    cbn [is_chain_valid_from]. rewrite Hn. cbn [negb].
    destruct (String.eqb_spec (previous_hash next) (hash b')) as [E|E];
      [congruence | reflexivity].
  - change (tl ((first :: pre) ++ b :: next :: post))
      with (pre ++ b :: next :: post) in Hv.
    change ((first :: pre) ++ b' :: next :: post)
      with (first :: pre ++ b' :: next :: post).
    apply Forall_app in Hv as [Hpre Hrest].
    inversion Hrest as [|? ? Hbv Hrest']; subst.
    inversion Hrest' as [|? ? Hn _]; subst.
    change ((first :: pre) ++ b :: next :: post)
      with ((first :: pre) ++ [b] ++ next :: post) in Hl.
    rewrite app_assoc in Hl. apply linked_prefix in Hl.
    apply (linked_replace_last (first :: pre) b b') in Hl; [|exact Hp].
    change (pre ++ b' :: next :: post) with (pre ++ [b'] ++ next :: post).
    rewrite app_assoc.
    rewrite is_chain_valid_from_first_bad_link.
    + do 3 f_equal. rewrite length_app. cbn [List.length]. lia.
    + apply Forall_app. split; [exact Hpre | constructor; [exact Hv' | constructor]].
    + exact Hl.
    + exact Hn.
    + rewrite last_last. congruence.
Qed.

Lemma X4_resealed_block_breaks_next_link_witness :
  is_chain_valid example_chain4 = true
  /\ nth_error (chain example_chain4) 1 = Some example_block1
  /\ validate example_rewritten_block1 = true
  /\ previous_hash example_rewritten_block1 = previous_hash example_block1
  /\ hash example_rewritten_block1 <> hash example_block1
  /\ is_chain_valid_log (replace_block example_chain4 1 example_rewritten_block1)
     = (false, [InvalidPreviousHashAt 2]).
Proof.
  assert (H2 : nth_error (chain example_chain4) 1 = Some example_block1)
    by reflexivity.
  assert (H3 : nth_error (chain example_chain4) 2
               = Some (nth 2 (chain example_chain4) example_genesis))
    by reflexivity.
  assert (H4 : validate example_rewritten_block1 = true)
    by apply validate_set_hash.
  assert (H5 : previous_hash example_rewritten_block1
               = previous_hash example_block1) by reflexivity.
  assert (H6 : hash example_rewritten_block1 <> hash example_block1)
    by (apply String.eqb_neq; vm_compute; reflexivity).
  split; [exact example_chain4_valid|]. split; [exact H2|].
  split; [exact H4|]. split; [exact H5|]. split; [exact H6|].
  exact (X4_resealed_block_breaks_next_link example_chain4 1%nat _ _ _
           example_chain4_valid H2 H3 H4 H5 H6).
Defined.

Lemma update_at_last {A} (f : A -> A) (pre : list A) (x : A) :
  update_at (List.length pre) f (pre ++ [x]) = pre ++ [f x].
Proof.
  induction pre as [|y pre IH]; cbn; [reflexivity|]. rewrite IH. reflexivity.
Qed.

(** X5.  The latest block has no successor to vouch for it: replacing it
    by any block that validates and points at the same predecessor leaves
    [is_chain_valid] true, whatever index, timestamp, payload and nonce the
    new block carries and whether or not its hash has the leading zeros. *)
Theorem X5_latest_block_is_not_protected :
  forall (self : Blockchain) (pre : list Block) (b b' : Block),
    chain self = pre ++ [b] ->
    is_chain_valid self = true ->
    validate b' = true ->
    previous_hash b' = previous_hash b ->
    is_chain_valid (replace_block self (List.length pre) b') = true.
Proof.
  intros self pre b b' Hc Hvalid Hv' Hp.
  apply is_chain_valid_iff in Hvalid as [Hv Hl].
  apply is_chain_valid_iff. unfold replace_block. cbn [chain].
  rewrite Hc in Hv, Hl |- *. rewrite update_at_last. split.
  - destruct pre as [|first pre]; [constructor|].
    change (tl ((first :: pre) ++ [b])) with (pre ++ [b]) in Hv.
    change (tl ((first :: pre) ++ [b'])) with (pre ++ [b']).
    apply Forall_app in Hv as [Hpre _].
    apply Forall_app. split; [exact Hpre | constructor; [exact Hv' | constructor]].
  - eapply linked_replace_last; eassumption.
Qed.

Lemma X5_latest_block_is_not_protected_witness :
  chain example_chain4
  = firstn 3 (chain example_chain4)
    ++ [nth 3 (chain example_chain4) example_genesis]
  /\ is_chain_valid example_chain4 = true
  /\ validate example_rewritten_latest = true
  /\ previous_hash example_rewritten_latest
     = previous_hash (nth 3 (chain example_chain4) example_genesis)
  /\ index example_rewritten_latest = 99
  /\ is_chain_valid (replace_block example_chain4 3 example_rewritten_latest)
     = true.
Proof.
  assert (H1 : chain example_chain4
               = firstn 3 (chain example_chain4)
                 ++ [nth 3 (chain example_chain4) example_genesis])
    by reflexivity.
  assert (H3 : validate example_rewritten_latest = true)
    by apply validate_set_hash.
  assert (H4 : previous_hash example_rewritten_latest
               = previous_hash (nth 3 (chain example_chain4) example_genesis))
    by reflexivity.
  split; [exact H1|]. split; [exact example_chain4_valid|].
  split; [exact H3|]. split; [exact H4|]. split; [reflexivity|].
  exact (X5_latest_block_is_not_protected example_chain4 _ _ _ H1
           example_chain4_valid H3 H4).
Defined.

(** ** Appending *)

(** X6.  [add_block] only ever appends: when it returns, the new chain is
    the old one followed by the returned block, the difficulty is the
    same, and the block carries the old length as its index, the payload
    it was given, the clock reading taken for it and the hash of the block
    that was the latest.  On an empty chain it raises [IndexError] before
    it reads the clock or mines anything. *)
Theorem X6_add_block_appends :
  (forall (fuel : nat) (self self' : Blockchain) (payload : dict) (w : world)
          (b : Block),
      fst (add_block fuel self payload w) = Return (b, self') ->
      chain self' = chain self ++ [b]
      /\ difficulty self' = difficulty self
      /\ pending_transactions self' = pending_transactions self
      /\ index b = Z.of_nat (List.length (chain self))
      /\ data b = payload
      /\ timestamp b = unix_time (reading w 0)
      /\ sealed (difficulty self) b = true
      /\ exists prior, get_latest_block self = Return prior
                       /\ previous_hash b = hash prior)
  /\ (forall (fuel : nat) (self : Blockchain) (payload : dict) (w : world),
         chain self = [] ->
         add_block fuel self payload w
         = (Raise (mkExn "IndexError" "list index out of range"), w)).
Proof.
  split.
  - intros fuel self self' payload w b H. apply fst_Return in H.
    apply add_block_Return in H as (latest & Hl & Hm & -> & _).
    destruct (mine_block_fields _ _ _ _ Hm) as (Hi & Ht & Hd & Hp & _).
    repeat split; try assumption.
    + unfold reading. rewrite Nat.add_0_r. exact Ht.
    + eapply mine_block_sealed. exact Hm.
    + exists latest. split; [exact Hl | exact Hp].
  - intros fuel self payload w Hc. unfold add_block, bind, lift.
    rewrite (get_latest_block_nil _ Hc). reflexivity.
Qed.

Lemma X6_add_block_appends_witness :
  fst (add_block 3 example_chain1 example_payload (mkWorld example_clock 6))
  = Return (example_block1, example_chain2)
  /\ chain example_chain2 = chain example_chain1 ++ [example_block1]
  /\ index example_block1 = 1
  /\ chain empty_chain = []
  /\ fst (add_block 3 empty_chain example_payload (mkWorld example_clock 6))
     = Raise (mkExn "IndexError" "list index out of range").
Proof.
  pose proof example_block1_appended as Ha.
  destruct (proj1 X6_add_block_appends _ _ _ _ _ _ Ha) as (Hc & _ & _ & Hi & _).
  assert (He : chain empty_chain = []) by reflexivity.
  split; [exact Ha|]. split; [exact Hc|]. split; [exact Hi|].
  split; [exact He|].
  rewrite (proj2 X6_add_block_appends 3%nat empty_chain example_payload
             (mkWorld example_clock 6) He).
  reflexivity.
Defined.

Lemma reachable_genesis (self : Blockchain) :
  reachable self ->
  exists g rest,
    chain self = g :: rest /\ index g = 0
    /\ previous_hash g = genesis_previous_hash
    /\ get (data g) "type" = VStr "genesis".
Proof.
  induction 1 as [fuel d w self H | fuel self self' payload w b _ IH H].
  - apply fst_Return in H. unfold new_Blockchain in H.
    apply create_genesis_block_Return in H as (g & Hm & -> & _).
    destruct (mine_block_fields _ _ _ _ Hm) as (Hi & _ & Hd & Hp & _).
    exists g, []. split; [reflexivity|]. split; [exact Hi|].
    split; [exact Hp|]. rewrite Hd. reflexivity.
  - destruct IH as (g & rest & Hc & Hg).
    apply add_block_chain in H as (_ & _ & _ & Hc' & _).
    exists g, (rest ++ [b]). rewrite Hc', Hc. split; [reflexivity | exact Hg].
Qed.

(** X7.  Every chain built by the constructor and appends starts with the
    genesis block (index 0, payload of type genesis, 64 zeros as previous
    hash), numbers its blocks by position, has a latest block, and holds
    only blocks whose hash passes the sealing test at the chain's
    difficulty: for a difficulty [d >= 0], [d] leading zeros. *)
Theorem X7_reachable_chain_shape :
  forall self : Blockchain,
    reachable self ->
    (exists g rest,
        chain self = g :: rest /\ index g = 0
        /\ previous_hash g = genesis_previous_hash
        /\ get (data g) "type" = VStr "genesis")
    /\ indexed (chain self)
    /\ (exists b, get_latest_block self = Return b
                  /\ index b = Z.of_nat (List.length (chain self)) - 1)
    /\ (forall b, In b (chain self) -> sealed (difficulty self) b = true)
    /\ (0 <= difficulty self ->
        forall b i, In b (chain self) ->
                    (i < Z.to_nat (difficulty self))%nat ->
                    String.get i (hash b) = Some "0"%char).
Proof.
  intros self Hr.
  destruct (reachable_invariant _ Hr) as (Hne & _ & Hidx & Hs & _).
  rewrite Forall_forall in Hs.
  split; [apply reachable_genesis; exact Hr|]. split; [exact Hidx|].
  split; [|split; [exact Hs|]].
  - destruct (exists_last Hne) as (pre & b & Hc). exists b. split.
    + apply get_latest_block_snoc. eauto.
    + rewrite (Hidx (List.length pre) b).
      * rewrite Hc, length_app. cbn. lia.
      * rewrite Hc, nth_error_app2, Nat.sub_diag by lia. reflexivity.
  - intros Hd b i Hb Hi. apply (sealed_leading_zeros (difficulty self)); auto.
Qed.

Lemma example_chain2_reachable : reachable example_chain2.
Proof.
  exact (reachable_add 3 _ _ _ _ _ example_chain1_reachable
           example_block1_appended).
Qed.

Lemma X7_reachable_chain_shape_witness :
  reachable example_chain2
  /\ indexed (chain example_chain2)
  /\ (forall b, In b (chain example_chain2) ->
                String.get 0 (hash b) = Some "0"%char).
Proof.
  pose proof example_chain2_reachable as Hr.
  destruct (X7_reachable_chain_shape _ Hr) as (_ & Hi & _ & _ & Hz).
  split; [exact Hr|]. split; [exact Hi|].
  intros b Hb. apply (Hz ltac:(cbn; lia) b 0%nat Hb). cbn. lia.
Defined.

(** ** Registering a certificate *)

Lemma reading_tick (w : world) (k : nat) :
  reading (tick w) k = reading w (S k).
Proof.
  unfold reading, tick. cbn [clock reads]. f_equal. lia.
Qed.

Lemma add_certificate_transaction_stored (fuel : nat) (self self' : Blockchain)
    (certificate_data : dict) (w : world) (block_hash : string) :
  fst (add_certificate_transaction fuel self certificate_data w)
  = Return (block_hash, self') ->
  exists b,
    chain self' = chain self ++ [b]
    /\ difficulty self' = difficulty self
    /\ hash b = block_hash
    /\ index b = Z.of_nat (List.length (chain self))
    /\ data b = registration_payload (transaction_at certificate_data w)
    /\ validate b = true
    /\ chain self <> [].
Proof.
  intros H. apply fst_Return in H.
  unfold add_certificate_transaction in H.
  apply bind_Return in H as (verified_at & w1 & H1 & H).
  unfold now_isoformat in H1. injection H1 as <- <-.
  apply bind_Return in H as (cert_hash & w2 & H2 & H).
  rewrite calculate_certificate_hash_reading in H2. injection H2 as <- <-.
  apply bind_Return in H as (recorded_at & w3 & H3 & H).
  unfold now_isoformat in H3. injection H3 as <- <-.
  apply bind_Return in H as ([b bc] & w4 & H4 & H).
  apply ret_Return in H as [H _]. injection H as Hh Hs. subst block_hash self'.
  assert (Ha : fst (add_block fuel self
                      (registration_payload
                         (transaction_at certificate_data w))
                      (tick (tick (tick w))))
               = Return (b, bc)).
  { unfold registration_payload, transaction_at, stored_transaction, reading.
    unfold reading in H4. cbn [tick reads clock] in H4.
    rewrite ?Nat.add_0_r in H4 |- *.
    replace (reads w + 1)%nat with (S (reads w)) by lia.
    replace (reads w + 2)%nat with (S (S (reads w))) by lia.
    unfold registration in *. rewrite H4. reflexivity. }
  apply add_block_chain in Ha
    as (pre & latest & Hpre & Hc & Hd & Hv & Hi & Hdata & _).
  exists b. repeat split; try assumption.
  rewrite Hpre. destruct pre; discriminate.
Qed.

(** X8.  Whatever [register_certificate] returns, it either reports
    [success] false and leaves the manager as it was, or reports [success]
    true and has appended exactly one block: the block hash and block index
    it returns are those of that block, the index is the old length of the
    chain, and the block holds the registration payload built from the
    record and the clock readings of the call. *)
Theorem X8_register_certificate_outcome :
  forall (fuel : nat) (self self' : BlockchainManager.t)
         (certificate_data result : dict) (w : world),
    fst (BlockchainManager.register_certificate fuel self certificate_data w)
    = Return (result, self') ->
    (get result "success" = VBool false /\ self' = self)
    \/ (get result "success" = VBool true
        /\ exists b,
             chain (BlockchainManager.blockchain self')
             = chain (BlockchainManager.blockchain self) ++ [b]
             /\ difficulty (BlockchainManager.blockchain self')
                = difficulty (BlockchainManager.blockchain self)
             /\ get result "block_hash" = VStr (hash b)
             /\ get result "block_index" = VInt (index b)
             /\ index b
                = Z.of_nat
                    (List.length (chain (BlockchainManager.blockchain self)))
             /\ data b
                = registration_payload
                    (transaction_at certificate_data (tick w))).
Proof.
  intros fuel self self' cd result w.
  unfold BlockchainManager.register_certificate, bind at 1. intros H.
  destruct (CertificateSmartContract.validate_certificate cd w)
    as [[verdict | e |] w1] eqn:Hv; cbn [fst] in H; try discriminate.
  apply validate_certificate_valid in Hv as (_ & _ & _ & ->).
  destruct (negb (truthy (get verdict "valid"))).
  { cbn in H. injection H as <- <-. left. split; reflexivity. }
  unfold BlockchainManager.try_except in H.
  match type of H with
  | context [match ?body with _ => _ end] => destruct body as [o w2] eqn:Hb
  end.
  destruct o as [[r m] | e |]; cbn [fst] in H; try discriminate;
    [| cbn in H; injection H as <- <-; left; split; reflexivity].
  injection H as -> ->. right.
  apply bind_Return in Hb as ([bh bc] & w3 & Ha & Hb).
  assert (Ha' : fst (add_certificate_transaction fuel
                       (BlockchainManager.blockchain self) cd (tick w))
                = Return (bh, bc)) by (rewrite Ha; reflexivity).
  apply add_certificate_transaction_stored in Ha'
    as (b & Hc & Hd & Hh & Hi & Hdata & _).
  apply bind_Return in Hb as (cert_hash & w4 & _ & Hb).
  apply bind_Return in Hb as (now & w5 & _ & Hb).
  apply ret_Return in Hb as [Hb _]. injection Hb as Hr Hm. subst result self'.
  split; [reflexivity|]. exists b. cbn [BlockchainManager.blockchain].
  split; [exact Hc|]. split; [exact Hd|].
  split; [rewrite Hh; reflexivity|]. split.
  - cbn [get get_default lookup String.eqb Ascii.eqb Bool.eqb].
    rewrite Hc, length_app, Hi. cbn [List.length]. f_equal. lia.
  - split; [exact Hi | exact Hdata].
Qed.

Lemma example_registration :
  fst (BlockchainManager.register_certificate 3
         (BlockchainManager.mkManager example_chain1) example_record
         (mkWorld example_clock 2))
  = Return (example_receipt, BlockchainManager.mkManager example_chain2).
Proof. vm_compute. reflexivity. Qed.

Lemma X8_register_certificate_outcome_witness :
  fst (BlockchainManager.register_certificate 3
         (BlockchainManager.mkManager example_chain1) example_record
         (mkWorld example_clock 2))
  = Return (example_receipt, BlockchainManager.mkManager example_chain2)
  /\ exists b, chain example_chain2 = chain example_chain1 ++ [b]
               /\ get example_receipt "block_index" = VInt (index b)
               /\ index b = 1.
Proof.
  pose proof example_registration as H.
  split; [exact H|].
  destruct (X8_register_certificate_outcome _ _ _ _ _ _ H)
    as [[Hs _] | (_ & b & Hc & _ & _ & Hi & Hn & _)];
    [discriminate Hs|].
  exists b. split; [exact Hc|]. split; [exact Hi | exact Hn].
Defined.

(** X9.  On a manager whose chain is empty, registering a record that
    passes the contract does not raise: the [IndexError] of
    [get_latest_block] is caught, and the result is [success] false with
    the text of the exception as [error], without the verdict, and with
    the manager unchanged. *)
Theorem X9_register_on_empty_chain :
  forall (fuel : nat) (self : BlockchainManager.t)
         (certificate_data verdict : dict) (w w' : world),
    chain (BlockchainManager.blockchain self) = [] ->
    CertificateSmartContract.validate_certificate certificate_data w
    = (Return verdict, w') ->
    get verdict "valid" = VBool true ->
    fst (BlockchainManager.register_certificate fuel self certificate_data w)
    = Return ([ ("success", VBool false);
                ("error", VStr "list index out of range") ],
              self).
Proof.
  intros fuel self cd verdict w w' Hc Hv Hvalid.
  unfold BlockchainManager.register_certificate, bind at 1.
  rewrite Hv, Hvalid. cbn [truthy negb].
  unfold BlockchainManager.try_except, add_certificate_transaction,
    calculate_certificate_hash, add_block, bind, now_isoformat, lift, ret.
  rewrite (get_latest_block_nil _ Hc). reflexivity.
Qed.

Lemma X9_register_on_empty_chain_witness :
  chain empty_chain = []
  /\ CertificateSmartContract.validate_certificate example_record
       (mkWorld example_clock 2)
     = (Return example_verdict, mkWorld example_clock 3)
  /\ get example_verdict "valid" = VBool true
  /\ fst (BlockchainManager.register_certificate 3
            (BlockchainManager.mkManager empty_chain) example_record
            (mkWorld example_clock 2))
     = Return ([ ("success", VBool false);
                 ("error", VStr "list index out of range") ],
               BlockchainManager.mkManager empty_chain).
Proof.
  assert (H1 : chain (BlockchainManager.blockchain
                        (BlockchainManager.mkManager empty_chain)) = [])
    by reflexivity.
  assert (H2 : CertificateSmartContract.validate_certificate example_record
                 (mkWorld example_clock 2)
               = (Return example_verdict, mkWorld example_clock 3))
    by reflexivity.
  assert (H3 : get example_verdict "valid" = VBool true) by reflexivity.
  split; [reflexivity|]. split; [exact H2|]. split; [exact H3|].
  exact (X9_register_on_empty_chain 3 _ _ _ _ _ H1 H2 H3).
Defined.

(** X10.  A confidence score that is [None], a string, a list or a dict
    cannot be compared with the threshold: [validate_certificate] raises
    [TypeError], and since the validation is outside the [try] of
    [register_certificate], the exception leaves [register_certificate]
    too, before the clock is read or anything is appended. *)
Theorem X10_uncomparable_confidence_raises :
  forall (fuel : nat) (self : BlockchainManager.t) (certificate_data : dict)
         (w : world),
    uncomparable (get_default certificate_data "confidence_score" (VInt 0))
    = true ->
    exists e,
      exn_class e = "TypeError"
      /\ CertificateSmartContract.validate_certificate certificate_data w
         = (Raise e, w)
      /\ BlockchainManager.register_certificate fuel self certificate_data w
         = (Raise e, w).
Proof.
  intros fuel self cd w H.
  assert (He : exists e,
             exn_class e = "TypeError"
             /\ ge_int (get_default cd "confidence_score" (VInt 0))
                       CertificateSmartContract.min_confidence = Raise e).
  { destruct (get_default cd "confidence_score" (VInt 0));
      try discriminate H; eexists; (split; [|reflexivity]); reflexivity. }
  destruct He as (e & Hc & He). exists e. split; [exact Hc|].
  assert (Hv : CertificateSmartContract.validate_certificate cd w
               = (Raise e, w)).
  { unfold CertificateSmartContract.validate_certificate, bind, lift.
    rewrite He. reflexivity. }
  split; [exact Hv|].
  unfold BlockchainManager.register_certificate, bind at 1.
  rewrite Hv. reflexivity.
Qed.

Lemma X10_uncomparable_confidence_raises_witness :
  uncomparable
    (get_default example_text_score_record "confidence_score" (VInt 0)) = true
  /\ BlockchainManager.register_certificate 3
       (BlockchainManager.mkManager example_chain1) example_text_score_record
       (mkWorld example_clock 2)
     = (Raise (mkExn "TypeError"
                 "'>=' not supported between instances of 'str' and 'int'"),
        mkWorld example_clock 2).
Proof.
  assert (H : uncomparable
                (get_default example_text_score_record "confidence_score"
                   (VInt 0)) = true) by reflexivity.
  split; [exact H|].
  destruct (X10_uncomparable_confidence_raises 3
              (BlockchainManager.mkManager example_chain1) _
              (mkWorld example_clock 2) H) as (e & _ & Hv & Hr).
  rewrite Hr. f_equal.
  assert (E : CertificateSmartContract.validate_certificate
                example_text_score_record (mkWorld example_clock 2)
              = (Raise (mkExn "TypeError"
                   "'>=' not supported between instances of 'str' and 'int'"),
                 mkWorld example_clock 2)) by reflexivity.
  rewrite E in Hv. injection Hv as <-. reflexivity.
Defined.

(** X11.  A verdict of [validate_certificate] always accounts for exactly
    four rules, split between [rules_passed] and [rules_failed];
    [valid] is true exactly when [rules_failed] is empty; and a record
    that carries no [confidence_score] counts as scoring 0 and is
    rejected. *)
Theorem X11_verdict_shape :
  forall (certificate_data verdict : dict) (w w' : world),
    CertificateSmartContract.validate_certificate certificate_data w
    = (Return verdict, w') ->
    exists passed failed,
      get verdict "rules_passed" = VList (map VStr passed)
      /\ get verdict "rules_failed" = VList (map VStr failed)
      /\ (List.length passed + List.length failed = 4)%nat
      /\ get verdict "total_rules" = VInt 4
      /\ get verdict "valid"
         = VBool (match failed with [] => true | _ => false end)
      /\ (lookup certificate_data "confidence_score" = None ->
          get verdict "valid" = VBool false
          /\ In "confidence_score_below_60" failed).
Proof.
  intros cd verdict w w'.
  unfold CertificateSmartContract.validate_certificate. intros H.
  apply bind_lift_Return in H as (above & Ha & H).
  apply bind_Return in H as (now & w1 & _ & H).
  apply ret_Return in H as [-> _].
  assert (Hmiss : lookup cd "confidence_score" = None -> above = false).
  { intros Hl. unfold get_default in Ha. rewrite Hl in Ha.
    cbn in Ha. injection Ha as <-. reflexivity. }
  set (lists := CertificateSmartContract.rule above _ _ _).
  assert (Hlen : (List.length (fst lists) + List.length (snd lists) = 4)%nat).
  { subst lists. unfold CertificateSmartContract.rule.
    destruct (truthy (get cd "certificate_number"));
      destruct (truthy (get cd "owner_id"));
      destruct (truthy (get cd "file_hash"));
      destruct above; reflexivity. }
  exists (fst lists), (snd lists).
  split; [reflexivity|]. split; [reflexivity|]. split; [exact Hlen|].
  split.
  { change (VInt (Z.of_nat (List.length (fst lists)
                            + List.length (snd lists))) = VInt 4).
    rewrite Hlen. reflexivity. }
  split.
  { change (VBool (Nat.eqb (List.length (snd lists)) 0)
            = VBool (match snd lists with [] => true | _ => false end)).
    destruct (snd lists); reflexivity. }
  intros Hl. specialize (Hmiss Hl).
  assert (Hin : In "confidence_score_below_60" (snd lists)).
  { subst lists. rewrite Hmiss. unfold CertificateSmartContract.rule at 1.
    cbn [snd]. apply in_or_app. right. left. reflexivity. }
  split; [|exact Hin].
  change (VBool (Nat.eqb (List.length (snd lists)) 0) = VBool false).
  destruct (snd lists); [destruct Hin | reflexivity].
Qed.

Lemma X11_verdict_shape_witness :
  CertificateSmartContract.validate_certificate example_unscored_record
    (mkWorld example_clock 2)
  = (Return
       [ ("valid", VBool false);
         ("validation_score", VFloat (mkFloat 75 0));
         ("rules_passed",
           VList [ VStr "certificate_number_present"; VStr "owner_id_present";
                   VStr "file_hash_present" ]);
         ("rules_failed", VList [ VStr "confidence_score_below_60" ]);
         ("total_rules", VInt 4);
         ("timestamp", VStr "2026-11-03T10:33:20.002015") ],
     mkWorld example_clock 3)
  /\ lookup example_unscored_record "confidence_score" = None
  /\ get example_weak_verdict "valid" = VBool false.
Proof.
  assert (H : CertificateSmartContract.validate_certificate
                example_unscored_record (mkWorld example_clock 2)
              = (Return example_weak_verdict, mkWorld example_clock 3))
    by reflexivity.
  assert (Hl : lookup example_unscored_record "confidence_score" = None)
    by reflexivity.
  split; [exact H|]. split; [exact Hl|].
  destruct (X11_verdict_shape _ _ _ _ H) as (passed & failed & _ & _ & _ & _ & _ & Hm).
  exact (proj1 (Hm Hl)).
Defined.

(** ** Registering, then looking up *)

Lemma find_split {A} (f : A -> bool) (l : list A) (x : A) :
  find f l = Some x ->
  exists pre post,
    l = pre ++ x :: post /\ f x = true /\ forall y, In y pre -> f y = false.
Proof.
  induction l as [|a l IH]; cbn; [discriminate|].
  destruct (f a) eqn:E.
  - intros H. injection H as <-. exists [], l.
    split; [reflexivity|]. split; [exact E|]. intros y [].
  - intros H. destruct (IH H) as (pre & post & -> & Hx & Hpre).
    exists (a :: pre), post. split; [reflexivity|]. split; [exact Hx|].
    intros y [<- | Hy]; [exact E | apply Hpre; exact Hy].
Qed.

Lemma registration_block_has_hash (b : Block) (t : dict) (h : string) :
  data b = registration_payload t -> get t "hash" = VStr h ->
  has_hash h b = true /\ well_shaped b /\ typed_registration b = true
  /\ transaction_of b = VDict t.
Proof.
  intros Hd Ht.
  assert (Htx : transaction_of b = VDict t)
    by (unfold transaction_of; rewrite Hd; reflexivity).
  assert (Hty : typed_registration b = true)
    by (unfold typed_registration; rewrite Hd; reflexivity).
  split; [|split; [intros _; eauto | split; assumption]].
  unfold has_hash, is_registration, contains. rewrite Hty, Htx, Hd.
  cbn [lookup registration_payload String.eqb Ascii.eqb Bool.eqb andb field_is].
  rewrite Ht. cbn [eq_str]. apply String.eqb_refl.
Qed.

(** The lookup of a hash that the last block bears, on a chain whose
    earlier blocks have the shape. *)
Lemma verify_certificate_after_append (fmt : pyfloat -> string)
    (pre : list Block) (b : Block) (h : string) :
  Forall well_shaped pre -> has_hash h b = true ->
  exists x,
    verify_certificate_loop fmt (pre ++ [b]) h
    = Return (found fmt x (transaction_of x))
    /\ ((forall y, In y pre -> has_hash h y = false) -> x = b).
Proof.
  intros Hs Hb. destruct (find (has_hash h) pre) as [x|] eqn:E.
  - apply find_split in E as (p1 & p2 & -> & Hx & Hp1).
    exists x. split.
    + rewrite <- app_assoc, <- app_comm_cons.
      apply verify_certificate_loop_first; try assumption.
      apply Forall_app in Hs. tauto.
    + intros Hnone. rewrite Hnone in Hx; [discriminate|].
      apply in_or_app. right. now left.
  - exists b. split; [|reflexivity].
    apply verify_certificate_loop_first; try assumption.
    intros y Hy. eapply find_none; eassumption.
Qed.

(** X12.  Registration followed by lookup: after
    [add_certificate_transaction] has returned on a chain whose
    registrations have the shape, [verify_certificate] of the content hash
    stored in the new transaction finds a block; if no earlier block bears
    the same content hash, it is the new block, reported with the returned
    block hash and with the old length of the chain as block index. *)
Theorem X12_stored_hash_is_found :
  forall (fmt : pyfloat -> string) (fuel : nat) (self self' : Blockchain)
         (certificate_data : dict) (w : world) (block_hash : string),
    Forall well_shaped (chain self) ->
    fst (add_certificate_transaction fuel self certificate_data w)
    = Return (block_hash, self') ->
    let h := certificate_digest certificate_data (isoformat (reading w 1)) in
    exists r,
      verify_certificate fmt self' h = Return r
      /\ get r "exists" = VBool true
      /\ ((forall y, In y (chain self) -> has_hash h y = false) ->
          get r "block_hash" = VStr block_hash
          /\ get r "block_index" = VInt (Z.of_nat (List.length (chain self)))
          /\ get r "transaction"
             = VDict (transaction_at certificate_data w)).
Proof.
  intros fmt fuel self self' cd w bh Hs H h.
  apply add_certificate_transaction_stored in H
    as (b & Hc & _ & Hh & Hi & Hd & _).
  destruct (registration_block_has_hash b _ h Hd eq_refl)
    as (Hb & _ & _ & Htx).
  destruct (verify_certificate_after_append fmt _ b h Hs Hb) as (x & Hx & Hnew).
  exists (found fmt x (transaction_of x)).
  split; [unfold verify_certificate; rewrite Hc; exact Hx|].
  split; [reflexivity|].
  intros Hnone. rewrite (Hnew Hnone).
  split; [rewrite <- Hh; reflexivity|].
  split; [rewrite <- Hi; reflexivity | rewrite <- Htx; reflexivity].
Qed.

Lemma example_genesis_well_shaped : Forall well_shaped (chain example_chain1).
Proof. repeat constructor; intros _; eexists; reflexivity. Qed.

Lemma example_transaction_added :
  fst (add_certificate_transaction 3 example_chain1 example_record
         (mkWorld example_clock 3))
  = Return (hash example_block1, example_chain2).
Proof. vm_compute. reflexivity. Qed.

Lemma example_stored_hash_digest :
  certificate_digest example_record
    (isoformat (reading (mkWorld example_clock 3) 1))
  = example_stored_hash.
Proof. vm_compute. reflexivity. Qed.

Lemma X12_stored_hash_is_found_witness :
  Forall well_shaped (chain example_chain1)
  /\ fst (add_certificate_transaction 3 example_chain1 example_record
            (mkWorld example_clock 3))
     = Return (hash example_block1, example_chain2)
  /\ (forall fmt, exists r,
         verify_certificate fmt example_chain2 example_stored_hash = Return r
         /\ get r "exists" = VBool true
         /\ get r "block_index" = VInt 1).
Proof.
  split; [exact example_genesis_well_shaped|].
  split; [exact example_transaction_added|].
  intros fmt.
  destruct (X12_stored_hash_is_found fmt _ _ _ _ _ _
              example_genesis_well_shaped example_transaction_added)
    as (r & Hr & He & Hnew).
  rewrite example_stored_hash_digest in Hr, Hnew.
  exists r. split; [exact Hr|]. split; [exact He|].
  assert (Hnone : forall y, In y (chain example_chain1) ->
                            has_hash example_stored_hash y = false).
  { intros y [<- | []]. reflexivity. }
  exact (proj1 (proj2 (Hnew Hnone))).
Defined.

Lemma register_certificate_success (fuel : nat)
    (self self' : BlockchainManager.t) (certificate_data result : dict)
    (w : world) :
  fst (BlockchainManager.register_certificate fuel self certificate_data w)
  = Return (result, self') ->
  get result "success" = VBool true ->
  exists block_hash blockchain',
    fst (add_certificate_transaction fuel (BlockchainManager.blockchain self)
           certificate_data (tick w))
    = Return (block_hash, blockchain')
    /\ self' = BlockchainManager.mkManager blockchain'
    /\ get result "certificate_hash"
       = VStr (certificate_digest certificate_data (isoformat (reading w 5))).
Proof.
  unfold BlockchainManager.register_certificate, bind at 1. intros H Hs.
  destruct (CertificateSmartContract.validate_certificate certificate_data w)
    as [[verdict | e |] w1] eqn:Hv; cbn [fst] in H; try discriminate.
  apply validate_certificate_valid in Hv as (_ & _ & _ & ->).
  destruct (negb (truthy (get verdict "valid"))).
  { cbn in H. injection H as <- _. discriminate. }
  unfold BlockchainManager.try_except in H.
  match type of H with
  | context [match ?body with _ => _ end] => destruct body as [o w2] eqn:Hb
  end.
  destruct o as [[r m] | e |]; cbn [fst] in H; try discriminate;
    [| cbn in H; injection H as <- _; discriminate].
  injection H as -> ->.
  apply bind_Return in Hb as ([bh bc] & w3 & Ha & Hb).
  exists bh, bc. split; [rewrite Ha; reflexivity|].
  apply add_certificate_transaction_Return in Ha
    as (_ & _ & _ & _ & _ & _ & _ & ->).
  apply bind_Return in Hb as (cert_hash & w4 & Hh & Hb).
  rewrite calculate_certificate_hash_reading in Hh. injection Hh as <- <-.
  apply bind_Return in Hb as (now & w5 & _ & Hb).
  apply ret_Return in Hb as [Hb _]. injection Hb as Hr Hm. subst result self'.
  split; [reflexivity|].
  cbn [get get_default lookup String.eqb Ascii.eqb Bool.eqb].
  unfold reading. cbn [tick reads clock]. apply certificate_digest_at. lia.
Qed.

(** X13.  On a manager in whose chain every block marked as a
    registration carries a dict as its transaction: when a registration
    succeeds and the clock gives the same [isoformat] text at the two
    instants at which the content hash is computed (the third and the
    sixth reading of the call), the [certificate_hash] that
    [register_certificate] returns is the stored one, and
    [verify_certificate] of it on the new manager reports [exists] and
    [verified] true. *)
Theorem X13_returned_hash_found_when_clock_stands :
  forall (fmt : pyfloat -> string) (fuel : nat)
         (self self' : BlockchainManager.t) (certificate_data result : dict)
         (w : world),
    Forall well_shaped (chain (BlockchainManager.blockchain self)) ->
    fst (BlockchainManager.register_certificate fuel self certificate_data w)
    = Return (result, self') ->
    get result "success" = VBool true ->
    isoformat (reading w 5) = isoformat (reading w 2) ->
    exists c r,
      get result "certificate_hash" = VStr c
      /\ BlockchainManager.verify_certificate fmt self' c = Return r
      /\ get r "exists" = VBool true
      /\ get r "verified" = VBool true.
Proof.
  intros fmt fuel self self' cd result w Hs H Hok Hclock.
  destruct (register_certificate_success _ _ _ _ _ _ H Hok)
    as (bh & bc & Ha & -> & Hc).
  apply add_certificate_transaction_stored in Ha
    as (b & Hchain & _ & _ & _ & Hd & _).
  exists (certificate_digest cd (isoformat (reading w 5))).
  assert (Hb : has_hash (certificate_digest cd (isoformat (reading w 5))) b
               = true).
  { apply (registration_block_has_hash b _ _ Hd).
    change (VStr (certificate_digest cd (isoformat (reading (tick w) 1)))
            = VStr (certificate_digest cd (isoformat (reading w 5)))).
    rewrite Hclock, reading_tick. reflexivity. }
  destruct (verify_certificate_after_append fmt _ b _ Hs Hb) as (x & Hx & _).
  exists (found fmt x (transaction_of x)).
  split; [exact Hc|].
  split; [|split; reflexivity].
  unfold BlockchainManager.verify_certificate, verify_certificate.
  cbn [BlockchainManager.blockchain]. rewrite Hchain. exact Hx.
Qed.

Lemma X13_returned_hash_found_when_clock_stands_witness :
  Forall well_shaped (chain example_chain1)
  /\ isoformat (reading (mkWorld example_frozen_clock 0) 5)
     = isoformat (reading (mkWorld example_frozen_clock 0) 2)
  /\ exists result self',
       fst (BlockchainManager.register_certificate 200
              (BlockchainManager.mkManager example_chain1) example_record
              (mkWorld example_frozen_clock 0))
       = Return (result, self')
       /\ get result "success" = VBool true
       /\ forall fmt, exists c r,
            get result "certificate_hash" = VStr c
            /\ BlockchainManager.verify_certificate fmt self' c = Return r
            /\ get r "exists" = VBool true
            /\ get r "verified" = VBool true.
Proof.
  assert (Hc : isoformat (reading (mkWorld example_frozen_clock 0) 5)
               = isoformat (reading (mkWorld example_frozen_clock 0) 2))
    by reflexivity.
  assert (Hrun : exists result self',
             fst (BlockchainManager.register_certificate 200
                    (BlockchainManager.mkManager example_chain1)
                    example_record (mkWorld example_frozen_clock 0))
             = Return (result, self')
             /\ get result "success" = VBool true)
    by (vm_compute; eexists; eexists; split; reflexivity).
  destruct Hrun as (result & self' & Hrun & Hok).
  split; [exact example_genesis_well_shaped|]. split; [exact Hc|].
  exists result, self'. split; [exact Hrun|]. split; [exact Hok|].
  intros fmt.
  exact (X13_returned_hash_found_when_clock_stands fmt 200
           (BlockchainManager.mkManager example_chain1) self' example_record
           result (mkWorld example_frozen_clock 0)
           example_genesis_well_shaped Hrun Hok Hc).
Defined.

(** X14.  Registration followed by the history query: after
    [add_certificate_transaction] has returned on a chain whose
    registrations have the shape, the history of a certificate id is the
    history before the call, followed by the entry of the new block when
    the record's [certificate_id] is that very string, and unchanged
    otherwise (also when the record has no [certificate_id]). *)
Theorem X14_history_grows_by_registration :
  forall (fmt : pyfloat -> string) (fuel : nat) (self self' : Blockchain)
         (certificate_data : dict) (w : world) (block_hash cid : string),
    Forall well_shaped (chain self) ->
    fst (add_certificate_transaction fuel self certificate_data w)
    = Return (block_hash, self') ->
    exists old b,
      get_certificate_history fmt self cid = Return old
      /\ chain self' = chain self ++ [b]
      /\ hash b = block_hash
      /\ get_certificate_history fmt self' cid
         = Return (if eq_str (get certificate_data "certificate_id") cid
                   then old ++ [history_entry fmt b (transaction_of b)]
                   else old).
Proof.
  intros fmt fuel self self' cd w bh cid Hs H.
  apply add_certificate_transaction_stored in H
    as (b & Hc & _ & Hh & _ & Hd & _).
  destruct (registration_block_has_hash b _ _ Hd eq_refl)
    as (_ & Hw & Hty & Htx).
  exists (map (fun x => history_entry fmt x (transaction_of x))
              (filter (has_certificate_id cid) (chain self))), b.
  unfold get_certificate_history.
  rewrite get_certificate_history_loop_filter by exact Hs.
  split; [reflexivity|]. split; [exact Hc|]. split; [exact Hh|].
  rewrite Hc, get_certificate_history_loop_filter
    by (apply Forall_app; split; [exact Hs | constructor; [exact Hw | constructor]]).
  rewrite filter_app, map_app. cbn [filter app].
  assert (E : has_certificate_id cid b
              = eq_str (get cd "certificate_id") cid).
  { unfold has_certificate_id, is_registration, contains.
    rewrite Hty, Htx, Hd. reflexivity. }
  rewrite E. destruct (eq_str (get cd "certificate_id") cid);
    cbn [map]; rewrite ?app_nil_r; reflexivity.
Qed.

Lemma example_chain3_well_shaped : Forall well_shaped (chain example_chain3).
Proof. repeat constructor; intros _; eexists; reflexivity. Qed.

Lemma example_third_registration :
  exists block_hash,
    fst (add_certificate_transaction 200 example_chain3 example_record3
           (mkWorld example_clock 15))
    = Return (block_hash, example_chain4).
Proof. vm_compute. eexists. reflexivity. Qed.

Lemma X14_history_grows_by_registration_witness :
  Forall well_shaped (chain example_chain3)
  /\ exists block_hash,
       fst (add_certificate_transaction 200 example_chain3 example_record3
              (mkWorld example_clock 15))
       = Return (block_hash, example_chain4)
       /\ forall fmt, exists old new_,
            get_certificate_history fmt example_chain3 "CERT-7" = Return old
            /\ get_certificate_history fmt example_chain4 "CERT-7"
               = Return new_
            /\ List.length old = 1%nat
            /\ List.length new_ = 2%nat.
Proof.
  split; [exact example_chain3_well_shaped|].
  destruct example_third_registration as [bh Hrun].
  exists bh. split; [exact Hrun|]. intros fmt.
  destruct (X14_history_grows_by_registration fmt _ _ _ _ _ _ "CERT-7"
              example_chain3_well_shaped Hrun)
    as (old & b & Hold & _ & _ & Hnew).
  exists old. eexists. split; [exact Hold|]. split; [exact Hnew|].
  assert (Hl : List.length old = 1%nat).
  { assert (E : get_certificate_history fmt example_chain3 "CERT-7"
                = Return [history_entry fmt
                            (nth 2 (chain example_chain3) example_genesis)
                            (transaction_of
                               (nth 2 (chain example_chain3) example_genesis))])
      by reflexivity.
    rewrite E in Hold. injection Hold as <-. reflexivity. }
  split; [exact Hl|].
  change (eq_str (get example_record3 "certificate_id") "CERT-7") with true.
  cbn iota. rewrite length_app, Hl. reflexivity.
Defined.

(** ** Statistics and summaries *)

Lemma get_chain_stats_loop_returns (blocks : list Block) (total verified : Z) :
  Forall well_shaped blocks ->
  exists counts, get_chain_stats_loop blocks total verified = Return counts.
Proof.
  intros H. revert total verified.
  induction H as [|b blocks Hb _ IH]; intros total verified;
    cbn [get_chain_stats_loop]; [eauto|].
  fold (typed_registration b). fold (transaction_of b).
  destruct (typed_registration b) eqn:Hr; [|apply IH].
  destruct (Hb Hr) as [t ->]. cbn [attr_get attr_get_default obind].
  destruct (eq_str (get_default t "verification_status" VNone) "verified");
    apply IH.
Qed.

Lemma ledger_registrations (self : Blockchain) :
  ledger self ->
  exists g rest,
    chain self = g :: rest
    /\ typed_registration g = false
    /\ Forall (fun b => typed_registration b = true) rest.
Proof.
  induction 1 as [fuel d w self H | fuel self self' cd w bh _ IH H].
  - apply fst_Return in H. unfold new_Blockchain in H.
    apply create_genesis_block_Return in H as (g & Hm & -> & _).
    destruct (mine_block_fields _ _ _ _ Hm) as (_ & _ & Hd & _).
    exists g, []. split; [reflexivity|]. split; [|constructor].
    unfold typed_registration. rewrite Hd. reflexivity.
  - destruct IH as (g & rest & Hc & Hg & Hrest).
    apply add_certificate_transaction_stored in H
      as (b & Hc' & _ & _ & _ & Hd & _).
    exists g, (rest ++ [b]). rewrite Hc', Hc. split; [reflexivity|].
    split; [exact Hg|]. apply Forall_app. split; [exact Hrest|].
    constructor; [|constructor].
    unfold typed_registration. rewrite Hd. reflexivity.
Qed.

Lemma filter_all {A} (f : A -> bool) (l : list A) :
  Forall (fun x => f x = true) l -> filter f l = l.
Proof.
  induction 1 as [|x l Hx _ IH]; cbn; [reflexivity|].
  rewrite Hx, IH. reflexivity.
Qed.

(** X15.  On every chain the manager builds, [get_chain_stats] returns
    without an error; the chain is reported valid; [total_blocks] is the
    length of the chain and [total_certificates] is one less (every block
    but the genesis block is a registration); [verified_certificates] is
    at most that; and the latest block is reported with index
    [total_blocks - 1] and its own hash. *)
Theorem X15_stats_of_a_ledger :
  forall self : Blockchain,
    ledger self ->
    exists r latest verified,
      get_chain_stats self = Return r
      /\ get r "total_blocks" = VInt (Z.of_nat (List.length (chain self)))
      /\ get r "total_certificates"
         = VInt (Z.of_nat (List.length (chain self)) - 1)
      /\ get r "verified_certificates" = VInt verified
      /\ 0 <= verified <= Z.of_nat (List.length (chain self)) - 1
      /\ get r "chain_valid" = VBool true
      /\ get r "difficulty" = VInt (difficulty self)
      /\ get_latest_block self = Return latest
      /\ get r "latest_block_hash" = VStr (hash latest)
      /\ get r "latest_block_index" = VInt (index latest).
Proof.
  intros self Hl.
  destruct (ledger_well_shaped _ Hl) as [Hs Hidx].
  pose proof (ledger_reachable _ Hl) as Hr.
  destruct (reachable_invariant _ Hr) as (Hne & Hint & _).
  pose proof (chain_integrity_valid _ Hint) as Hvalid.
  destruct (ledger_registrations _ Hl) as (g & rest & Hc & Hg & Hrest).
  destruct (get_chain_stats_loop_returns _ 0 0 Hs) as [counts Hcounts].
  destruct (get_chain_stats_loop_counts _ _ _ _ Hcounts) as [Ht Hv].
  destruct (exists_last Hne) as (pre & latest & Hlast).
  assert (Hlatest : get_latest_block self = Return latest)
    by (apply get_latest_block_snoc; eauto).
  assert (Htotal : fst counts = Z.of_nat (List.length (chain self)) - 1).
  { rewrite Ht, Hc. cbn [filter]. rewrite Hg, (filter_all _ _ Hrest).
    cbn [List.length]. lia. }
  assert (Hver : 0 <= snd counts <= Z.of_nat (List.length (chain self)) - 1).
  { assert (Hsg : stored_verified g = false)
      by (unfold stored_verified; rewrite Hg; reflexivity).
    rewrite Hv, Hc. cbn [filter]. rewrite Hsg.
    pose proof (filter_length_le stored_verified rest).
    cbn [List.length]. lia. }
  eexists. exists latest, (snd counts).
  unfold get_chain_stats. rewrite Hcounts, Hlatest. cbn [obind].
  rewrite Hc at 1. cbn [obind].
  split; [reflexivity|]. split; [reflexivity|].
  split; [cbn; rewrite Htotal; reflexivity|].
  split; [reflexivity|]. split; [exact Hver|].
  split; [cbn; rewrite Hvalid; reflexivity|].
  split; [reflexivity|]. split; [reflexivity|]. split; [reflexivity|].
  cbn. f_equal.
  rewrite (Hidx (List.length pre) latest).
  - rewrite Hlast, length_app. cbn. lia.
  - rewrite Hlast, nth_error_app2, Nat.sub_diag by lia. reflexivity.
Qed.

Lemma example_chain2_ledger : ledger example_chain2.
Proof.
  eapply ledger_register; [|exact example_transaction_added].
  eapply ledger_new. exact example_chain1_created.
Qed.

Lemma X15_stats_of_a_ledger_witness :
  ledger example_chain2
  /\ exists r,
       get_chain_stats example_chain2 = Return r
       /\ get r "total_blocks" = VInt 2
       /\ get r "total_certificates" = VInt 1
       /\ get r "chain_valid" = VBool true.
Proof.
  pose proof example_chain2_ledger as Hl.
  destruct (X15_stats_of_a_ledger _ Hl)
    as (r & latest & verified & Hr & Hb & Ht & _ & _ & Hv & _).
  split; [exact Hl|]. exists r.
  split; [exact Hr|]. split; [exact Hb|]. split; [exact Ht | exact Hv].
Defined.

(** X16.  On an empty chain every query returns: the statistics report no
    blocks, a valid chain, no latest hash and latest index -1; the
    manager's information has no genesis and no latest block; lookups find
    nothing.  Only [get_latest_block] raises there, with [IndexError]. *)
Theorem X16_empty_chain_queries :
  forall self : Blockchain,
    chain self = [] ->
    get_chain_stats self
    = Return [ ("total_blocks", VInt 0);
               ("total_certificates", VInt 0);
               ("verified_certificates", VInt 0);
               ("chain_valid", VBool true);
               ("difficulty", VInt (difficulty self));
               ("latest_block_hash", VNone);
               ("latest_block_index", VInt (-1)) ]
    /\ (forall fmt, exists r,
           BlockchainManager.get_blockchain_info fmt
             (BlockchainManager.mkManager self) = Return r
           /\ get r "genesis_block" = VNone
           /\ get r "latest_block" = VNone)
    /\ (forall fmt h, verify_certificate fmt self h = Return not_found)
    /\ (forall fmt cid, get_certificate_history fmt self cid = Return [])
    /\ (forall fmt limit,
           BlockchainManager.get_recent_transactions fmt
             (BlockchainManager.mkManager self) limit = Return [])
    /\ exists e, get_latest_block self = Raise e
                  /\ exn_class e = "IndexError".
Proof.
  intros [c d pend] H. cbn [chain] in H. subst c.
  split; [reflexivity|].
  split; [intros fmt; eexists; split; [reflexivity|]; split; reflexivity|].
  split; [reflexivity|]. split; [reflexivity|]. split; [reflexivity|].
  eexists. split; reflexivity.
Qed.

Lemma X16_empty_chain_queries_witness :
  chain empty_chain = []
  /\ get_chain_stats empty_chain
     = Return [ ("total_blocks", VInt 0);
                ("total_certificates", VInt 0);
                ("verified_certificates", VInt 0);
                ("chain_valid", VBool true);
                ("difficulty", VInt 2);
                ("latest_block_hash", VNone);
                ("latest_block_index", VInt (-1)) ].
Proof.
  assert (H : chain empty_chain = []) by reflexivity.
  split; [exact H|].
  exact (proj1 (X16_empty_chain_queries empty_chain H)).
Defined.

Lemma get_recent_transactions_loop_last_call (fmt : pyfloat -> string)
    (blocks : list Block) (limit : Z) (recent : list dict) (count : Z) :
  Forall well_shaped blocks ->
  limit <= count + 1 ->
  BlockchainManager.get_recent_transactions_loop fmt blocks limit recent count
  = Return (recent
            ++ map (summary fmt)
                   (firstn 1 (filter typed_registration blocks))).
Proof.
  intros H Hl. revert recent.
  induction H as [|b blocks Hb _ IH]; intros recent.
  - cbn. rewrite app_nil_r. reflexivity.
  - cbn [BlockchainManager.get_recent_transactions_loop filter].
    fold (typed_registration b). fold (transaction_of b).
    destruct (typed_registration b) eqn:Hr; [|apply IH].
    destruct (Hb Hr) as [t Ht].
    cbn [firstn map]. unfold summary at 1. rewrite Ht.
    cbn [attr_get_default obind].
    destruct (Z.leb_spec limit (count + 1)) as [_ | Hgt]; [reflexivity | lia].
Qed.

(** X17.  A limit of 1, of 0 or below 0 makes no difference to
    [get_recent_transactions]: on a chain whose registrations have the
    shape it returns the summary of the newest registration alone, or the
    empty list when the chain holds none; the limit is compared with the
    count only after an entry was added. *)
Theorem X17_recent_with_small_limit :
  forall (fmt : pyfloat -> string) (self : BlockchainManager.t) (limit : Z),
    Forall well_shaped (chain (BlockchainManager.blockchain self)) ->
    limit <= 1 ->
    BlockchainManager.get_recent_transactions fmt self limit
    = Return (map (summary fmt)
                  (firstn 1
                     (filter typed_registration
                        (List.rev
                           (chain (BlockchainManager.blockchain self)))))).
Proof.
  intros fmt self limit Hs Hl.
  unfold BlockchainManager.get_recent_transactions.
  rewrite get_recent_transactions_loop_last_call;
    [reflexivity | apply Forall_rev; exact Hs | lia].
Qed.

Lemma X17_recent_with_small_limit_witness :
  Forall well_shaped (chain example_chain4)
  /\ -5 <= 1
  /\ forall fmt, exists recent,
       BlockchainManager.get_recent_transactions fmt
         (BlockchainManager.mkManager example_chain4) (-5) = Return recent
       /\ map (fun e => get e "block_index") recent = [VInt 3].
Proof.
  assert (Hl : -5 <= 1) by lia.
  split; [exact example_chain4_well_shaped|]. split; [exact Hl|].
  intros fmt. eexists. split.
  - exact (X17_recent_with_small_limit fmt
             (BlockchainManager.mkManager example_chain4) (-5)
             example_chain4_well_shaped Hl).
  - reflexivity.
Defined.

(** X18.  The manager's history query never fails on a chain whose
    registrations have the shape: it reports [total_transactions] as the
    number of registrations that bear the id and [exists] as whether there
    is one; for an id that no registration bears the answer is [exists]
    false with an empty history. *)
Theorem X18_manager_history :
  forall (fmt : pyfloat -> string) (self : BlockchainManager.t) (cid : string),
    Forall well_shaped (chain (BlockchainManager.blockchain self)) ->
    let matching :=
      filter (has_certificate_id cid)
             (chain (BlockchainManager.blockchain self)) in
    exists r entries,
      BlockchainManager.get_certificate_history fmt self cid = Return r
      /\ get r "certificate_id" = VStr cid
      /\ get r "history" = VList (map VDict entries)
      /\ List.length entries = List.length matching
      /\ get r "total_transactions" = VInt (Z.of_nat (List.length matching))
      /\ get r "exists"
         = VBool (match matching with [] => false | _ => true end)
      /\ ((forall b, In b (chain (BlockchainManager.blockchain self)) ->
                     has_certificate_id cid b = false) ->
          entries = [] /\ get r "exists" = VBool false).
Proof.
  intros fmt self cid Hs matching.
  unfold BlockchainManager.get_certificate_history, get_certificate_history.
  rewrite get_certificate_history_loop_filter by exact Hs.
  cbn [app obind]. fold matching.
  eexists. exists (map (fun b => history_entry fmt b (transaction_of b)) matching).
  split; [reflexivity|]. split; [reflexivity|]. split; [reflexivity|].
  split; [apply length_map|].
  split; [cbn; rewrite length_map; reflexivity|].
  assert (He : forall l : list Block,
             (0 <? Z.of_nat (List.length
                     (map (fun b => history_entry fmt b (transaction_of b)) l)))
             = match l with [] => false | _ => true end).
  { intros [|x l]; [reflexivity|]. cbn [map List.length].
    apply Z.ltb_lt. lia. }
  split; [cbn; rewrite He; reflexivity|].
  intros Hnone.
  assert (Hm : matching = []).
  { unfold matching.
    induction (chain (BlockchainManager.blockchain self)) as [|x l IH];
      [reflexivity|].
    cbn [filter]. rewrite (Hnone x (or_introl eq_refl)).
    apply IH.
    - inversion Hs; assumption.
    - intros b Hb. apply Hnone. now right. }
  rewrite Hm. split; reflexivity.
Qed.

Lemma X18_manager_history_witness :
  Forall well_shaped (chain example_chain4)
  /\ forall fmt, exists r,
       BlockchainManager.get_certificate_history fmt
         (BlockchainManager.mkManager example_chain4) "CERT-7" = Return r
       /\ get r "total_transactions" = VInt 2
       /\ get r "exists" = VBool true.
Proof.
  split; [exact example_chain4_well_shaped|]. intros fmt.
  destruct (X18_manager_history fmt (BlockchainManager.mkManager example_chain4)
              "CERT-7" example_chain4_well_shaped)
    as (r & entries & Hr & _ & _ & _ & Ht & He & _).
  exists r. split; [exact Hr|]. split; [exact Ht | exact He].
Defined.

(** ** The manager's start and its reports *)

Lemma mine_block_never_raises (fuel : nat) (b : Block) (d : Z) :
  mine_block fuel b d = OutOfFuel \/ exists b', mine_block fuel b d = Return b'.
Proof.
  revert b. induction fuel as [|fuel IH]; intros b; rewrite mine_block_unfold;
    destruct (sealed d b); cbn [negb]; eauto.
Qed.

(** X19.  [init_blockchain] keeps a loaded chain as it is, without reading
    the clock and without checking it.  With nothing loaded it never
    raises: it either is still sealing or returns a manager whose chain is
    the genesis block alone, at difficulty 2, sealed with two leading
    zeros, with a hash that validates, and that [is_chain_valid] accepts;
    the clock was read twice. *)
Theorem X19_init_blockchain :
  forall (fuel : nat) (w : world),
    (forall loaded : Blockchain,
        BlockchainManager.init_blockchain fuel (Some loaded) w
        = (Return (BlockchainManager.mkManager loaded), w))
    /\ (fst (BlockchainManager.init_blockchain fuel None w) = OutOfFuel
        \/ exists self,
             fst (BlockchainManager.init_blockchain fuel None w) = Return self)
    /\ (forall self : BlockchainManager.t,
           fst (BlockchainManager.init_blockchain fuel None w) = Return self ->
           exists g,
             chain (BlockchainManager.blockchain self) = [g]
             /\ difficulty (BlockchainManager.blockchain self) = 2
             /\ index g = 0
             /\ previous_hash g = genesis_previous_hash
             /\ get (data g) "type" = VStr "genesis"
             /\ validate g = true
             /\ String.get 0 (hash g) = Some "0"%char
             /\ String.get 1 (hash g) = Some "0"%char
             /\ is_chain_valid (BlockchainManager.blockchain self) = true
             /\ reads (snd (BlockchainManager.init_blockchain fuel None w))
                = S (S (reads w))).
Proof.
  intros fuel w. split; [reflexivity|].
  unfold BlockchainManager.init_blockchain, new_Blockchain,
    create_genesis_block, bind, time_time, now_isoformat, lift, ret.
  cbn [fst snd difficulty].
  set (candidate := new_Block _ _ _ _).
  destruct (mine_block_never_raises fuel candidate 2) as [E | [g E]];
    rewrite E; cbn [fst snd].
  - split; [left; reflexivity | discriminate].
  - split; [right; eexists; reflexivity|].
    intros self H. injection H as <-.
    destruct (mine_block_fields _ _ _ _ E) as (Hi & _ & Hd & Hp & _).
    pose proof (mine_block_sealed _ _ _ _ E) as Hs.
    assert (Hv : validate g = true)
      by (eapply mine_block_validate; [apply validate_new_Block | exact E]).
    exists g. cbn [BlockchainManager.blockchain append_block chain difficulty].
    split; [reflexivity|]. split; [reflexivity|].
    split; [exact Hi|]. split; [exact Hp|].
    split; [rewrite Hd; reflexivity|]. split; [exact Hv|].
    split; [apply (sealed_leading_zeros 2 g); [lia | exact Hs | cbn; lia]|].
    split; [apply (sealed_leading_zeros 2 g); [lia | exact Hs | cbn; lia]|].
    split; [|reflexivity].
    apply chain_integrity_valid. cbn [chain append_block app].
    split; [apply linked_single | constructor; [exact Hv | constructor]].
Qed.

Lemma example_fresh_chain_created :
  fst (BlockchainManager.init_blockchain 2 None (mkWorld example_clock 16))
  = Return (BlockchainManager.mkManager example_fresh_chain).
Proof. vm_compute. reflexivity. Qed.

Lemma X19_init_blockchain_witness :
  fst (BlockchainManager.init_blockchain 2 None (mkWorld example_clock 16))
  = Return (BlockchainManager.mkManager example_fresh_chain)
  /\ exists g,
       chain example_fresh_chain = [g]
       /\ validate g = true
       /\ is_chain_valid example_fresh_chain = true.
Proof.
  split; [exact example_fresh_chain_created|].
  destruct (proj2 (proj2 (X19_init_blockchain 2 (mkWorld example_clock 16)))
              _ example_fresh_chain_created)
    as (g & Hc & _ & _ & _ & _ & Hv & _ & _ & Hvalid & _).
  exists g. split; [exact Hc|]. split; [exact Hv | exact Hvalid].
Defined.

(** X20.  On a chain that is not empty and whose registrations have the
    shape, [get_blockchain_info] returns: its [blockchain_info] is the
    dict that [get_chain_stats] returns, entry for entry; [genesis_block]
    and [latest_block] are the [to_dict] forms of the first and of the
    last block, so the hash of [latest_block] is the reported
    [latest_block_hash]; on a chain of one block the two are equal. *)
Theorem X20_blockchain_info :
  forall (fmt : pyfloat -> string) (self : BlockchainManager.t)
         (first : Block) (rest : list Block),
    chain (BlockchainManager.blockchain self) = first :: rest ->
    Forall well_shaped (chain (BlockchainManager.blockchain self)) ->
    exists r stats latest,
      BlockchainManager.get_blockchain_info fmt self = Return r
      /\ keys r = ["blockchain_info"; "genesis_block"; "latest_block"]
      /\ get_chain_stats (BlockchainManager.blockchain self) = Return stats
      /\ get r "blockchain_info" = VDict stats
      /\ get r "genesis_block" = VDict (Block_to_dict fmt first)
      /\ get_latest_block (BlockchainManager.blockchain self) = Return latest
      /\ latest = last rest first
      /\ get r "latest_block" = VDict (Block_to_dict fmt latest)
      /\ get stats "latest_block_hash"
         = get (Block_to_dict fmt latest) "hash"
      /\ (rest = [] -> get r "latest_block" = get r "genesis_block").
Proof.
  intros fmt [bc] first rest Hc Hs. cbn [BlockchainManager.blockchain] in *.
  destruct (get_chain_stats_loop_returns _ 0 0 Hs) as [counts Hcounts].
  assert (Hne : chain bc <> []) by (rewrite Hc; discriminate).
  destruct (exists_last Hne) as (pre & latest & Hlast).
  assert (Hlatest : get_latest_block bc = Return latest)
    by (apply get_latest_block_snoc; exists pre; exact Hlast).
  assert (Hl : latest = last rest first).
  { rewrite <- (last_cons_default first first rest), <- Hc, Hlast.
    symmetry. apply last_last. }
  assert (Hstats : exists stats,
             get_chain_stats bc = Return stats
             /\ get stats "latest_block_hash" = VStr (hash latest)
             /\ [ ("total_blocks", get stats "total_blocks");
                  ("total_certificates", get stats "total_certificates");
                  ("verified_certificates",
                    get stats "verified_certificates");
                  ("chain_valid", get stats "chain_valid");
                  ("difficulty", get stats "difficulty");
                  ("latest_block_hash", get stats "latest_block_hash");
                  ("latest_block_index", get stats "latest_block_index") ]
                = stats).
  { unfold get_chain_stats. rewrite Hcounts, Hlatest. cbn [obind].
    rewrite Hc. cbn [obind].
    eexists. split; [reflexivity|]. split; reflexivity. }
  destruct Hstats as (stats & Hst & Hh & Hcopy).
  unfold BlockchainManager.get_blockchain_info.
  cbn [BlockchainManager.blockchain].
  rewrite Hst, Hlatest. cbn [obind]. rewrite Hc. cbn [obind]. rewrite Hcopy.
  eexists. exists stats, latest.
  split; [reflexivity|]. split; [reflexivity|]. split; [reflexivity|].
  split; [reflexivity|]. split; [reflexivity|]. split; [reflexivity|].
  split; [exact Hl|]. split; [reflexivity|]. split; [exact Hh|].
  intros ->. cbn in Hl. subst latest. reflexivity.
Qed.

Lemma X20_blockchain_info_witness :
  chain example_chain4 = example_genesis :: tl (chain example_chain4)
  /\ Forall well_shaped (chain example_chain4)
  /\ forall fmt, exists r,
       BlockchainManager.get_blockchain_info fmt
         (BlockchainManager.mkManager example_chain4) = Return r
       /\ get r "genesis_block" = VDict (Block_to_dict fmt example_genesis).
Proof.
  assert (Hc : chain example_chain4
               = example_genesis :: tl (chain example_chain4))
    by reflexivity.
  split; [exact Hc|]. split; [exact example_chain4_well_shaped|].
  intros fmt.
  destruct (X20_blockchain_info fmt (BlockchainManager.mkManager example_chain4)
              _ _ Hc example_chain4_well_shaped)
    as (r & stats & latest & Hr & _ & _ & _ & Hg & _).
  exists r. split; [exact Hr | exact Hg].
Defined.

(** ** A registration whose transaction is no dict *)

Lemma odd_block_raises (b : Block) (k : string) :
  odd_block b = true ->
  typed_registration b = true
  /\ contains (data b) "transaction" = true
  /\ exists e, attr_get (transaction_of b) k = Raise e
               /\ exn_class e = "AttributeError".
Proof.
  unfold odd_block. intros H. apply andb_true_iff in H as [Ht Ho].
  split; [exact Ht|]. split.
  - unfold transaction_of, get_default, contains in *.
    destruct (lookup (data b) "transaction"); [reflexivity | discriminate].
  - destruct (transaction_of b); try discriminate;
      eexists; (split; [reflexivity|]); reflexivity.
Qed.

Lemma get_chain_stats_loop_odd (blocks : list Block) (total verified : Z) :
  existsb odd_block blocks = true ->
  exists e, get_chain_stats_loop blocks total verified = Raise e
            /\ exn_class e = "AttributeError".
Proof.
  revert total verified.
  induction blocks as [|b blocks IH]; intros total verified H;
    [discriminate|].
  cbn [get_chain_stats_loop]. fold (typed_registration b).
  fold (transaction_of b).
  destruct (odd_block b) eqn:Hb.
  - destruct (odd_block_raises b "verification_status" Hb)
      as (Ht & _ & e & He & Hclass).
    rewrite Ht, He. cbn [obind]. eauto.
  - cbn [existsb] in H. rewrite Hb in H. cbn [orb] in H.
    destruct (typed_registration b) eqn:Ht; [|apply IH; exact H].
    destruct (transaction_of b) eqn:Hx;
      try (unfold odd_block in Hb; rewrite Ht, Hx in Hb; discriminate).
    cbn [attr_get attr_get_default obind].
    destruct (eq_str _ "verified"); apply IH; exact H.
Qed.

Lemma get_certificate_history_loop_odd (fmt : pyfloat -> string)
    (blocks : list Block) (cid : string) (history : list dict) :
  existsb odd_block blocks = true ->
  exists e, get_certificate_history_loop fmt blocks cid history = Raise e
            /\ exn_class e = "AttributeError".
Proof.
  revert history.
  induction blocks as [|b blocks IH]; intros history H; [discriminate|].
  cbn [get_certificate_history_loop]. fold (typed_registration b).
  fold (transaction_of b).
  destruct (odd_block b) eqn:Hb.
  - destruct (odd_block_raises b "certificate_id" Hb)
      as (Ht & Hc & e & He & Hclass).
    rewrite Ht, Hc, He. cbn [andb obind]. eauto.
  - cbn [existsb] in H. rewrite Hb in H. cbn [orb] in H.
    destruct (typed_registration b && contains (data b) "transaction") eqn:Ht;
      [|apply IH; exact H].
    apply andb_true_iff in Ht as [Ht _].
    destruct (transaction_of b) eqn:Hx;
      try (unfold odd_block in Hb; rewrite Ht, Hx in Hb; discriminate).
    cbn [attr_get attr_get_default obind].
    destruct (eq_str _ cid); apply IH; exact H.
Qed.

(** X21.  Once the chain holds a block marked as a certificate
    registration whose transaction is not a dict (a payload that
    [add_block] stores like any other), [get_chain_stats], the manager's
    [get_blockchain_info] and [get_certificate_history], of the chain and
    of the manager, for every id raise AttributeError, while
    [validate_chain] still returns its report, with the verdict of
    [is_chain_valid] and the number of blocks. *)
Theorem X21_odd_block_breaks_reports :
  forall (fmt : pyfloat -> string) (self : Blockchain),
    existsb odd_block (chain self) = true ->
    (exists e, get_chain_stats self = Raise e
               /\ exn_class e = "AttributeError")
    /\ (exists e,
           BlockchainManager.get_blockchain_info fmt
             (BlockchainManager.mkManager self) = Raise e
           /\ exn_class e = "AttributeError")
    /\ (forall cid, exists e,
           get_certificate_history fmt self cid = Raise e
           /\ exn_class e = "AttributeError")
    /\ (forall cid, exists e,
           BlockchainManager.get_certificate_history fmt
             (BlockchainManager.mkManager self) cid = Raise e
           /\ exn_class e = "AttributeError")
    /\ (forall w, exists r,
           fst (BlockchainManager.validate_chain
                  (BlockchainManager.mkManager self) w) = Return r
           /\ get r "chain_valid" = VBool (is_chain_valid self)
           /\ get r "total_blocks"
              = VInt (Z.of_nat (List.length (chain self)))).
Proof.
  intros fmt self H.
  destruct (get_chain_stats_loop_odd _ 0 0 H) as (e & He & Hclass).
  assert (Hstats : get_chain_stats self = Raise e)
    by (unfold get_chain_stats; rewrite He; reflexivity).
  split; [eauto|].
  split.
  { exists e. split; [|exact Hclass].
    unfold BlockchainManager.get_blockchain_info.
    cbn [BlockchainManager.blockchain]. rewrite Hstats. reflexivity. }
  split; [intros cid; apply get_certificate_history_loop_odd; exact H|].
  split.
  { intros cid.
    destruct (get_certificate_history_loop_odd fmt _ cid [] H)
      as (e' & He' & Hclass').
    exists e'. split; [|exact Hclass'].
    unfold BlockchainManager.get_certificate_history, get_certificate_history.
    cbn [BlockchainManager.blockchain]. rewrite He'. reflexivity. }
  intros w. eexists. split; [reflexivity|]. split; reflexivity.
Qed.

Lemma X21_odd_block_breaks_reports_witness :
  existsb odd_block (chain example_odd_chain) = true
  /\ is_chain_valid example_odd_chain = true
  /\ exists e, get_chain_stats example_odd_chain = Raise e
               /\ exn_class e = "AttributeError".
Proof.
  assert (H : existsb odd_block (chain example_odd_chain) = true)
    by (vm_compute; reflexivity).
  split; [exact H|]. split; [vm_compute; reflexivity|].
  exact (proj1 (X21_odd_block_breaks_reports (fun _ => EmptyString) _ H)).
Defined.

(** ** What the content hash covers *)

(** X22.  [calculate_certificate_hash] always returns a digest of 64
    characters and reads the clock once.  The digest covers the
    certificate number, the owner id, the file hash (read as the empty
    string when the record has none) and the instant of the call, and
    nothing else: two records that agree on these three entries get the
    same digest at the same instant, whatever their id, type, owner name,
    status or score. *)
Theorem X22_certificate_hash_coverage :
  forall (certificate_data certificate_data' : dict) (w w' : world),
    get certificate_data "certificate_number"
    = get certificate_data' "certificate_number" ->
    get certificate_data "owner_id" = get certificate_data' "owner_id" ->
    get_default certificate_data "file_hash" (VStr EmptyString)
    = get_default certificate_data' "file_hash" (VStr EmptyString) ->
    isoformat (reading w 0) = isoformat (reading w' 0) ->
    exists h,
      calculate_certificate_hash certificate_data w = (Return h, tick w)
      /\ calculate_certificate_hash certificate_data' w' = (Return h, tick w')
      /\ String.length h = 64%nat.
Proof.
  intros cd cd' w w' Hn Ho Hf Ht.
  exists (certificate_digest cd (isoformat (reading w 0))).
  split; [apply calculate_certificate_hash_reading|].
  split; [|apply hexdigest_length].
  rewrite calculate_certificate_hash_reading.
  unfold certificate_digest. rewrite Hn, Ho, Hf, Ht. reflexivity.
Qed.

Lemma X22_certificate_hash_coverage_witness :
  exists h,
    calculate_certificate_hash example_record (mkWorld example_clock 2)
    = (Return h, tick (mkWorld example_clock 2))
    /\ calculate_certificate_hash example_weak_record (mkWorld example_clock 2)
       = (Return h, tick (mkWorld example_clock 2))
    /\ String.length h = 64%nat.
Proof.
  exact (X22_certificate_hash_coverage example_record example_weak_record
           (mkWorld example_clock 2) (mkWorld example_clock 2)
           eq_refl eq_refl eq_refl eq_refl).
Defined.
